(** * OpenNode Forge API: task orchestration core

    A shallow embedding of the asynchronous task orchestration of
    [src/api/main.py] and [src/api/routers/generate.py]: the subprocess
    runner, the three task stores of [main.py] with their background runs
    and cleanup sweep, and the progress-reporting generation task of the
    router with its status endpoint.

    Python code is embedded in a state-and-exception monad [Py W]: a
    computation takes the world [W] (the module-level dictionaries, the
    clock) and either returns a value or raises, together with the world
    it leaves behind.  [try: ... except Exception as e: ...] is
    [try_except].  Only exceptions deriving from [Exception] are modelled
    (cancellation and interpreter exit are outside the model), and a
    coroutine is run in isolation: no other coroutine touches the world
    while it is suspended. *)

From Stdlib Require Import ZArith List Strings.Byte Strings.Ascii Sorting.Sorted.
From stdpp Require Import gmap strings list fin_maps pretty.
Import ListNotations.

Local Open Scope string_scope.
Local Open Scope Z_scope.

(** ** Python values and exceptions *)

#[local] Set Warnings "-register-all".

(** [Dict[str, Any]] payloads: JSON-like values.  A dictionary keeps its
    insertion order. *)
Inductive Value :=
| VNone
| VBool (b : bool)
| VInt (z : Z)
| VStr (s : string)
| VList (l : list Value)
| VDict (d : list (string * Value)).

Abbreviation Dict := (list (string * Value)).

(** Truth value of an object, as tested by [if x:] and [x or y]. *)
Definition truthy (v : Value) : bool :=
  match v with
  | VNone => false
  | VBool b => b
  | VInt z => negb (z =? 0)
  | VStr s => negb (String.eqb s "")
  | VList l => match l with [] => false | _ => true end
  | VDict d => match d with [] => false | _ => true end
  end.

(** Exceptions deriving from [Exception].  [HTTPException] carries the
    two attributes the handlers read; every other class is kept as its
    class name and the text [str(e)] gives. *)
Inductive PyExc :=
| Error (cls : string) (msg : string)
| HTTPException (status_code : Z) (detail : string).

(** [str(e)].  For [HTTPException] this is Starlette's [__str__],
    [f"{status_code}: {detail}"]. *)
Definition str (e : PyExc) : string :=
  match e with
  | Error _ msg => msg
  | HTTPException code detail => pretty code +:+ ": " +:+ detail
  end.

(** [d[k]] on a dictionary: the value, or [KeyError(k)], whose text is
    the repr of the key. *)
Definition KeyError (k : string) : PyExc := Error "KeyError" ("'" +:+ k +:+ "'").

Fixpoint dict_get (d : Dict) (k : string) : option Value :=
  match d with
  | [] => None
  | (k', v) :: d' => if String.eqb k' k then Some v else dict_get d' k
  end.

(** ** The monad of Python computations *)

Inductive Outcome (A : Type) :=
| Returned (a : A)
| Raised (e : PyExc).
Arguments Returned {A} a.
Arguments Raised {A} e.

Definition Py (W A : Type) : Type := W -> Outcome A * W.

Section Monad.
Context {W : Type}.

Definition ret {A} (a : A) : Py W A := fun w => (Returned a, w).

Definition raise {A} (e : PyExc) : Py W A := fun w => (Raised e, w).

Definition bind {A B} (c : Py W A) (k : A -> Py W B) : Py W B :=
  fun w =>
    match c w with
    | (Returned a, w') => k a w'
    | (Raised e, w') => (Raised e, w')
    end.

(** [try: body  except Exception as e: handler(e)] *)
Definition try_except {A} (body : Py W A) (handler : PyExc -> Py W A) : Py W A :=
  fun w =>
    match body w with
    | (Returned a, w') => (Returned a, w')
    | (Raised e, w') => handler e w'
    end.

Definition gets {A} (f : W -> A) : Py W A := fun w => (Returned (f w), w).

Definition modify (f : W -> W) : Py W unit := fun w => (Returned tt, f w).

(** Result of a collaborator that either returns or raises and does not
    touch the world. *)
Definition lift {A} (o : Outcome A) : Py W A := fun w => (o, w).
End Monad.

Declare Scope py_scope.
Delimit Scope py_scope with py.
Notation "x <- c1 ;; c2" := (bind c1 (fun x => c2))
  (at level 100, c1 at next level, right associativity) : py_scope.
Notation "c1 ;;; c2" := (bind c1 (fun _ => c2))
  (at level 100, right associativity) : py_scope.
Local Open Scope py_scope.

(** [d[k]] as a computation. *)
Definition subscript {W} (d : Dict) (k : string) : Py W Value :=
  match dict_get d k with
  | Some v => ret v
  | None => raise (KeyError k)
  end.

(** The final world and outcome of a computation. *)
Definition outcome_of {W A} (c : Py W A) (w : W) : Outcome A := fst (c w).
Definition world_after {W A} (c : Py W A) (w : W) : W := snd (c w).

(** ** Time

    [datetime] values are microseconds on the UTC time line. *)
Definition timedelta_hours (h : Z) : Z := h * 3600 * 1000000.
Definition timedelta_seconds (s : Z) : Z := s * 1000000.

(** ** Bytes and text

    A [str] is represented by its UTF-8 encoding, so that
    [bytes.decode('utf-8')] is the identity on well-formed input and
    raises [UnicodeDecodeError] on anything else. *)
Definition in_range (lo hi : N) (b : Byte.byte) : bool :=
  ((lo <=? Byte.to_N b) && (Byte.to_N b <=? hi))%N.

Definition continuation : Byte.byte -> bool := in_range 128 191.

(** Well-formed UTF-8 byte sequences (Unicode table 3-7): no overlong
    forms, no surrogates, nothing above U+10FFFF. *)
Fixpoint utf8_valid (bs : list Byte.byte) : bool :=
  match bs with
  | [] => true
  | b0 :: t0 =>
      if in_range 0 127 b0 then utf8_valid t0
      else if in_range 194 223 b0 then
        match t0 with
        | b1 :: t1 => continuation b1 && utf8_valid t1
        | _ => false
        end
      else if in_range 224 239 b0 then
        match t0 with
        | b1 :: b2 :: t2 =>
            (if in_range 224 224 b0 then in_range 160 191 b1
             else if in_range 237 237 b0 then in_range 128 159 b1
             else continuation b1)
            && continuation b2 && utf8_valid t2
        | _ => false
        end
      else if in_range 240 244 b0 then
        match t0 with
        | b1 :: b2 :: b3 :: t3 =>
            (if in_range 240 240 b0 then in_range 144 191 b1
             else if in_range 244 244 b0 then in_range 128 143 b1
             else continuation b1)
            && continuation b2 && continuation b3 && utf8_valid t3
        | _ => false
        end
      else false
  end.

(** The [UnicodeDecodeError] of the [utf-8] codec; its text is cut before
    the offending byte and position. *)
Definition UnicodeDecodeError : PyExc :=
  Error "UnicodeDecodeError" "'utf-8' codec can't decode byte".

Definition decode_utf8 {W} (bs : list Byte.byte) : Py W string :=
  if utf8_valid bs then ret (String.string_of_list_byte bs)
  else raise UnicodeDecodeError.

(** ** Subprocess runner ([main.py], [run_node_command]) *)

(** What the operating system does with a command: either
    [create_subprocess_exec]/[communicate] raise, or the child runs to
    its end and leaves an exit code and the two captured streams. *)
Inductive Launch :=
| CannotLaunch (e : PyExc)
| Exited (code : Z) (out err : list Byte.byte).

Record CommandResult := {
  success : bool;
  stdout : string;
  stderr : string;
  returncode : Z
}.

Section Runner.
Context {W : Type}.
Variable os_exec : list string -> option string -> Launch.

(** [await asyncio.create_subprocess_exec(...)] followed by
    [await process.communicate()]. *)
Definition communicate (command : list string) (cwd : option string)
  : Py W (Z * list Byte.byte * list Byte.byte) :=
  match os_exec command cwd with
  | CannotLaunch e => raise e
  | Exited code out err => ret (code, out, err)
  end.

Definition run_node_command (command : list string) (cwd : option string)
  : Py W CommandResult :=
  try_except
    (process <- communicate command cwd ;;
     let '(code, out, err) := process in
     o <- decode_utf8 out ;;
     e <- decode_utf8 err ;;
     ret {| success := code =? 0;
            stdout := o;
            stderr := e;
            returncode := code |})
    (fun e =>
       ret {| success := false;
              stdout := "";
              stderr := str e;
              returncode := -1 |}).
End Runner.

(** [os.path.join] of two components on a POSIX system. *)
Fixpoint ends_with_slash (s : string) : bool :=
  match s with
  | EmptyString => false
  | String c EmptyString => Ascii.eqb c "/"%char
  | String _ s' => ends_with_slash s'
  end.

Definition path_join (a b : string) : string :=
  if String.prefix "/" b then b
  else if String.eqb a "" || ends_with_slash a then a +:+ b
  else a +:+ "/" +:+ b.

From Stdlib Require Floats.PrimFloat.

(** ** More of Python *)

(** [isinstance(e, cls)] for the classes met in handlers: each is a leaf
    of the hierarchy, so the test is on the class itself. *)
Definition is_instance (cls : string) (e : PyExc) : bool :=
  match e with
  | Error c _ => String.eqb c cls
  | HTTPException _ _ => String.eqb cls "HTTPException"
  end.

(** [try: body  except cls as e: handler(e)]: any other exception goes
    through. *)
Definition try_except_only {W A} (cls : string) (body : Py W A)
    (handler : PyExc -> Py W A) : Py W A :=
  fun w =>
    match body w with
    | (Returned a, w') => (Returned a, w')
    | (Raised e, w') => if is_instance cls e then handler e w' else (Raised e, w')
    end.

(** [x or d] for an optional string. *)
Definition str_or (x : option string) (d : string) : string :=
  match x with
  | Some s => if String.eqb s "" then d else s
  | None => d
  end.

(** [type(v).__name__] *)
Definition type_name (v : Value) : string :=
  match v with
  | VNone => "NoneType"
  | VBool _ => "bool"
  | VInt _ => "int"
  | VStr _ => "str"
  | VList _ => "list"
  | VDict _ => "dict"
  end.

(** [v.get(k, d)]: defined on dictionaries only. *)
Definition method_get {W} (v : Value) (k : string) (d : Value) : Py W Value :=
  match v with
  | VDict entries => ret (default d (dict_get entries k))
  | _ => raise (Error "AttributeError"
                  ("'" +:+ type_name v +:+ "' object has no attribute 'get'"))
  end.

(** The code points of a [str], read off its UTF-8 encoding. *)
Fixpoint code_points (bs : list Byte.byte) : list N :=
  match bs with
  | [] => []
  | b0 :: t0 =>
      let n0 := Byte.to_N b0 in
      if (n0 <? 128)%N then n0 :: code_points t0
      else if (n0 <? 224)%N then
        match t0 with
        | b1 :: t1 =>
            ((n0 - 192) * 64 + (Byte.to_N b1 - 128))%N :: code_points t1
        | _ => []
        end
      else if (n0 <? 240)%N then
        match t0 with
        | b1 :: b2 :: t2 =>
            ((n0 - 224) * 4096 + (Byte.to_N b1 - 128) * 64 + (Byte.to_N b2 - 128))%N
            :: code_points t2
        | _ => []
        end
      else
        match t0 with
        | b1 :: b2 :: b3 :: t3 =>
            ((n0 - 240) * 262144 + (Byte.to_N b1 - 128) * 4096
             + (Byte.to_N b2 - 128) * 64 + (Byte.to_N b3 - 128))%N
            :: code_points t3
        | _ => []
        end
  end.

(** [c.isalnum()] for an ASCII character: a digit or a letter. *)
Definition ascii_alnum (cp : N) : bool :=
  ((48 <=? cp) && (cp <=? 57) || (65 <=? cp) && (cp <=? 90)
   || (97 <=? cp) && (cp <=? 122))%N.

Section Text.
(** [c.isalnum()] for the characters beyond ASCII, as the Unicode
    database of the interpreter has it. *)
Variable unicode_isalnum : N -> bool.

Definition char_isalnum (cp : N) : bool :=
  if (cp <? 128)%N then ascii_alnum cp else unicode_isalnum cp.

(** [s.isalnum()]: at least one character, all of them alphanumeric. *)
Definition isalnum (s : list N) : bool :=
  match s with
  | [] => false
  | _ => forallb char_isalnum s
  end.

(** [s.replace(c, '')] for a single character [c]. *)
Definition remove_char (c : N) (s : list N) : list N :=
  List.filter (fun x => negb (N.eqb x c)) s.
End Text.

(** * [src/api/main.py] *)
Module Main.

(** ** Request and response models *)

Record PackageConfig := {
  packageName : string;
  description : string;
  version : string;
  license : string;
  packageType : string;
  qualityLevel : string;
  outputDir : option string;
  enableTesting : bool;
  enableDocumentation : bool;
  enableLinting : bool;
  enableTypeScript : bool;
  enableGitInit : bool;
  enableCodexIntegration : bool;
  enableOpenAIAgents : bool;
  enableCICD : bool;
  enableDocker : bool;
  enableSecurity : bool;
  enablePerformanceMonitoring : bool;
  author : option string;
  email : option string;
  repository : option string;
  keywords : list string;
  dependencies : list (string * string);
  devDependencies : list (string * string);
  customizations : option Dict
}.

Record GenerationRequest := {
  config : PackageConfig;
  aiConfig : option Dict;
  options : option Dict
}.

(** The [metadata] dictionary of a generation response. *)
Record GenerationMetadata := {
  meta_status : string;
  meta_started_at : Z;
  meta_estimated_completion : Z
}.

Record GenerationResponse := {
  gen_success : bool;
  generationId : string;
  gen_packagePath : string;
  metadata : GenerationMetadata;
  gen_files : list string;
  gen_errors : list string;
  gen_warnings : list string
}.

Record AnalysisRequest := {
  packagePath : string;
  analysisType : string;
  includeRecommendations : bool
}.

Record AnalysisResponse := {
  ana_success : bool;
  analysisId : string;
  qualityScore : Z;               (* the four scores are the constant 0.0 *)
  securityScore : Z;
  performanceScore : Z;
  maintainabilityScore : Z;
  metrics : list (string * string);
  recommendations : list string;
  insights : list string;
  ana_warnings : list string
}.

(** ** Global state *)

(** The keys a task dictionary gets when its endpoint creates it; they
    depend on the family. *)
Inductive FamilyInfo :=
| GenerationInfo (config : PackageConfig)
| AnalysisInfo (package_path analysis_type : string)
| PublishInfo (package_path registry : string).

(** A task dictionary.  The keys written at creation are plain fields,
    the keys added later by the background run are optional. *)
Record Task := {
  id : string;
  status : string;
  info : FamilyInfo;
  started_at : Z;
  command : list string;
  completed_at : option Z;
  result : option CommandResult;
  output_dir : option string;
  files : option (list string);
  analysis_result : option Value;
  error : option string
}.

Definition set_status (s : string) (t : Task) : Task :=
  {| id := id t; status := s; info := info t; started_at := started_at t;
     command := command t; completed_at := completed_at t; result := result t;
     output_dir := output_dir t; files := files t;
     analysis_result := analysis_result t; error := error t |}.

Definition set_completed_at (c : Z) (t : Task) : Task :=
  {| id := id t; status := status t; info := info t; started_at := started_at t;
     command := command t; completed_at := Some c; result := result t;
     output_dir := output_dir t; files := files t;
     analysis_result := analysis_result t; error := error t |}.

Definition set_result (r : CommandResult) (t : Task) : Task :=
  {| id := id t; status := status t; info := info t; started_at := started_at t;
     command := command t; completed_at := completed_at t; result := Some r;
     output_dir := output_dir t; files := files t;
     analysis_result := analysis_result t; error := error t |}.

Definition set_output_dir (d : string) (t : Task) : Task :=
  {| id := id t; status := status t; info := info t; started_at := started_at t;
     command := command t; completed_at := completed_at t; result := result t;
     output_dir := Some d; files := files t;
     analysis_result := analysis_result t; error := error t |}.

Definition set_files (l : list string) (t : Task) : Task :=
  {| id := id t; status := status t; info := info t; started_at := started_at t;
     command := command t; completed_at := completed_at t; result := result t;
     output_dir := output_dir t; files := Some l;
     analysis_result := analysis_result t; error := error t |}.

Definition set_error (e : string) (t : Task) : Task :=
  {| id := id t; status := status t; info := info t; started_at := started_at t;
     command := command t; completed_at := completed_at t; result := result t;
     output_dir := output_dir t; files := files t;
     analysis_result := analysis_result t; error := Some e |}.

Inductive Family := Generation | Analysis | Publish.

(** [generation_tasks], [analysis_tasks], [publish_tasks]. *)
Record Stores := {
  generation_tasks : gmap string Task;
  analysis_tasks : gmap string Task;
  publish_tasks : gmap string Task
}.

Definition tasks_of (f : Family) (s : Stores) : gmap string Task :=
  match f with
  | Generation => generation_tasks s
  | Analysis => analysis_tasks s
  | Publish => publish_tasks s
  end.

Definition with_tasks (f : Family) (m : gmap string Task) (s : Stores) : Stores :=
  match f with
  | Generation =>
      {| generation_tasks := m; analysis_tasks := analysis_tasks s;
         publish_tasks := publish_tasks s |}
  | Analysis =>
      {| generation_tasks := generation_tasks s; analysis_tasks := m;
         publish_tasks := publish_tasks s |}
  | Publish =>
      {| generation_tasks := generation_tasks s; analysis_tasks := analysis_tasks s;
         publish_tasks := m |}
  end.

(** A call handed to [background_tasks.add_task]. *)
Inductive Job :=
| RunGenerationTask (generation_id : string) (command : list string) (output_dir : string)
| RunAnalysisTask (analysis_id : string) (command : list string).

(** The world of [main.py]: the three stores, the jobs handed to the
    framework, the number of clock readings taken so far, and a journal
    holding the stores after each mutation, oldest first: what
    successive status polls can observe. *)
Record World := {
  stores : Stores;
  background : list Job;
  ticks : nat;
  journal : list Stores
}.

Definition mutate (f : Stores -> Stores) (w : World) : World :=
  {| stores := f (stores w);
     background := background w;
     ticks := ticks w;
     journal := journal w ++ [f (stores w)] |}.

Definition schedule (j : Job) (w : World) : World :=
  {| stores := stores w;
     background := background w ++ [j];
     ticks := ticks w;
     journal := journal w |}.

Definition tick (w : World) : World :=
  {| stores := stores w;
     background := background w;
     ticks := S (ticks w);
     journal := journal w |}.

Section Operations.
(** The environment: the clock ([clock n] is the value of the n-th
    [datetime.utcnow()]), the operating system, the file system. *)
Variable clock : nat -> Z.
Variable os_exec : list string -> option string -> Launch.
Variable which : string -> option string.
Variable path_exists : string -> bool.
Variable os_walk : string -> Outcome (list (string * list string * list string)).
Variable mkdtemp : string -> Outcome string.
(** [os.path.join(os.path.dirname(__file__), "../dist/cli/index.js")] *)
Variable cli_path : string.

Definition utcnow : Py World Z :=
  fun w => (Returned (clock (ticks w)), tick w).

Definition get_node_executable : string :=
  default "/usr/local/bin/node" (which "node").

(** [store[task_id] = task] *)
Definition setitem (f : Family) (task_id : string) (t : Task) : Py World unit :=
  modify (mutate (fun s => with_tasks f (<[task_id := t]> (tasks_of f s)) s)).

(** [store[task_id]], raising [KeyError] on an absent key. *)
Definition getitem (f : Family) (task_id : string) : Py World Task :=
  m <- gets (fun w => tasks_of f (stores w)) ;;
  match m !! task_id with
  | Some t => ret t
  | None => raise (KeyError task_id)
  end.

(** [del store[task_id]] *)
Definition delitem (f : Family) (task_id : string) : Py World unit :=
  m <- gets (fun w => tasks_of f (stores w)) ;;
  match m !! task_id with
  | Some _ => modify (mutate (fun s => with_tasks f (delete task_id (tasks_of f s)) s))
  | None => raise (KeyError task_id)
  end.

(** [len(store)] *)
Definition len (f : Family) : Py World Z :=
  gets (fun w => Z.of_nat (size (tasks_of f (stores w)))).

(** ** [generate_package] *)

Definition generation_command (cfg : PackageConfig) (node_path output_dir : string)
  : list string :=
  [node_path; cli_path; "generate"; packageName cfg;
   "--type"; packageType cfg;
   "--quality"; qualityLevel cfg;
   "--output"; output_dir;
   "--no-interactive"]
  ++ (if enableTypeScript cfg then ["--typescript"] else [])
  ++ (if enableTesting cfg then ["--testing"] else [])
  ++ (if enableDocumentation cfg then ["--documentation"] else [])
  ++ (if enableLinting cfg then ["--linting"] else [])
  ++ (if enableSecurity cfg then ["--security"] else [])
  ++ (if enableDocker cfg then ["--docker"] else [])
  ++ (if enableCICD cfg then ["--cicd"] else []).

Definition new_task (task_id : string) (i : FamilyInfo) (now : Z) (cmd : list string)
  : Task :=
  {| id := task_id; status := "running"; info := i; started_at := now;
     command := cmd; completed_at := None; result := None; output_dir := None;
     files := None; analysis_result := None; error := None |}.

(** [generation_id] is the identifier drawn by [uuid.uuid4()]. *)
Definition generate_package (generation_id : string) (request : GenerationRequest)
  : Py World GenerationResponse :=
  let cfg := config request in
  try_except
    (output_dir <-
       match outputDir cfg with
       | Some d => if String.eqb d "" then lift (mkdtemp "opennode_") else ret d
       | None => lift (mkdtemp "opennode_")
       end ;;
     let node_path := get_node_executable in
     if negb (path_exists cli_path) then
       raise (HTTPException 500 "OpenNode CLI not found. Please build the project first.")
     else
       let cmd := generation_command cfg node_path output_dir in
       now <- utcnow ;;
       setitem Generation generation_id
         (new_task generation_id (GenerationInfo cfg) now cmd) ;;;
       modify (schedule (RunGenerationTask generation_id cmd output_dir)) ;;;
       let package_path := path_join output_dir (packageName cfg) in
       t1 <- utcnow ;;
       t2 <- utcnow ;;
       ret {| gen_success := true;
              generationId := generation_id;
              gen_packagePath := package_path;
              metadata := {| meta_status := "running";
                             meta_started_at := t1;
                             meta_estimated_completion := t2 + timedelta_seconds 120 |};
              gen_files := [];
              gen_errors := [];
              gen_warnings := [] |})
    (fun e => raise (HTTPException 500 ("Generation failed: " +:+ str e))).

(** ** [run_generation_task] *)

(** The files below [output_dir], as the nested loops over [os.walk]
    collect them. *)
Definition collect_files (output_dir : string) : Py World (list string) :=
  if path_exists output_dir then
    walked <- lift (os_walk output_dir) ;;
    ret (flat_map (fun entry => map (path_join (fst (fst entry))) (snd entry)) walked)
  else ret [].

(** The body of the [try] block. *)
Definition generation_attempt (generation_id : string) (command : list string)
    (output_dir : string) : Py World unit :=
  r <- run_node_command os_exec command None ;;
  task <- getitem Generation generation_id ;;
  now <- utcnow ;;
  setitem Generation generation_id
    (set_output_dir output_dir
       (set_result r
          (set_completed_at now
             (set_status (if success r then "completed" else "failed") task)))) ;;;
  if success r then
    found <- collect_files output_dir ;;
    task <- getitem Generation generation_id ;;
    setitem Generation generation_id (set_files found task)
  else ret tt.

Definition run_generation_task (generation_id : string) (command : list string)
    (output_dir : string) : Py World unit :=
  try_except
    (generation_attempt generation_id command output_dir)
    (fun e =>
       task <- getitem Generation generation_id ;;
       now <- utcnow ;;
       setitem Generation generation_id
         (set_error (str e) (set_completed_at now (set_status "failed" task)))).

(** ** [analyze_package] *)

Definition analysis_command (request : AnalysisRequest) (node_path : string)
  : list string :=
  [node_path; cli_path; "analyze"; packagePath request;
   "--type"; analysisType request; "--json"]
  ++ (if includeRecommendations request then ["--recommendations"] else []).

(** [analysis_id] is the identifier drawn by [uuid.uuid4()]. *)
Definition analyze_package (analysis_id : string) (request : AnalysisRequest)
  : Py World AnalysisResponse :=
  try_except
    (if negb (path_exists (packagePath request)) then
       raise (HTTPException 400 "Package path does not exist")
     else
       let node_path := get_node_executable in
       let cmd := analysis_command request node_path in
       now <- utcnow ;;
       setitem Analysis analysis_id
         (new_task analysis_id
            (AnalysisInfo (packagePath request) (analysisType request)) now cmd) ;;;
       modify (schedule (RunAnalysisTask analysis_id cmd)) ;;;
       ret {| ana_success := true;
              analysisId := analysis_id;
              qualityScore := 0;
              securityScore := 0;
              performanceScore := 0;
              maintainabilityScore := 0;
              metrics := [("status", "running")];
              recommendations := [];
              insights := [];
              ana_warnings := [] |})
    (fun e => raise (HTTPException 500 ("Analysis failed: " +:+ str e))).

(** ** [cleanup_tasks] *)

Record Counts := {
  generations : Z;
  analyses : Z;
  publishes : Z
}.

Record CleanupResponse := {
  cleanup_success : bool;
  cleaned : Counts;
  remaining : Counts
}.

Definition counts : Py World Counts :=
  g <- len Generation ;;
  a <- len Analysis ;;
  p <- len Publish ;;
  ret {| generations := g; analyses := a; publishes := p |}.

Definition terminal (s : string) : bool :=
  String.eqb s "completed" || String.eqb s "failed".

(** The condition of the comprehension:
    [task["status"] in ["completed", "failed"] and
     task.get("completed_at", datetime.utcnow()) < cutoff_time].
    The default is evaluated, hence the clock read, whenever the
    status test passes. *)
Definition expired (cutoff_time : Z) (task : Task) : Py World bool :=
  if terminal (status task) then
    now <- utcnow ;;
    ret (default now (completed_at task) <? cutoff_time)
  else ret false.

Fixpoint select_expired (cutoff_time : Z) (items : list (string * Task))
  : Py World (list string) :=
  match items with
  | [] => ret []
  | (task_id, task) :: rest =>
      e <- expired cutoff_time task ;;
      ids <- select_expired cutoff_time rest ;;
      ret (if e then task_id :: ids else ids)
  end.

Fixpoint remove_all (f : Family) (to_remove : list string) : Py World unit :=
  match to_remove with
  | [] => ret tt
  | task_id :: rest => delitem f task_id ;;; remove_all f rest
  end.

(** One of the three sweeps.  The map does not keep the insertion order
    of the dictionary, so the tasks are visited in another order than in
    Python; only the clock reading each one gets depends on it. *)
Definition clean_family (f : Family) (cutoff_time : Z) : Py World unit :=
  m <- gets (fun w => tasks_of f (stores w)) ;;
  to_remove <- select_expired cutoff_time (map_to_list m) ;;
  remove_all f to_remove.

Definition cleanup_tasks : Py World CleanupResponse :=
  initial_counts <- counts ;;
  now <- utcnow ;;
  let cutoff_time := now - timedelta_hours 1 in
  clean_family Generation cutoff_time ;;;
  clean_family Analysis cutoff_time ;;;
  clean_family Publish cutoff_time ;;;
  final_counts <- counts ;;
  ret {| cleanup_success := true;
         cleaned :=
           {| generations := generations initial_counts - generations final_counts;
              analyses := analyses initial_counts - analyses final_counts;
              publishes := publishes initial_counts - publishes final_counts |};
         remaining := final_counts |}.
End Operations.
(** ** The rest of the endpoints and background runs *)

(** [PackageConfig.validate_package_name]: the name, or [ValueError]. *)
Definition validate_package_name {W} (unicode_isalnum : N -> bool) (v : string)
  : Py W string :=
  let name := code_points (String.list_byte_of_string v) in
  if negb (isalnum unicode_isalnum
             (remove_char 47 (remove_char 64 (remove_char 95 (remove_char 45 name)))))
  then raise (Error "ValueError" "Package name contains invalid characters")
  else ret v.

Record PublishRequest := {
  pub_packagePath : string;
  registry : string;
  isPublic : bool;
  dryRun : bool;
  tag : string
}.

Record PublishResponse := {
  pub_success : bool;
  publishId : string;
  packageUrl : option string;
  pub_version : string;
  pub_registry : string;
  pub_errors : list string
}.

Record OptimizationRequest := {
  opt_packagePath : string;
  optimizationType : string;
  aggressiveness : string
}.

Record OptimizationResponse := {
  opt_success : bool;
  optimizationId : string;
  improvements : list string;
  opt_metrics : Dict;
  opt_recommendations : list string
}.

(** The call [publish_package] hands to the [BackgroundTasks] object of
    its request. *)
Inductive PublishJob :=
| RunPublishTask (publish_id : string) (command : list string) (package_path : string).

(** The answers of the three status endpoints.  An absent [result] stands
    for the empty dictionary the endpoint puts in its place. *)
Record GenerationStatusResponse := {
  gs_generationId : string;
  gs_status : string;
  gs_started_at : Z;
  gs_completed_at : option Z;
  gs_config : PackageConfig;
  gs_files : list string;
  gs_result : option CommandResult;
  gs_error : option string
}.

Record AnalysisStatusResponse := {
  as_analysisId : string;
  as_status : string;
  as_started_at : Z;
  as_completed_at : option Z;
  as_package_path : string;
  as_analysis_type : string;
  as_result : Value;
  as_error : option string
}.

Record PublishStatusResponse := {
  ps_publishId : string;
  ps_status : string;
  ps_started_at : Z;
  ps_completed_at : option Z;
  ps_package_path : string;
  ps_registry : string;
  ps_result : option CommandResult;
  ps_error : option string
}.

(** One entry of the [services] dictionary of the health report. *)
Record ServiceHealth := {
  available : bool;
  service_version : option string;
  service_path : string
}.

Record HealthReport := {
  health_status : string;
  health_timestamp : Z;
  api : string;
  node : ServiceHealth;
  npm : ServiceHealth;
  active_generations : Z;
  active_analyses : Z;
  active_publishes : Z
}.

(** One entry of the [tasks] dictionary of the metrics. *)
Record StatusCounts := {
  total : Z;
  running : Z;
  completed : Z;
  failed : Z
}.

Record Metrics := {
  metrics_timestamp : Z;
  generation_counts : StatusCounts;
  analysis_counts : StatusCounts;
  publish_counts : StatusCounts;
  node_available : bool;
  npm_available : bool;
  temp_dir : string
}.

Definition set_analysis_result (v : Value) (t : Task) : Task :=
  {| id := id t; status := status t; info := info t; started_at := started_at t;
     command := command t; completed_at := completed_at t; result := result t;
     output_dir := output_dir t; files := files t;
     analysis_result := Some v; error := error t |}.

Section Services.
Variable clock : nat -> Z.
Variable os_exec : list string -> option string -> Launch.
Variable which : string -> option string.
Variable path_exists : string -> bool.
Variable cli_path : string.
(** [json.loads]: the document, or what it raises ([JSONDecodeError] on
    a malformed one). *)
Variable json_loads : string -> Outcome Value.
(** [str.strip] *)
Variable strip : string -> string.
(** [tempfile.gettempdir()] *)
Variable gettempdir : string.
(** The validating constructor of [OptimizationResponse]. *)
Variable OptimizationResponse_init :
  bool -> string -> Value -> Value -> Value -> Outcome OptimizationResponse.

Definition get_npm_executable : string :=
  str_or (which "npm") "/usr/local/bin/npm".

(** ** [health_check] *)

Definition service_health (r : CommandResult) (path : string) : ServiceHealth :=
  {| available := success r;
     service_version := if success r then Some (strip (stdout r)) else None;
     service_path := path |}.

Definition health_check : Py World HealthReport :=
  let node_path := get_node_executable which in
  let npm_path := get_npm_executable in
  node_result <- run_node_command os_exec [node_path; "--version"] None ;;
  npm_result <- run_node_command os_exec [npm_path; "--version"] None ;;
  now <- utcnow clock ;;
  g <- len Generation ;;
  a <- len Analysis ;;
  p <- len Publish ;;
  ret {| health_status := "healthy";
         health_timestamp := now;
         api := "running";
         node := service_health node_result node_path;
         npm := service_health npm_result npm_path;
         active_generations := g;
         active_analyses := a;
         active_publishes := p |}.

(** ** [get_generation_status] *)

Definition get_generation_status (generation_id : string)
  : Py World GenerationStatusResponse :=
  m <- gets (fun w => generation_tasks (stores w)) ;;
  match m !! generation_id with
  | None => raise (HTTPException 404 "Generation not found")
  | Some task =>
      cfg <- match info task with
             | GenerationInfo c => ret c
             | _ => raise (KeyError "config")
             end ;;
      ret {| gs_generationId := generation_id;
             gs_status := status task;
             gs_started_at := started_at task;
             gs_completed_at := completed_at task;
             gs_config := cfg;
             gs_files := default [] (files task);
             gs_result := result task;
             gs_error := error task |}
  end.

(** ** [run_analysis_task] *)

(** The body of the [try] block. *)
Definition analysis_attempt (analysis_id : string) (command : list string)
  : Py World unit :=
  r <- run_node_command os_exec command None ;;
  parsed <-
    (if success r && negb (String.eqb (stdout r) "") then
       try_except_only "JSONDecodeError"
         (lift (json_loads (stdout r)))
         (fun _ => ret (VDict [("error", VStr "Failed to parse analysis result")]))
     else ret (VDict [])) ;;
  task <- getitem Analysis analysis_id ;;
  now <- utcnow clock ;;
  setitem Analysis analysis_id
    (set_analysis_result parsed
       (set_result r
          (set_completed_at now
             (set_status (if success r then "completed" else "failed") task)))).

Definition run_analysis_task (analysis_id : string) (command : list string)
  : Py World unit :=
  try_except
    (analysis_attempt analysis_id command)
    (fun e =>
       task <- getitem Analysis analysis_id ;;
       now <- utcnow clock ;;
       setitem Analysis analysis_id
         (set_error (str e) (set_completed_at now (set_status "failed" task)))).

(** ** [get_analysis_status] *)

Definition get_analysis_status (analysis_id : string) : Py World AnalysisStatusResponse :=
  m <- gets (fun w => analysis_tasks (stores w)) ;;
  match m !! analysis_id with
  | None => raise (HTTPException 404 "Analysis not found")
  | Some task =>
      match info task with
      | AnalysisInfo path type =>
          ret {| as_analysisId := analysis_id;
                 as_status := status task;
                 as_started_at := started_at task;
                 as_completed_at := completed_at task;
                 as_package_path := path;
                 as_analysis_type := type;
                 as_result := default (VDict []) (analysis_result task);
                 as_error := error task |}
      | _ => raise (KeyError "package_path")
      end
  end.

(** ** [publish_package] *)

Definition publish_command (request : PublishRequest) (npm_path : string) : list string :=
  ([npm_path; "publish"]
   ++ (if dryRun request then ["--dry-run"] else [])
   ++ (if isPublic request then ["--access"; "public"] else [])
   ++ (if negb (String.eqb (tag request) "latest") then ["--tag"; tag request] else []))%list.

(** [publish_id] is the identifier drawn by [uuid.uuid4()]; the jobs
    handed to the [BackgroundTasks] object of the request are returned
    with the response. *)
Definition publish_package (publish_id : string) (request : PublishRequest)
  : Py World (PublishResponse * list PublishJob) :=
  try_except
    (if negb (path_exists (pub_packagePath request)) then
       raise (HTTPException 400 "Package path does not exist")
     else
       let npm_path := get_npm_executable in
       let cmd := publish_command request npm_path in
       now <- utcnow clock ;;
       setitem Publish publish_id
         (new_task publish_id
            (PublishInfo (pub_packagePath request) (registry request)) now cmd) ;;;
       ret ({| pub_success := true;
               publishId := publish_id;
               packageUrl := None;
               pub_version := "unknown";
               pub_registry := registry request;
               pub_errors := [] |},
            [RunPublishTask publish_id cmd (pub_packagePath request)]))
    (fun e => raise (HTTPException 500 ("Publish failed: " +:+ str e))).

(** ** [run_publish_task] *)

Definition run_publish_task (publish_id : string) (command : list string)
    (package_path : string) : Py World unit :=
  try_except
    (r <- run_node_command os_exec command (Some package_path) ;;
     task <- getitem Publish publish_id ;;
     now <- utcnow clock ;;
     setitem Publish publish_id
       (set_result r
          (set_completed_at now
             (set_status (if success r then "completed" else "failed") task))))
    (fun e =>
       task <- getitem Publish publish_id ;;
       now <- utcnow clock ;;
       setitem Publish publish_id
         (set_error (str e) (set_completed_at now (set_status "failed" task)))).

(** ** [get_publish_status] *)

Definition get_publish_status (publish_id : string) : Py World PublishStatusResponse :=
  m <- gets (fun w => publish_tasks (stores w)) ;;
  match m !! publish_id with
  | None => raise (HTTPException 404 "Publish not found")
  | Some task =>
      match info task with
      | PublishInfo path reg =>
          ret {| ps_publishId := publish_id;
                 ps_status := status task;
                 ps_started_at := started_at task;
                 ps_completed_at := completed_at task;
                 ps_package_path := path;
                 ps_registry := reg;
                 ps_result := result task;
                 ps_error := error task |}
      | _ => raise (KeyError "package_path")
      end
  end.

(** ** [optimize_package] *)

Definition optimization_command (request : OptimizationRequest) (node_path : string)
  : list string :=
  [node_path; cli_path; "optimize"; opt_packagePath request;
   "--type"; optimizationType request;
   "--level"; aggressiveness request;
   "--json"].

(** [optimization_id] is the identifier drawn by [uuid.uuid4()]. *)
Definition optimize_package (optimization_id : string) (request : OptimizationRequest)
  : Py World OptimizationResponse :=
  try_except
    (if negb (path_exists (opt_packagePath request)) then
       raise (HTTPException 400 "Package path does not exist")
     else
       let node_path := get_node_executable which in
       let cmd := optimization_command request node_path in
       r <- run_node_command os_exec cmd None ;;
       parsed <-
         (if success r && negb (String.eqb (stdout r) "") then
            try_except_only "JSONDecodeError"
              (lift (json_loads (stdout r)))
              (fun _ => ret (VDict [("error", VStr "Failed to parse optimization result")]))
          else ret (VDict [])) ;;
       found_improvements <- method_get parsed "improvements" (VList []) ;;
       found_metrics <- method_get parsed "metrics" (VDict []) ;;
       found_recommendations <- method_get parsed "recommendations" (VList []) ;;
       lift (OptimizationResponse_init (success r) optimization_id
               found_improvements found_metrics found_recommendations))
    (fun e => raise (HTTPException 500 ("Optimization failed: " +:+ str e))).

(** ** [list_templates] *)

Definition list_templates : Py World Dict :=
  try_except
    (let node_path := get_node_executable which in
     let cmd := [node_path; cli_path; "template"; "--list"; "--json"] in
     r <- run_node_command os_exec cmd None ;;
     if success r && negb (String.eqb (stdout r) "") then
       try_except_only "JSONDecodeError"
         (found <- lift (json_loads (stdout r)) ;;
          ret [("success", VBool true); ("templates", found)])
         (fun _ => ret [("success", VBool false);
                        ("error", VStr "Failed to parse templates")])
     else ret [("success", VBool false); ("error", VStr (stderr r))])
    (fun e => raise (HTTPException 500 ("Template listing failed: " +:+ str e))).

(** ** [get_metrics] *)

(** [len([t for t in store.values() if t["status"] == s])] *)
Definition count_status (m : gmap string Task) (s : string) : Z :=
  Z.of_nat (length (List.filter (fun t => String.eqb (status t) s)
                      (map snd (map_to_list m)))).

Definition status_counts (m : gmap string Task) : StatusCounts :=
  {| total := Z.of_nat (size m);
     running := count_status m "running";
     completed := count_status m "completed";
     failed := count_status m "failed" |}.

Definition get_metrics : Py World Metrics :=
  now <- utcnow clock ;;
  s <- gets stores ;;
  ret {| metrics_timestamp := now;
         generation_counts := status_counts (generation_tasks s);
         analysis_counts := status_counts (analysis_tasks s);
         publish_counts := status_counts (publish_tasks s);
         node_available := negb (String.eqb (get_node_executable which) "");
         npm_available := negb (String.eqb get_npm_executable "");
         temp_dir := gettempdir |}.
End Services.

(** ** [generate_from_template] and [ultrathink_generate] *)

Record TemplateRequest := {
  tr_templateId : string;
  tr_config : Dict;
  tr_outputDir : string
}.

Record TemplateResponse := {
  tpl_success : bool;
  tpl_templateId : string;
  outputPath : string;
  tpl_files : list string
}.

Record UltraThinkRequest := {
  ut_idea : string;
  ut_context : option string;
  creativity : PrimFloat.float;
  depth : Z
}.

Record UltraThinkResponse := {
  ut_success : bool;
  thinkingId : string;
  solutions : Value;
  ut_insights : Value;
  ut_recommendations : Value
}.

(** The temporary files the process has created and not removed. *)
Definition TempFiles := gset string.

Section Tools.
Variable os_exec : list string -> option string -> Launch.
Variable which : string -> option string.
Variable path_exists : string -> bool.
Variable os_walk : string -> Outcome (list (string * list string * list string)).
Variable cli_path : string.
Variable json_loads : string -> Outcome Value.
(** [tempfile.NamedTemporaryFile(mode='w', suffix='.json', delete=False)]:
    the name of the file it creates, or what it raises. *)
Variable NamedTemporaryFile : Outcome string.
(** [json.dump(config, file)] and [os.unlink(name)] *)
Variable json_dump : Dict -> Outcome unit.
Variable os_unlink : string -> Outcome unit.
(** [str] of a float. *)
Variable float_str : PrimFloat.float -> string.
(** The validating constructor of [UltraThinkResponse]. *)
Variable UltraThinkResponse_init :
  bool -> string -> Value -> Value -> Value -> Outcome UltraThinkResponse.

Definition template_command (template_id config_name output_dir node_path : string)
  : list string :=
  [node_path; cli_path; "template";
   "--generate"; template_id;
   "--config"; config_name;
   "--output"; output_dir].

(** The world is the set of temporary files the process has created and
    not removed; [config_file.close()] is taken to return. *)
Definition generate_from_template (template_id : string) (request : TemplateRequest)
  : Py TempFiles TemplateResponse :=
  try_except
    (let node_path := get_node_executable which in
     config_name <- lift NamedTemporaryFile ;;
     modify (fun created : TempFiles => {[config_name]} ∪ created) ;;;
     lift (json_dump (tr_config request)) ;;;
     let cmd := template_command template_id config_name (tr_outputDir request) node_path in
     r <- run_node_command os_exec cmd None ;;
     lift (os_unlink config_name) ;;;
     modify (fun created : TempFiles => created ∖ {[config_name]}) ;;;
     if success r then
       found <-
         (if path_exists (tr_outputDir request) then
            walked <- lift (os_walk (tr_outputDir request)) ;;
            ret (flat_map (fun entry => map (path_join (fst (fst entry))) (snd entry))
                   walked)
          else ret []) ;;
       ret {| tpl_success := true;
              tpl_templateId := template_id;
              outputPath := tr_outputDir request;
              tpl_files := found |}
     else raise (HTTPException 500 (stderr r)))
    (fun e => raise (HTTPException 500 ("Template generation failed: " +:+ str e))).

Definition ultrathink_command (request : UltraThinkRequest) (node_path : string)
  : list string :=
  ([node_path; cli_path; "ultrathink";
    "--idea"; ut_idea request;
    "--creativity"; float_str (creativity request);
    "--depth"; pretty (depth request);
    "--json"]
   ++ (match ut_context request with
       | Some c => if String.eqb c "" then [] else ["--context"; c]
       | None => []
       end))%list.

(** [thinking_id] is the identifier drawn by [uuid.uuid4()]. *)
Definition ultrathink_generate (thinking_id : string) (request : UltraThinkRequest)
  : Py World UltraThinkResponse :=
  try_except
    (let node_path := get_node_executable which in
     let cmd := ultrathink_command request node_path in
     r <- run_node_command os_exec cmd None ;;
     if success r && negb (String.eqb (stdout r) "") then
       try_except_only "JSONDecodeError"
         (thinking_result <- lift (json_loads (stdout r)) ;;
          found_solutions <- method_get thinking_result "solutions" (VList []) ;;
          found_insights <- method_get thinking_result "insights" (VList []) ;;
          found_recommendations <-
            method_get thinking_result "recommendations" (VList []) ;;
          lift (UltraThinkResponse_init true thinking_id
                  found_solutions found_insights found_recommendations))
         (fun _ => raise (HTTPException 500 "Failed to parse UltraThink result"))
     else raise (HTTPException 500 (stderr r)))
    (fun e => raise (HTTPException 500 ("UltraThink failed: " +:+ str e))).
End Tools.

End Main.

(** * [src/api/routers/generate.py] *)
Module Router.

(** The attributes of a [PackageGenerationRequest] that the generation
    task reads. *)
Record PackageGenerationRequest := {
  idea : Value;
  complexity : Value;
  priorities : Value;
  package_name : Value;
  description : Value;
  package_type : Value;
  ai_config : Value;
  enable_testing : bool
}.

Record PackageGenerationResponse := {
  resp_task_id : string;
  resp_status : string;
  resp_message : string;
  websocket_url : string
}.

Record GenerationStatus := {
  task_id : string;
  status : string;
  progress : Z;
  stage : string;
  message : option string;
  result : option Dict;
  error : option string;
  created_at : Z;
  updated_at : Z
}.

(** Modelled from the spec: [utils.cache.cache_manager] is not among the
    sources.  The result cache is a time-expiring store, [set(key,
    value, ttl)] and [get(key) -> value | not-found], whose expired
    entries are never returned; expiry is checked on read. *)
Record CacheEntry := {
  cached_value : Dict;
  expires_at : Z
}.

(** A call handed to [background_tasks.add_task]. *)
Inductive Job :=
| GeneratePackageAsync (task_id : string) (request : PackageGenerationRequest)
    (user_id : Value).

(** The world of the router: its own [generation_tasks], the result
    cache, the jobs handed to the framework, the number of clock
    readings so far, and a journal holding [generation_tasks] after
    each mutation, oldest first: what successive status polls can
    observe. *)
Record World := {
  generation_tasks : gmap string GenerationStatus;
  cache : gmap string CacheEntry;
  background : list Job;
  ticks : nat;
  journal : list (gmap string GenerationStatus)
}.

Definition mutate (f : gmap string GenerationStatus -> gmap string GenerationStatus)
    (w : World) : World :=
  {| generation_tasks := f (generation_tasks w);
     cache := cache w;
     background := background w;
     ticks := ticks w;
     journal := journal w ++ [f (generation_tasks w)] |}.

Definition with_cache (f : gmap string CacheEntry -> gmap string CacheEntry)
    (w : World) : World :=
  {| generation_tasks := generation_tasks w;
     cache := f (cache w);
     background := background w;
     ticks := ticks w;
     journal := journal w |}.

Definition schedule (j : Job) (w : World) : World :=
  {| generation_tasks := generation_tasks w;
     cache := cache w;
     background := background w ++ [j];
     ticks := ticks w;
     journal := journal w |}.

Definition tick (w : World) : World :=
  {| generation_tasks := generation_tasks w;
     cache := cache w;
     background := background w;
     ticks := S (ticks w);
     journal := journal w |}.

Section Operations.
(** [clock n] is the value of the n-th reading of the clock. *)
Variable clock : nat -> Z.

(** The collaborators awaited by the generation task
    ([AIService.analyze_idea], [generate_source_code],
    [generate_tests] and [PackageGeneratorService.create_package]):
    each either returns or raises. *)
Variable analyze_idea : Value -> Value -> Value -> Outcome Dict.
Variable generate_source_code : Dict -> Value -> Outcome Value.
Variable generate_tests : Value -> Dict -> Outcome Value.
Variable create_package : Dict -> Value -> Value -> Outcome Dict.

Definition utcnow : Py World Z :=
  fun w => (Returned (clock (ticks w)), tick w).

(** Modelled from the spec: [cache_manager.set(key, value, expire)],
    with [expire] in seconds. *)
Definition cache_set (key : string) (value : Dict) (expire : Z) : Py World unit :=
  now <- utcnow ;;
  modify (with_cache
            <[key := {| cached_value := value;
                        expires_at := now + timedelta_seconds expire |}]>).

(** Modelled from the spec: [cache_manager.get(key)], the value of an
    entry that has not expired, [None] otherwise. *)
Definition cache_get (key : string) : Py World (option Dict) :=
  now <- utcnow ;;
  entries <- gets cache ;;
  match entries !! key with
  | Some entry =>
      if now <? expires_at entry then ret (Some (cached_value entry)) else ret None
  | None => ret None
  end.

(** [generation_tasks[task_id]], raising [KeyError] on an absent key. *)
Definition getitem (task_id : string) : Py World GenerationStatus :=
  m <- gets generation_tasks ;;
  match m !! task_id with
  | Some t => ret t
  | None => raise (KeyError task_id)
  end.

(** ** [generate_package] *)

(** [task_id] is the identifier drawn by [uuid.uuid4()]; the
    [monitor_endpoint] decorator is taken to call the handler as it is. *)
Definition generate_package (task_id : string) (request : PackageGenerationRequest)
    (current_user : Dict) : Py World PackageGenerationResponse :=
  created <- utcnow ;;
  updated <- utcnow ;;
  modify (mutate <[task_id := {| task_id := task_id;
                                 status := "pending";
                                 progress := 0;
                                 stage := "initialization";
                                 message := None;
                                 result := None;
                                 error := None;
                                 created_at := created;
                                 updated_at := updated |}]>) ;;;
  user_id <- subscript current_user "user_id" ;;
  modify (schedule (GeneratePackageAsync task_id request user_id)) ;;;
  ret {| resp_task_id := task_id;
         resp_status := "accepted";
         resp_message := "Package generation started";
         websocket_url := "/ws/tasks/" +:+ task_id |}.

(** ** [update_task_status]

    The attribute assignments happen without a suspension point in
    between, so the journal sees them as one mutation. *)
Definition update_task_status (task_id : string) (status : string) (progress : Z)
    (stage : string) (message : option string) (result : option Dict)
    (error : option string) : Py World unit :=
  m <- gets generation_tasks ;;
  match m !! task_id with
  | Some task =>
      now <- utcnow ;;
      modify (mutate <[task_id := {| task_id := Router.task_id task;
                                     status := status;
                                     progress := progress;
                                     stage := stage;
                                     message := message;
                                     result := result;
                                     error := error;
                                     created_at := created_at task;
                                     updated_at := now |}]>)
  | None => ret tt
  end.

(** ** [generate_package_async] *)

(** [a or b]: [b] is only evaluated when [a] is false. *)
Definition py_or (a : Value) (b : Py World Value) : Py World Value :=
  if truthy a then ret a else b.

(** The body of the [try] block. *)
Definition generation_phases (task_id : string) (request : PackageGenerationRequest)
  : Py World unit :=
  update_task_status task_id "in_progress" 10 "analyzing_requirements"
    None None None ;;;
  analysis <- lift (analyze_idea (idea request) (complexity request)
                      (priorities request)) ;;
  update_task_status task_id "in_progress" 30 "generating_structure"
    None None None ;;;
  name <- py_or (package_name request) (subscript analysis "suggested_name") ;;
  descr <- py_or (description request) (subscript analysis "description") ;;
  type <- py_or (package_type request) (subscript analysis "suggested_type") ;;
  features <- subscript analysis "recommended_features" ;;
  deps <- subscript analysis "recommended_dependencies" ;;
  let package_config :=
    [("name", name); ("description", descr); ("type", type);
     ("features", features); ("dependencies", deps)] in
  update_task_status task_id "in_progress" 50 "generating_code"
    None None None ;;;
  source_files <- lift (generate_source_code package_config (ai_config request)) ;;
  update_task_status task_id "in_progress" 70 "generating_tests"
    None None None ;;;
  test_files <-
    (if enable_testing request
     then lift (generate_tests source_files package_config)
     else ret (VList [])) ;;
  update_task_status task_id "in_progress" 90 "finalizing_package"
    None None None ;;;
  r <- lift (create_package package_config source_files
               (if enable_testing request then test_files else VList [])) ;;
  update_task_status task_id "completed" 100 "done" None (Some r) None ;;;
  cache_set ("package:" +:+ task_id) r 3600.

(** The two service objects are built before the [try]; their classes are
    not among the sources, their constructors are taken to return, and
    their methods are the collaborators above. *)
Definition generate_package_async (task_id : string)
    (request : PackageGenerationRequest) (user_id : Value) : Py World unit :=
  try_except
    (generation_phases task_id request)
    (fun e =>
       reached <- getitem task_id ;;
       reached' <- getitem task_id ;;
       update_task_status task_id "failed" (progress reached) (stage reached')
         None None (Some (str e))).

(** ** [get_generation_status] *)

Definition get_generation_status (task_id : string) : Py World GenerationStatus :=
  m <- gets generation_tasks ;;
  match m !! task_id with
  | Some task => ret task
  | None =>
      cached_result <- cache_get ("package:" +:+ task_id) ;;
      if truthy (from_option VDict VNone cached_result) then
        created <- utcnow ;;
        updated <- utcnow ;;
        ret {| task_id := task_id;
               status := "completed";
               progress := 100;
               stage := "done";
               message := None;
               result := cached_result;
               error := None;
               created_at := created;
               updated_at := updated |}
      else raise (HTTPException 404 "Task not found")
  end.
End Operations.
(** ** Templates *)

(** The keyword arguments [generate_from_template] builds a
    [PackageGenerationRequest] from. *)
Record TemplateArguments := {
  arg_package_name : Value;
  arg_description : Value;
  arg_package_type : Value;
  arg_enable_typescript : Value;
  arg_enable_testing : Value;
  arg_ai_config : Value
}.

(** The table of [load_template]. *)
Definition templates : list (string * Dict) :=
  [("typescript-library",
    [("default_name", VStr "my-library");
     ("description", VStr "A TypeScript library");
     ("type", VStr "library");
     ("typescript", VBool true);
     ("testing", VBool true);
     ("features", VList [VStr "jest"; VStr "eslint"; VStr "prettier"])]);
   ("react-component",
    [("default_name", VStr "my-component");
     ("description", VStr "A React component library");
     ("type", VStr "react-component");
     ("typescript", VBool true);
     ("testing", VBool true);
     ("features", VList [VStr "storybook"; VStr "jest"; VStr "rollup"])])].

(** [templates.get(template_id)] *)
Fixpoint templates_get (table : list (string * Dict)) (template_id : string)
  : option Dict :=
  match table with
  | [] => None
  | (k, t) :: rest => if String.eqb k template_id then Some t else templates_get rest template_id
  end.

Definition load_template (template_id : string) : Py World (option Dict) :=
  ret (templates_get templates template_id).

Section Templates.
Variable clock : nat -> Z.
(** The validating constructor of [PackageGenerationRequest], whose class
    is not among the sources. *)
Variable PackageGenerationRequest_init : TemplateArguments -> Outcome PackageGenerationRequest.
(** The literal [{"model": "gpt-4o-mini", "temperature": 0.3}]. *)
Variable template_ai_config : Value.

(** [task_id] is the identifier [generate_package] draws. *)
Definition generate_from_template (task_id : string) (template_id : string)
    (customization : Dict) (current_user : Dict) : Py World PackageGenerationResponse :=
  found <- load_template template_id ;;
  match found with
  | None => raise (HTTPException 404 "Template not found")
  | Some [] => raise (HTTPException 404 "Template not found")
  | Some template =>
      default_name <- subscript template "default_name" ;;
      let name := default default_name (dict_get customization "name") in
      default_description <- subscript template "description" ;;
      let descr := default default_description (dict_get customization "description") in
      type <- subscript template "type" ;;
      let typescript := default (VBool true) (dict_get template "typescript") in
      let testing := default (VBool true) (dict_get template "testing") in
      request <- lift (PackageGenerationRequest_init
                         {| arg_package_name := name;
                            arg_description := descr;
                            arg_package_type := type;
                            arg_enable_typescript := typescript;
                            arg_enable_testing := testing;
                            arg_ai_config := template_ai_config |}) ;;
      generate_package clock task_id request current_user
  end.
End Templates.

End Router.

(** * Observations

    The vocabulary of the statements below: what is read off a world, the
    shapes the claims speak about, a small program logic for [Py], and
    the concrete scenarios the examples run. *)

Local Open Scope list_scope.

(** ** A program logic for [Py] *)

(** [triple P c Q R]: from a world satisfying [P], [c] either returns [a]
    in a world satisfying [Q a], or raises [e] in a world satisfying
    [R e]. *)
Definition triple {W A} (P : W -> Prop) (c : Py W A)
    (Q : A -> W -> Prop) (R : PyExc -> W -> Prop) : Prop :=
  forall w, P w ->
    match c w with
    | (Returned a, w') => Q a w'
    | (Raised e, w') => R e w'
    end.

(** A computation that leaves the world as it found it. *)
Definition silent {W A} (c : Py W A) : Prop := forall w, snd (c w) = w.

(** [terminal] as a proposition. *)
Definition is_terminal (s : string) : Prop := s = "completed" \/ s = "failed".

(** A sequence of status reads in which a terminal status is never
    followed by a non-terminal one. *)
Definition never_regresses (reads : list string) : Prop :=
  forall i j s s',
    (i < j)%nat -> reads !! i = Some s -> reads !! j = Some s' ->
    is_terminal s -> is_terminal s'.

(** ** The subprocess runner *)

(** What [run_node_command] returns when anything in its [try] block
    raises. *)
Definition failure_result (e : PyExc) : CommandResult :=
  {| success := false; stdout := ""; stderr := str e; returncode := -1 |}.

(** What it returns when the child ran and both streams decoded. *)
Definition exit_result (code : Z) (out err : list Byte.byte) : CommandResult :=
  {| success := code =? 0;
     stdout := String.string_of_list_byte out;
     stderr := String.string_of_list_byte err;
     returncode := code |}.

(** The result of the runner, read off the behaviour of the operating
    system. *)
Definition runner_result (os_exec : list string -> option string -> Launch)
    (command : list string) (cwd : option string) : CommandResult :=
  match os_exec command cwd with
  | CannotLaunch e => failure_result e
  | Exited code out err =>
      if utf8_valid out && utf8_valid err then exit_result code out err
      else failure_result UnicodeDecodeError
  end.

(** The claim on the runner as the specification words it: whenever the
    child ran, [success] tells whether its exit code was 0. *)
Definition success_iff_exit_zero (os_exec : list string -> option string -> Launch)
    (command : list string) (cwd : option string) : Prop :=
  forall code out err r,
    os_exec command cwd = Exited code out err ->
    run_node_command os_exec command cwd tt = (Returned r, tt) ->
    (success r = true <-> code = 0) /\ returncode r = code.

(** A child that exits with code 0 after writing the single byte [0xff]. *)
Definition garbled_child : list string -> option string -> Launch :=
  fun _ _ => Exited 0 [Byte.xff] [].

(** A child that exits with code 1 after writing [boom] to its standard
    error. *)
Definition failing_child : list string -> option string -> Launch :=
  fun _ _ => Exited 1 [] (String.list_byte_of_string "boom").

(** ** The stores of [main.py] *)

(** The successive records of a generation task, and its current one. *)
Definition task_history (generation_id : string) (w : Main.World) : list Main.Task :=
  omap (fun s => Main.generation_tasks s !! generation_id) (Main.journal w).

Definition task_statuses (generation_id : string) (w : Main.World) : list string :=
  map Main.status (task_history generation_id w).

Definition current_task (generation_id : string) (w : Main.World) : option Main.Task :=
  Main.generation_tasks (Main.stores w) !! generation_id.

(** The world after [generation_tasks[generation_id]] is given the
    record [t]. *)
Definition put (generation_id : string) (t : Main.Task) (w : Main.World) : Main.World :=
  Main.mutate (fun s => Main.with_tasks Main.Generation
                          (<[generation_id := t]> (Main.generation_tasks s)) s) w.

(** The record written by the first update of [run_generation_task]. *)
Definition reported (r : CommandResult) (output_dir : string) (now : Z) (t : Main.Task)
  : Main.Task :=
  Main.set_output_dir output_dir
    (Main.set_result r
       (Main.set_completed_at now
          (Main.set_status (if success r then "completed" else "failed") t))).

(** The record written by its exception handler. *)
Definition crashed (e : PyExc) (now : Z) (t : Main.Task) : Main.Task :=
  Main.set_error (str e) (Main.set_completed_at now (Main.set_status "failed" t)).

(** The outcome of collecting the generated files. *)
Definition collected (path_exists : string -> bool)
    (os_walk : string -> Outcome (list (string * list string * list string)))
    (output_dir : string) : Outcome (list string) :=
  if path_exists output_dir then
    match os_walk output_dir with
    | Returned walked =>
        Returned (flat_map (fun entry => map (path_join (fst (fst entry))) (snd entry)) walked)
    | Raised e => Raised e
    end
  else Returned [].

(** "Exactly one of result and error is populated", for a task of
    [main.py], as the specification words it. *)
Definition exactly_one_populated (t : Main.Task) : Prop :=
  (Main.status t = "completed" -> is_Some (Main.result t) /\ Main.error t = None) /\
  (Main.status t = "failed" -> is_Some (Main.error t) /\ Main.result t = None).

(** [needle] occurs in [text]. *)
Definition occurs_in (needle text : string) : Prop :=
  exists before after, text = before +:+ needle +:+ after.

(** *** The cleanup sweep *)

(** A terminal task whose [completed_at] lies before the cutoff. *)
Definition stale (cutoff_time : Z) (t : Main.Task) : bool :=
  Main.terminal (Main.status t) &&
  match Main.completed_at t with
  | Some c => c <? cutoff_time
  | None => false
  end.

(** The records a sweep at [cutoff_time] is to remove, and those it is to
    leave. *)
Definition evictable (cutoff_time : Z) (m : gmap string Main.Task) : gmap string Main.Task :=
  filter (fun kv => stale cutoff_time (snd kv) = true) m.

Definition swept (cutoff_time : Z) (m : gmap string Main.Task) : gmap string Main.Task :=
  filter (fun kv => ~ stale cutoff_time (snd kv) = true) m.

(** The world after [n] more readings of the clock. *)
Definition advance (n : nat) (w : Main.World) : Main.World :=
  {| Main.stores := Main.stores w;
     Main.background := Main.background w;
     Main.ticks := Main.ticks w + n;
     Main.journal := Main.journal w |}.

Definition count_of (f : Main.Family) (c : Main.Counts) : Z :=
  match f with
  | Main.Generation => Main.generations c
  | Main.Analysis => Main.analyses c
  | Main.Publish => Main.publishes c
  end.

Definition store_size (f : Main.Family) (w : Main.World) : Z :=
  Z.of_nat (size (Main.tasks_of f (Main.stores w))).

(** What a computation may change when it only deletes keys of one
    family. *)
Definition only_removes (f : Main.Family) (removed : list string)
    (w w' : Main.World) : Prop :=
  (forall k, Main.tasks_of f (Main.stores w') !! k =
             if decide (k ∈ removed) then None
             else Main.tasks_of f (Main.stores w) !! k) /\
  (forall g, f <> g ->
             Main.tasks_of g (Main.stores w') = Main.tasks_of g (Main.stores w)) /\
  Main.ticks w' = Main.ticks w /\
  Main.background w' = Main.background w.

(** A clock that never runs backwards. *)
Definition monotone (clock : nat -> Z) : Prop :=
  forall n m, (n <= m)%nat -> clock n <= clock m.

(** ** The generation task of the router *)

(** The successive records of a task, oldest first. *)
Definition history (task_id : string) (w : Router.World) : list Router.GenerationStatus :=
  omap (fun m : gmap string Router.GenerationStatus => m !! task_id) (Router.journal w).

Definition gen_statuses (task_id : string) (w : Router.World) : list string :=
  map Router.status (history task_id w).

(** What a status poll shows of a record, timestamps apart. *)
Record Snapshot := {
  seen_status : string;
  seen_progress : Z;
  seen_stage : string;
  seen_result : option Dict;
  seen_error : option string
}.

Definition view (r : Router.GenerationStatus) : Snapshot :=
  {| seen_status := Router.status r;
     seen_progress := Router.progress r;
     seen_stage := Router.stage r;
     seen_result := Router.result r;
     seen_error := Router.error r |}.

Definition views (task_id : string) (w : Router.World) : list Snapshot :=
  map view (history task_id w).

(** The progress marks of [generate_package_async], in program order. *)
Definition marks : list (Z * string) :=
  [(10, "analyzing_requirements"); (30, "generating_structure"); (50, "generating_code");
   (70, "generating_tests"); (90, "finalizing_package")].

Definition in_progress_view (m : Z * string) : Snapshot :=
  {| seen_status := "in_progress"; seen_progress := fst m; seen_stage := snd m;
     seen_result := None; seen_error := None |}.

Definition completed_view (res : Dict) : Snapshot :=
  {| seen_status := "completed"; seen_progress := 100; seen_stage := "done";
     seen_result := Some res; seen_error := None |}.

Definition failed_view (m : Z * string) (e : PyExc) : Snapshot :=
  {| seen_status := "failed"; seen_progress := fst m; seen_stage := snd m;
     seen_result := None; seen_error := Some (str e) |}.

(** The record [update_task_status] leaves in place of [task]. *)
Definition updated (task : Router.GenerationStatus) (status : string) (progress : Z)
    (stage : string) (message : option string) (result : option Dict)
    (error : option string) (now : Z) : Router.GenerationStatus :=
  {| Router.task_id := Router.task_id task; Router.status := status;
     Router.progress := progress; Router.stage := stage; Router.message := message;
     Router.result := result; Router.error := error;
     Router.created_at := Router.created_at task; Router.updated_at := now |}.

(** The record [generate_package] creates. *)
Definition pending (task_id : string) (created updated : Z) : Router.GenerationStatus :=
  {| Router.task_id := task_id; Router.status := "pending"; Router.progress := 0;
     Router.stage := "initialization"; Router.message := None; Router.result := None;
     Router.error := None; Router.created_at := created; Router.updated_at := updated |}.

(** Invariants of a run started in world [w0]: the task stands at its
    [k]-th progress mark; the run was interrupted by an exception; the
    run went through. *)
Definition at_phase (task_id : string) (w0 : Router.World) (k : nat) (w : Router.World)
  : Prop :=
  exists r,
    Router.generation_tasks w !! task_id = Some r /\
    views task_id w = views task_id w0 ++ map in_progress_view (take k marks) /\
    match k with
    | O => Router.generation_tasks w0 !! task_id = Some r
    | S j => Some (view r) = in_progress_view <$> marks !! j
    end.

Definition interrupted (task_id : string) (w0 : Router.World) (e : PyExc)
    (w : Router.World) : Prop :=
  exists k, (1 <= k <= 5)%nat /\ at_phase task_id w0 k w.

Definition finished (task_id : string) (w0 : Router.World) (res : Dict)
    (w : Router.World) : Prop :=
  exists r,
    Router.generation_tasks w !! task_id = Some r /\
    view r = completed_view res /\
    views task_id w = views task_id w0 ++ map in_progress_view marks ++ [view r].

(** The statuses the specification allows. *)
Definition spec_statuses : list string := ["pending"; "running"; "completed"; "failed"].

(** The fallback of the status endpoint as the specification words it: an
    absent task with an unexpired cache entry is answered with that
    entry. *)
Definition answers_from_cache (clock : nat -> Z) (task_id : string) (w : Router.World)
  : Prop :=
  forall entry,
    Router.generation_tasks w !! task_id = None ->
    Router.cache w !! ("package:" +:+ task_id) = Some entry ->
    clock (Router.ticks w) < Router.expires_at entry ->
    exists r, outcome_of (Router.get_generation_status clock task_id) w = Returned r /\
              Router.status r = "completed" /\
              Router.result r = Some (Router.cached_value entry).

(** ** Scenarios *)

(** A clock that advances by one second per reading. *)
Definition demo_clock (n : nat) : Z := timedelta_seconds (Z.of_nat n).

Definition router_empty : Router.World :=
  {| Router.generation_tasks := ∅; Router.cache := ∅; Router.background := [];
     Router.ticks := 0; Router.journal := [] |}.

Definition demo_request : Router.PackageGenerationRequest :=
  {| Router.idea := VStr "a small library of date helpers";
     Router.complexity := VStr "simple";
     Router.priorities := VList [VStr "quality"];
     Router.package_name := VNone;
     Router.description := VNone;
     Router.package_type := VStr "library";
     Router.ai_config := VDict [("model", VStr "gpt-4o-mini")];
     Router.enable_testing := true |}.

Definition demo_user : Dict := [("user_id", VStr "user-1")].

Definition demo_analysis : Dict :=
  [("suggested_name", VStr "date-helpers");
   ("description", VStr "Helpers for dates");
   ("suggested_type", VStr "library");
   ("recommended_features", VList [VStr "jest"; VStr "eslint"]);
   ("recommended_dependencies", VDict [])].

Definition demo_package : Dict :=
  [("files", VList [VStr "src/index.ts"; VStr "test/index.test.ts"])].

(** Collaborators that all succeed. *)
Definition demo_analyze_idea : Value -> Value -> Value -> Outcome Dict :=
  fun _ _ _ => Returned demo_analysis.
Definition demo_generate_source_code : Dict -> Value -> Outcome Value :=
  fun _ _ => Returned (VList [VStr "src/index.ts"]).
Definition demo_generate_tests : Value -> Dict -> Outcome Value :=
  fun _ _ => Returned (VList [VStr "test/index.test.ts"]).
Definition demo_create_package : Dict -> Value -> Value -> Outcome Dict :=
  fun _ _ _ => Returned demo_package.

(** An AI service that is down. *)
Definition broken_analyze_idea : Value -> Value -> Value -> Outcome Dict :=
  fun _ _ _ => Raised (Error "ConnectionError" "AI service unavailable").

(** The router after accepting request [task-1], and after running it. *)
Definition router_accepted : Router.World :=
  world_after (Router.generate_package demo_clock "task-1" demo_request demo_user)
    router_empty.

Definition router_done : Router.World :=
  world_after
    (Router.generate_package_async demo_clock demo_analyze_idea demo_generate_source_code
       demo_generate_tests demo_create_package "task-1" demo_request (VStr "user-1"))
    router_accepted.

(** A router that has forgotten [task-9] but whose cache still holds an
    entry for it: an empty payload, valid for another hour. *)
Definition router_cached_empty : Router.World :=
  {| Router.generation_tasks := ∅;
     Router.cache :=
       {[ "package:task-9" := {| Router.cached_value := [];
                                 Router.expires_at := timedelta_hours 1 |} ]};
     Router.background := [];
     Router.ticks := 0;
     Router.journal := [] |}.

Definition main_empty : Main.World :=
  {| Main.stores := {| Main.generation_tasks := ∅; Main.analysis_tasks := ∅;
                       Main.publish_tasks := ∅ |};
     Main.background := []; Main.ticks := 0; Main.journal := [] |}.

Definition demo_config : Main.PackageConfig :=
  {| Main.packageName := "demo-lib";
     Main.description := "A demo library";
     Main.version := "1.0.0";
     Main.license := "MIT";
     Main.packageType := "library";
     Main.qualityLevel := "good";
     Main.outputDir := Some "/tmp/out";
     Main.enableTesting := true;
     Main.enableDocumentation := true;
     Main.enableLinting := true;
     Main.enableTypeScript := true;
     Main.enableGitInit := false;
     Main.enableCodexIntegration := false;
     Main.enableOpenAIAgents := false;
     Main.enableCICD := false;
     Main.enableDocker := false;
     Main.enableSecurity := true;
     Main.enablePerformanceMonitoring := false;
     Main.author := None;
     Main.email := None;
     Main.repository := None;
     Main.keywords := [];
     Main.dependencies := [];
     Main.devDependencies := [];
     Main.customizations := None |}.

Definition demo_generation_request : Main.GenerationRequest :=
  {| Main.config := demo_config; Main.aiConfig := None; Main.options := None |}.

(** A machine with [node] installed, the CLI built, and every path in
    place but [/no/such/package]. *)
Definition demo_which : string -> option string := fun _ => Some "/usr/bin/node".
Definition demo_path_exists : string -> bool :=
  fun p => negb (String.eqb p "/no/such/package").
Definition demo_mkdtemp : string -> Outcome string :=
  fun prefix => Returned ("/tmp/" +:+ prefix +:+ "x1").
Definition demo_os_walk
  : string -> Outcome (list (string * list string * list string)) :=
  fun top => Returned [(top, [], ["package.json"])].
Definition demo_cli_path : string := "/srv/api/../dist/cli/index.js".

(** [main.py] after accepting generation [gen-1], and after its run with
    a child that exits with code 1. *)
Definition main_accepted : Main.World :=
  world_after
    (Main.generate_package demo_clock demo_which demo_path_exists demo_mkdtemp
       demo_cli_path "gen-1" demo_generation_request)
    main_empty.

Definition main_failed : Main.World :=
  world_after
    (Main.run_generation_task demo_clock failing_child demo_path_exists demo_os_walk
       "gen-1" ["/usr/bin/node"; demo_cli_path; "generate"; "demo-lib"] "/tmp/out")
    main_accepted.

Definition missing_package : Main.AnalysisRequest :=
  {| Main.packagePath := "/no/such/package";
     Main.analysisType := "comprehensive";
     Main.includeRecommendations := true |}.

(** A finished task, completed at [completed]. *)
Definition finished_task (task_id status : string) (completed : Z) : Main.Task :=
  {| Main.id := task_id; Main.status := status;
     Main.info := Main.PublishInfo "/srv/pkg" "npm";
     Main.started_at := 0; Main.command := ["npm"; "publish"];
     Main.completed_at := Some completed; Main.result := None;
     Main.output_dir := None; Main.files := None; Main.analysis_result := None;
     Main.error := None |}.

(** A clock reading three hours, whatever the tick. *)
Definition three_hours : nat -> Z := fun _ => timedelta_hours 3.

(** Stores with an old and a recent finished publish task and a running
    analysis. *)
Definition main_crowded : Main.World :=
  {| Main.stores :=
       {| Main.generation_tasks := ∅;
          Main.analysis_tasks :=
            {[ "ana-1" := Main.new_task "ana-1" (Main.AnalysisInfo "/srv/pkg" "basic") 0
                            ["node"] ]};
          Main.publish_tasks :=
            {[ "pub-old" := finished_task "pub-old" "completed" (timedelta_hours 1);
               "pub-new" := finished_task "pub-new" "failed" (timedelta_seconds 9000) ]} |};
     Main.background := []; Main.ticks := 0; Main.journal := [] |}.

(** A router restarted with the cache [router_done] left behind and no
    task in its store. *)
Definition router_restarted : Router.World :=
  {| Router.generation_tasks := ∅;
     Router.cache := Router.cache router_done;
     Router.background := [];
     Router.ticks := 0;
     Router.journal := [] |}.

(** The claim on a failed run as the specification words it: the task is
    failed and its [error] holds the text the child wrote to its standard
    error. *)
Definition error_holds_stderr (generation_id : string) (w : Main.World)
    (stderr_text : string) : Prop :=
  exists t msg,
    current_task generation_id w = Some t /\
    Main.status t = "failed" /\
    Main.error t = Some msg /\
    occurs_in stderr_text msg.


(** The snapshots a run appends to the journal of its task: the
    in-progress marks it reached, then one terminal snapshot. *)
Definition run_shape (new : list Snapshot) : Prop :=
  (exists res, new = map in_progress_view marks ++ [completed_view res]) \/
  (exists e k m, marks !! k = Some m /\
                 new = map in_progress_view (take (S k) marks) ++ [failed_view m e]).

(** ** The operations of [main.py] as events *)

(** One call of an endpoint or of a background run, with the environment
    it meets. *)
Inductive Call :=
| CallGeneratePackage (which : string -> option string) (path_exists : string -> bool)
    (mkdtemp : string -> Outcome string) (cli_path : string)
    (generation_id : string) (request : Main.GenerationRequest)
| CallRunGenerationTask (os_exec : list string -> option string -> Launch)
    (path_exists : string -> bool)
    (os_walk : string -> Outcome (list (string * list string * list string)))
    (generation_id : string) (command : list string) (output_dir : string)
| CallAnalyzePackage (which : string -> option string) (path_exists : string -> bool)
    (cli_path : string) (analysis_id : string) (request : Main.AnalysisRequest)
| CallRunAnalysisTask (os_exec : list string -> option string -> Launch)
    (json_loads : string -> Outcome Value)
    (analysis_id : string) (command : list string)
| CallPublishPackage (which : string -> option string) (path_exists : string -> bool)
    (publish_id : string) (request : Main.PublishRequest)
| CallRunPublishTask (os_exec : list string -> option string -> Launch)
    (publish_id : string) (command : list string) (package_path : string)
| CallCleanupTasks.

(** The world a call leaves, whether it returns or raises. *)
Definition perform (clock : nat -> Z) (c : Call) (w : Main.World) : Main.World :=
  match c with
  | CallGeneratePackage which path_exists mkdtemp cli_path generation_id request =>
      world_after (Main.generate_package clock which path_exists mkdtemp cli_path
                     generation_id request) w
  | CallRunGenerationTask os_exec path_exists os_walk generation_id command output_dir =>
      world_after (Main.run_generation_task clock os_exec path_exists os_walk
                     generation_id command output_dir) w
  | CallAnalyzePackage which path_exists cli_path analysis_id request =>
      world_after (Main.analyze_package clock which path_exists cli_path
                     analysis_id request) w
  | CallRunAnalysisTask os_exec json_loads analysis_id command =>
      world_after (Main.run_analysis_task clock os_exec json_loads analysis_id command) w
  | CallPublishPackage which path_exists publish_id request =>
      world_after (Main.publish_package clock which path_exists publish_id request) w
  | CallRunPublishTask os_exec publish_id command package_path =>
      world_after (Main.run_publish_task clock os_exec publish_id command package_path) w
  | CallCleanupTasks => world_after (Main.cleanup_tasks clock) w
  end.

(** The worlds the service can be in: the empty one it starts with, and
    what any sequence of calls makes of it. *)
Inductive reachable (clock : nat -> Z) : Main.World -> Prop :=
| reachable_start : reachable clock main_empty
| reachable_step w c : reachable clock w -> reachable clock (perform clock c w).

(** The keys written at creation fit the store the task is in. *)
Definition info_fits (f : Main.Family) (i : Main.FamilyInfo) : Prop :=
  match f, i with
  | Main.Generation, Main.GenerationInfo _ => True
  | Main.Analysis, Main.AnalysisInfo _ _ => True
  | Main.Publish, Main.PublishInfo _ _ => True
  | _, _ => False
  end.

(** A well-formed task record of family [f] stored under [key]. *)
Record task_ok (f : Main.Family) (key : string) (t : Main.Task) : Prop := {
  ok_id : Main.id t = key;
  ok_info : info_fits f (Main.info t);
  ok_status :
    Main.status t = "running" \/ Main.status t = "completed" \/ Main.status t = "failed";
  ok_running :
    Main.status t = "running" ->
    Main.completed_at t = None /\ Main.result t = None /\ Main.error t = None;
  ok_finished :
    Main.status t <> "running" -> is_Some (Main.completed_at t);
  ok_completed :
    Main.status t = "completed" ->
    exists r, Main.result t = Some r /\ success r = true;
  ok_failed :
    Main.status t = "failed" ->
    (exists r, Main.result t = Some r /\ success r = false) \/ is_Some (Main.error t)
}.

Definition stores_ok (w : Main.World) : Prop :=
  forall f key t, Main.tasks_of f (Main.stores w) !! key = Some t -> task_ok f key t.

(** The stores of [w'] are those of [w] with the record under [key] in
    the store of family [f] replaced by [t]. *)
Definition rewrites (f : Main.Family) (key : string) (t : Main.Task)
    (w w' : Main.World) : Prop :=
  Main.stores w' =
  Main.with_tasks f (<[key := t]> (Main.tasks_of f (Main.stores w))) (Main.stores w).

(** The document [run_analysis_task] and [optimize_package] make of the
    output of the runner: parsed when the run succeeded and printed
    something, a note when that does not parse, empty otherwise. *)
Definition parsed_document (json_loads : string -> Outcome Value) (note : string)
    (r : CommandResult) : Outcome Value :=
  if success r && negb (String.eqb (stdout r) "") then
    match json_loads (stdout r) with
    | Returned v => Returned v
    | Raised e =>
        if is_instance "JSONDecodeError" e then Returned (VDict [("error", VStr note)])
        else Raised e
    end
  else Returned (VDict []).

(** The record written by the update of [run_analysis_task], and by the
    update of [run_publish_task]. *)
Definition analysed (r : CommandResult) (parsed : Value) (now : Z) (t : Main.Task)
  : Main.Task :=
  Main.set_analysis_result parsed
    (Main.set_result r
       (Main.set_completed_at now
          (Main.set_status (if success r then "completed" else "failed") t))).

Definition published (r : CommandResult) (now : Z) (t : Main.Task) : Main.Task :=
  Main.set_result r
    (Main.set_completed_at now
       (Main.set_status (if success r then "completed" else "failed") t)).


(** The four characters [validate_package_name] removes before it tests
    the name: [-], [_], [@] and [/]. *)
Definition separator (cp : N) : bool :=
  (N.eqb cp 45 || N.eqb cp 95 || N.eqb cp 64 || N.eqb cp 47)%bool.

(** ** The operations of the router as events *)

(** One call of an endpoint of the router or of its background run, with
    the collaborators it meets. *)
Inductive RouterCall :=
| CallRouterGeneratePackage (task_id : string)
    (request : Router.PackageGenerationRequest) (current_user : Dict)
| CallGeneratePackageAsync
    (analyze_idea : Value -> Value -> Value -> Outcome Dict)
    (generate_source_code : Dict -> Value -> Outcome Value)
    (generate_tests : Value -> Dict -> Outcome Value)
    (create_package : Dict -> Value -> Value -> Outcome Dict)
    (task_id : string) (request : Router.PackageGenerationRequest) (user_id : Value)
| CallRouterGetGenerationStatus (task_id : string)
| CallGenerateFromTemplate
    (PackageGenerationRequest_init :
       Router.TemplateArguments -> Outcome Router.PackageGenerationRequest)
    (template_ai_config : Value)
    (task_id template_id : string) (customization current_user : Dict).

(** The task a call is about. *)
Definition call_task_id (c : RouterCall) : string :=
  match c with
  | CallRouterGeneratePackage task_id _ _ => task_id
  | CallGeneratePackageAsync _ _ _ _ task_id _ _ => task_id
  | CallRouterGetGenerationStatus task_id => task_id
  | CallGenerateFromTemplate _ _ task_id _ _ _ => task_id
  end.

(** The world a call leaves, whether it returns or raises. *)
Definition router_perform (clock : nat -> Z) (c : RouterCall) (w : Router.World)
  : Router.World :=
  match c with
  | CallRouterGeneratePackage task_id request current_user =>
      world_after (Router.generate_package clock task_id request current_user) w
  | CallGeneratePackageAsync analyze_idea generate_source_code generate_tests
      create_package task_id request user_id =>
      world_after (Router.generate_package_async clock analyze_idea generate_source_code
                     generate_tests create_package task_id request user_id) w
  | CallRouterGetGenerationStatus task_id =>
      world_after (Router.get_generation_status clock task_id) w
  | CallGenerateFromTemplate PackageGenerationRequest_init template_ai_config
      task_id template_id customization current_user =>
      world_after (Router.generate_from_template clock PackageGenerationRequest_init
                     template_ai_config task_id template_id customization current_user) w
  end.

(** The worlds the router can be in. *)
Inductive router_reachable (clock : nat -> Z) : Router.World -> Prop :=
| router_reachable_start : router_reachable clock router_empty
| router_reachable_step w c :
    router_reachable clock w -> router_reachable clock (router_perform clock c w).

(** A well-formed record of the router stored under [key]: pending as
    created, in progress at one of the five marks, completed with a
    result, or failed at the mark it had reached with an error text. *)
Definition record_ok (key : string) (r : Router.GenerationStatus) : Prop :=
  Router.task_id r = key /\ Router.message r = None /\
  ((Router.status r = "pending" /\ Router.progress r = 0 /\
    Router.stage r = "initialization" /\
    Router.result r = None /\ Router.error r = None) \/
   (Router.status r = "in_progress" /\ In (Router.progress r, Router.stage r) marks /\
    Router.result r = None /\ Router.error r = None) \/
   (Router.status r = "completed" /\ Router.progress r = 100 /\
    Router.stage r = "done" /\
    is_Some (Router.result r) /\ Router.error r = None) \/
   (Router.status r = "failed" /\ In (Router.progress r, Router.stage r) marks /\
    Router.result r = None /\ is_Some (Router.error r))).

Definition router_store_ok (w : Router.World) : Prop :=
  forall key r, Router.generation_tasks w !! key = Some r -> record_ok key r.

(** What a call about [task_id] may do to the store of [w0]: no record
    goes, and the records of the other tasks stay as they are. *)
Definition frames (task_id : string) (w0 w : Router.World) : Prop :=
  (forall key, key <> task_id ->
               Router.generation_tasks w !! key = Router.generation_tasks w0 !! key) /\
  (is_Some (Router.generation_tasks w0 !! task_id) ->
   is_Some (Router.generation_tasks w !! task_id)).

(** The invariant of a run from its first update on. *)
Definition run_invariant (task_id : string) (w : Router.World) : Prop :=
  router_store_ok w /\
  forall r, Router.generation_tasks w !! task_id = Some r ->
            Router.status r = "in_progress".

(** ** More scenarios *)

Definition demo_analysis_request : Main.AnalysisRequest :=
  {| Main.packagePath := "/srv/pkg";
     Main.analysisType := "comprehensive";
     Main.includeRecommendations := true |}.

Definition demo_publish_request : Main.PublishRequest :=
  {| Main.pub_packagePath := "/srv/pkg";
     Main.registry := "https://registry.npmjs.org";
     Main.isPublic := true;
     Main.dryRun := true;
     Main.tag := "next" |}.

(** The same package, sent to another registry. *)
Definition demo_publish_elsewhere : Main.PublishRequest :=
  {| Main.pub_packagePath := "/srv/pkg";
     Main.registry := "https://npm.example.org";
     Main.isPublic := true;
     Main.dryRun := true;
     Main.tag := "next" |}.

Definition demo_optimization_request : Main.OptimizationRequest :=
  {| Main.opt_packagePath := "/srv/pkg";
     Main.optimizationType := "performance";
     Main.aggressiveness := "moderate" |}.

(** A parser that finds every text malformed. *)
Definition demo_json_loads : string -> Outcome Value :=
  fun _ => Raised (Error "JSONDecodeError" "Expecting value").

(** A constructor of [OptimizationResponse] that accepts lists and
    dictionaries only. *)
Definition demo_OptimizationResponse_init (ok : bool) (optimization_id : string)
    (found_improvements found_metrics found_recommendations : Value)
  : Outcome Main.OptimizationResponse :=
  match found_improvements, found_metrics, found_recommendations with
  | VList _, VDict entries, VList _ =>
      Returned {| Main.opt_success := ok;
                  Main.optimizationId := optimization_id;
                  Main.improvements := [];
                  Main.opt_metrics := entries;
                  Main.opt_recommendations := [] |}
  | _, _, _ => Raised (Error "ValidationError" "value is not a valid list")
  end.

(** A constructor of [PackageGenerationRequest] that takes the arguments
    as they come. *)
Definition demo_PackageGenerationRequest_init (args : Router.TemplateArguments)
  : Outcome Router.PackageGenerationRequest :=
  Returned {| Router.idea := VNone;
              Router.complexity := VNone;
              Router.priorities := VNone;
              Router.package_name := Router.arg_package_name args;
              Router.description := Router.arg_description args;
              Router.package_type := Router.arg_package_type args;
              Router.ai_config := Router.arg_ai_config args;
              Router.enable_testing := truthy (Router.arg_enable_testing args) |}.

(** A child that prints its version and exits with code 0. *)
Definition version_child : list string -> option string -> Launch :=
  fun _ _ => Exited 0 (String.list_byte_of_string "v20.11.0") [].

(** [main.py] after accepting analysis [ana-1] and publish [pub-1]. *)
Definition main_analysing : Main.World :=
  world_after
    (Main.analyze_package demo_clock demo_which demo_path_exists demo_cli_path
       "ana-1" demo_analysis_request)
    main_empty.

(** No character beyond ASCII counts as alphanumeric. *)
Definition ascii_only : N -> bool := fun _ => false.

(** * Properties *)

(** ** Rules of the program logic *)

Section Logic.
Context {W : Type}.

(** Sequencing. *)
Lemma triple_bind {A B} (P : W -> Prop) (c : Py W A) (k : A -> Py W B) Q Q' R :
  triple P c Q R -> (forall a, triple (Q a) (k a) Q' R) -> triple P (bind c k) Q' R.
Proof.
  intros Hc Hk w HP. unfold bind. specialize (Hc w HP).
  destruct (c w) as [[a | e] w']; [apply (Hk a w' Hc) | exact Hc].
Qed.

Lemma silent_ret {A} (a : A) : silent (W:=W) (ret a).
Proof. intros w; reflexivity. Qed.

Lemma silent_lift {A} (o : Outcome A) : silent (W:=W) (lift o).
Proof. intros w; reflexivity. Qed.

Lemma silent_subscript d k : silent (W:=W) (subscript d k).
Proof. intros w. unfold subscript. destruct (dict_get d k); reflexivity. Qed.
End Logic.

(** ** The subprocess runner *)

(** The runner always returns, with [runner_result], in the world it was
    called in. *)
Lemma run_node_command_returns {W} (os_exec : list string -> option string -> Launch)
    (command : list string) (cwd : option string) (w : W) :
  run_node_command os_exec command cwd w =
  (Returned (runner_result os_exec command cwd), w).
Proof.
  unfold run_node_command, runner_result, try_except, bind, communicate, decode_utf8.
  destruct (os_exec command cwd) as [e | code out err]; simpl; [reflexivity |].
  destruct (utf8_valid out); simpl; [| reflexivity].
  destruct (utf8_valid err); reflexivity.
Qed.

(** C2, counterexample: a child that ran and exited with code 0 is
    reported as a failed launch when its output is not UTF-8. *)
Lemma run_node_command_garbled_output :
  ~ success_iff_exit_zero garbled_child ["/usr/local/bin/node"; "--version"] None.
Proof.
  intros claim.
  destruct (claim 0 [Byte.xff] [] (failure_result UnicodeDecodeError)
              eq_refl eq_refl) as [[_ H] _].
  discriminate (H eq_refl).
Qed.

(** C2, amended: [run_node_command] never raises and leaves the world
    alone.  When the process cannot be launched, or one of its streams is
    not UTF-8, the result has [success = false], [returncode = -1] and
    the text of the failure as [stderr]; when the process ran and both
    streams decode, [success] holds exactly when the exit code is 0, with
    the exit code and the decoded streams in the result. *)
Theorem run_node_command_never_raises
    {W : Type} (os_exec : list string -> option string -> Launch)
    (command : list string) (cwd : option string) (w : W) :
  exists r,
    run_node_command os_exec command cwd w = (Returned r, w) /\
    match os_exec command cwd with
    | CannotLaunch e =>
        success r = false /\ returncode r = -1 /\ stdout r = "" /\ stderr r = str e
    | Exited code out err =>
        if utf8_valid out && utf8_valid err then
          (success r = true <-> code = 0) /\ returncode r = code /\
          stdout r = String.string_of_list_byte out /\
          stderr r = String.string_of_list_byte err
        else
          success r = false /\ returncode r = -1 /\ stdout r = "" /\
          stderr r = str UnicodeDecodeError /\ stderr r <> ""
    end.
Proof.
  exists (runner_result os_exec command cwd).
  split; [apply run_node_command_returns |].
  unfold runner_result.
  destruct (os_exec command cwd) as [e | code out err]; simpl; [tauto |].
  destruct (utf8_valid out && utf8_valid err); simpl.
  - repeat split; try apply Z.eqb_eq.
  - repeat split; discriminate.
Qed.

(** ** Background generation in [main.py] *)

Section MainFacts.
Variable clock : nat -> Z.
Variable os_exec : list string -> option string -> Launch.
Variable path_exists : string -> bool.
Variable os_walk : string -> Outcome (list (string * list string * list string)).

(** Collecting the files does not touch the world. *)
Lemma collect_files_spec output_dir (w : Main.World) :
  Main.collect_files path_exists os_walk output_dir w =
  (collected path_exists os_walk output_dir, w).
Proof.
  unfold Main.collect_files, collected, bind, lift, ret.
  destruct (path_exists output_dir); [| reflexivity].
  destruct (os_walk output_dir); reflexivity.
Qed.

Lemma getitem_present f task_id t w :
  Main.tasks_of f (Main.stores w) !! task_id = Some t ->
  Main.getitem f task_id w = (Returned t, w).
Proof.
  intros H. unfold Main.getitem, bind, gets. cbn [fst snd]. rewrite H. reflexivity.
Qed.

Lemma setitem_generation generation_id t w :
  Main.setitem Main.Generation generation_id t w = (Returned tt, put generation_id t w).
Proof. reflexivity. Qed.

Lemma current_task_put generation_id t w :
  current_task generation_id (put generation_id t w) = Some t.
Proof. unfold current_task. cbn. apply lookup_insert_eq. Qed.

Lemma task_history_put generation_id t w :
  task_history generation_id (put generation_id t w) = task_history generation_id w ++ [t].
Proof.
  unfold task_history. cbn [put Main.mutate Main.journal]. rewrite omap_app. cbn.
  rewrite lookup_insert_eq. reflexivity.
Qed.

Section Run.
Variables (generation_id : string) (command : list string) (output_dir : string).
Variables (t : Main.Task) (w : Main.World).
Hypothesis present : current_task generation_id w = Some t.

Let r := runner_result os_exec command None.
Let t1 := reported r output_dir (clock (Main.ticks w)) t.

(** The body of the run, step by step: one update with the result of the
    runner, then, after a success, the files or the exception of the
    walk. *)
Lemma generation_attempt_spec :
  Main.generation_attempt clock os_exec path_exists os_walk
    generation_id command output_dir w =
  let w1 := put generation_id t1 (Main.tick w) in
  if success r then
    match collected path_exists os_walk output_dir with
    | Returned found => (Returned tt, put generation_id (Main.set_files found t1) w1)
    | Raised e => (Raised e, w1)
    end
  else (Returned tt, w1).
Proof.
  unfold Main.generation_attempt.
  unfold bind at 1. rewrite run_node_command_returns. fold r.
  unfold bind at 1. rewrite (getitem_present Main.Generation _ _ _ present).
  unfold bind at 1. cbn [Main.utcnow fst snd].
  unfold bind at 1. rewrite setitem_generation.
  change (put generation_id ?x (Main.tick w)) with (put generation_id t1 (Main.tick w)).
  cbn zeta.
  assert (H1 : current_task generation_id (put generation_id t1 (Main.tick w)) = Some t1)
    by apply current_task_put.
  generalize dependent (put generation_id t1 (Main.tick w)). intros w1 H1.
  destruct (success r); [| reflexivity].
  unfold bind at 1. rewrite collect_files_spec.
  destruct (collected path_exists os_walk output_dir) as [found | e]; [| reflexivity].
  unfold bind. rewrite (getitem_present Main.Generation _ _ _ H1).
  reflexivity.
Qed.

(** The run as a whole: it returns, and the journal of the task gains the
    one or two records it wrote. *)
Lemma run_generation_task_spec :
  exists w' t',
    Main.run_generation_task clock os_exec path_exists os_walk
      generation_id command output_dir w = (Returned tt, w') /\
    current_task generation_id w' = Some t' /\
    if success r then
      match collected path_exists os_walk output_dir with
      | Returned found =>
          t' = Main.set_files found t1 /\
          task_history generation_id w' = task_history generation_id w ++ [t1; t']
      | Raised e =>
          t' = crashed e (clock (S (Main.ticks w))) t1 /\
          task_history generation_id w' = task_history generation_id w ++ [t1; t']
      end
    else
      t' = t1 /\
      task_history generation_id w' = task_history generation_id w ++ [t1].
Proof.
  unfold Main.run_generation_task, try_except. rewrite generation_attempt_spec.
  cbn zeta.
  assert (Hh1 : task_history generation_id (put generation_id t1 (Main.tick w)) =
                task_history generation_id w ++ [t1])
    by exact (task_history_put _ _ (Main.tick w)).
  destruct (success r).
  - destruct (collected path_exists os_walk output_dir) as [found | e].
    + eexists _, _. split; [reflexivity |].
      split; [apply current_task_put |]. split; [reflexivity |].
      rewrite task_history_put, Hh1, <- app_assoc. reflexivity.
    + unfold bind.
      rewrite (getitem_present Main.Generation generation_id t1 _
                 (current_task_put _ _ _)).
      cbn [Main.utcnow fst snd]. rewrite setitem_generation.
      eexists _, _. split; [reflexivity |].
      split; [apply current_task_put |]. split; [reflexivity |].
      rewrite task_history_put.
      change (task_history generation_id (Main.tick (put generation_id t1 (Main.tick w))))
        with (task_history generation_id (put generation_id t1 (Main.tick w))).
      rewrite Hh1, <- app_assoc. reflexivity.
  - eexists _, _. split; [reflexivity |].
    split; [apply current_task_put |]. auto.
Qed.
End Run.
End MainFacts.

(** ** The endpoints of [main.py] *)

Section Endpoints.
Variable clock : nat -> Z.
Variable which : string -> option string.
Variable path_exists : string -> bool.
Variable mkdtemp : string -> Outcome string.
Variable cli_path : string.

(** A request that is answered has created a running task and scheduled
    its run. *)
Lemma generate_package_accepts generation_id request w resp w' :
  Main.generate_package clock which path_exists mkdtemp cli_path
    generation_id request w = (Returned resp, w') ->
  exists command output_dir,
    let created := Main.new_task generation_id (Main.GenerationInfo (Main.config request))
                     (clock (Main.ticks w)) command in
    current_task generation_id w' = Some created /\
    task_history generation_id w' = task_history generation_id w ++ [created] /\
    Main.background w' =
      Main.background w ++ [Main.RunGenerationTask generation_id command output_dir].
Proof.
  unfold Main.generate_package, try_except. unfold bind at 1.
  set (chosen := match Main.outputDir (Main.config request) with
                 | Some d => _ | None => _ end).
  assert (Hsilent : silent chosen).
  { subst chosen. destruct (Main.outputDir (Main.config request)) as [d |];
      [destruct (String.eqb d "") |]; intros ?; reflexivity. }
  specialize (Hsilent w). destruct (chosen w) as [[output_dir | e] w1].
  2: discriminate.
  cbn in Hsilent. subst w1.
  destruct (path_exists cli_path); cbn [negb]; [| discriminate].
  intros H. injection H as _ <-.
  eexists _, output_dir. cbn zeta.
  split; [apply (current_task_put generation_id _ (Main.tick w)) |].
  split; [apply (task_history_put generation_id _ (Main.tick w)) | reflexivity].
Qed.
End Endpoints.

(** ** The cleanup sweep *)

Section Cleanup.
Variable clock : nat -> Z.
Hypothesis clock_monotone : monotone clock.

Lemma advance_0 w : advance 0 w = w.
Proof. destruct w. unfold advance. simpl. f_equal. lia. Qed.

Lemma advance_tick n w : advance n (Main.tick w) = advance (S n) w.
Proof. unfold advance, Main.tick. simpl. f_equal. lia. Qed.

(** The comprehension selects the stale tasks, provided no later clock
    reading falls before the cutoff. *)
Lemma select_expired_spec cutoff_time items : forall w,
  (forall k, (Main.ticks w <= k)%nat -> cutoff_time <= clock k) ->
  Main.select_expired clock cutoff_time items w =
  (Returned (map fst (List.filter (fun kv => stale cutoff_time (snd kv)) items)),
   advance (length (List.filter (fun kv => Main.terminal (Main.status (snd kv))) items)) w).
Proof.
  induction items as [| [task_id task] rest IH]; intros w Hw.
  - simpl. unfold ret. rewrite advance_0. reflexivity.
  - cbn [Main.select_expired List.filter snd]. unfold bind at 1. unfold Main.expired, stale.
    destruct (Main.terminal (Main.status task)) eqn:Hterm.
    + unfold bind at 1. cbn [Main.utcnow ret fst snd]. unfold bind at 1.
      rewrite IH by (intros k Hk; apply Hw; simpl in Hk; lia).
      rewrite advance_tick. unfold ret. cbn [length andb].
      destruct (Main.completed_at task) as [c |]; cbn [from_option id].
      * destruct (c <? cutoff_time); reflexivity.
      * assert ((clock (Main.ticks w) <? cutoff_time) = false) as ->.
        { apply Z.ltb_ge. apply Hw. lia. }
        reflexivity.
    + unfold ret at 1. unfold bind at 1. rewrite IH by exact Hw. reflexivity.
Qed.

Lemma tasks_of_with_tasks f m s : Main.tasks_of f (Main.with_tasks f m s) = m.
Proof. destruct f; reflexivity. Qed.

Lemma tasks_of_with_tasks_ne f g m s :
  f <> g -> Main.tasks_of g (Main.with_tasks f m s) = Main.tasks_of g s.
Proof. destruct f, g; try reflexivity; congruence. Qed.

(** Deleting distinct keys that are all present never raises. *)
Lemma remove_all_spec f to_remove : forall w,
  NoDup to_remove ->
  (forall k, k ∈ to_remove -> is_Some (Main.tasks_of f (Main.stores w) !! k)) ->
  exists w', Main.remove_all f to_remove w = (Returned tt, w') /\
             only_removes f to_remove w w'.
Proof.
  induction to_remove as [| k rest IH]; intros w Hnd Hin.
  - exists w. split; [reflexivity |].
    repeat split; auto.
  - apply NoDup_cons in Hnd as [Hk Hnd].
    destruct (Hin k) as [t Ht]; [left |].
    cbn [Main.remove_all]. unfold bind at 1. unfold Main.delitem, bind at 1, gets.
    cbn [fst snd]. rewrite Ht. unfold modify.
    set (w1 := Main.mutate _ w).
    assert (H1 : Main.tasks_of f (Main.stores w1) = delete k (Main.tasks_of f (Main.stores w))).
    { subst w1. cbn [Main.mutate Main.stores]. apply tasks_of_with_tasks. }
    destruct (IH w1 Hnd) as (w' & Hrun & Hf & Hg & Ht' & Hb).
    { intros j Hj. rewrite H1. rewrite lookup_delete_ne by (intros ->; contradiction).
      apply Hin. right. exact Hj. }
    exists w'. split; [exact Hrun |].
    split; [| split; [| split]].
    + intros j. rewrite Hf, H1. destruct (decide (j = k)) as [-> | Hne].
      * rewrite lookup_delete_eq. rewrite (decide_True (P := k ∈ k :: rest)) by left.
        destruct (decide (k ∈ rest)); reflexivity.
      * rewrite lookup_delete_ne by congruence.
        destruct (decide (j ∈ rest)) as [Hj | Hj].
        -- rewrite decide_True by (right; exact Hj). reflexivity.
        -- rewrite decide_False; [reflexivity |].
           intros Hc. apply elem_of_cons in Hc as [? | ?]; contradiction.
    + intros g Hfg. rewrite (Hg g Hfg). subst w1. cbn [Main.mutate Main.stores].
      apply tasks_of_with_tasks_ne. exact Hfg.
    + rewrite Ht'. reflexivity.
    + rewrite Hb. reflexivity.
Qed.

Lemma NoDup_fst_filter {A} (p : string * A -> bool) (l : list (string * A)) :
  NoDup (map fst l) -> NoDup (map fst (List.filter p l)).
Proof.
  induction l as [| x l IH]; intros Hnd; [constructor |].
  cbn [map] in Hnd. apply NoDup_cons in Hnd as [Hx Hnd].
  cbn [List.filter]. destruct (p x); [| auto].
  cbn [map]. apply NoDup_cons. split; [| auto].
  intros Hin. apply Hx.
  apply list_elem_of_In, in_map_iff in Hin as (y & Hy & Hin).
  apply filter_In in Hin as [Hin _].
  apply list_elem_of_In, in_map_iff. exists y. auto.
Qed.

Lemma elem_of_expired_ids cutoff_time (m : gmap string Main.Task) k :
  k ∈ map fst (List.filter (fun kv => stale cutoff_time (snd kv)) (map_to_list m)) <->
  exists t, m !! k = Some t /\ stale cutoff_time t = true.
Proof.
  rewrite list_elem_of_In, in_map_iff. split.
  - intros ([k' t] & Hk & Hin). cbn in Hk. subst k'.
    apply filter_In in Hin as [Hin Hst].
    apply list_elem_of_In, elem_of_map_to_list in Hin. eauto.
  - intros (t & Hm & Hst). exists (k, t). split; [reflexivity |].
    apply filter_In. split; [| exact Hst].
    apply list_elem_of_In, elem_of_map_to_list. exact Hm.
Qed.

(** One sweep leaves [swept] in its own store and the other stores as
    they were. *)
Lemma clean_family_spec f cutoff_time w :
  (forall k, (Main.ticks w <= k)%nat -> cutoff_time <= clock k) ->
  exists w',
    Main.clean_family clock f cutoff_time w = (Returned tt, w') /\
    Main.tasks_of f (Main.stores w') = swept cutoff_time (Main.tasks_of f (Main.stores w)) /\
    (forall g, f <> g ->
               Main.tasks_of g (Main.stores w') = Main.tasks_of g (Main.stores w)) /\
    (Main.ticks w <= Main.ticks w')%nat /\
    Main.background w' = Main.background w.
Proof.
  intros Hw. unfold Main.clean_family, bind at 1, gets. cbn [fst snd].
  set (m := Main.tasks_of f (Main.stores w)).
  unfold bind. rewrite (select_expired_spec _ _ _ Hw).
  set (ids := map fst _). set (w1 := advance _ w).
  destruct (remove_all_spec f ids w1) as (w' & Hrun & Hf & Hg & Ht & Hb).
  { apply NoDup_fst_filter, NoDup_fst_map_to_list. }
  { intros k Hk. apply elem_of_expired_ids in Hk as (t & Hm & _). exists t. exact Hm. }
  exists w'. split; [exact Hrun |].
  split; [| split; [| split]].
  - apply map_eq. intros k. rewrite Hf.
    change (Main.tasks_of f (Main.stores w1)) with m. unfold swept.
    destruct (decide (k ∈ ids)) as [Hk | Hk].
    + apply elem_of_expired_ids in Hk as (t & Hm & Hst).
      symmetry. apply map_lookup_filter_None. right. intros t' Hm' Hc.
      cbn in Hc. congruence.
    + destruct (m !! k) as [t |] eqn:Hm.
      * symmetry. apply map_lookup_filter_Some. split; [exact Hm |].
        cbn. intros Hst. apply Hk. apply elem_of_expired_ids. eauto.
      * symmetry. apply map_lookup_filter_None. left. exact Hm.
  - intros g Hfg. rewrite (Hg g Hfg). reflexivity.
  - rewrite Ht. subst w1. cbn. lia.
  - rewrite Hb. reflexivity.
Qed.

Lemma counts_spec w :
  Main.counts w =
  (Returned {| Main.generations := store_size Main.Generation w;
               Main.analyses := store_size Main.Analysis w;
               Main.publishes := store_size Main.Publish w |}, w).
Proof. reflexivity. Qed.

(** The three sweeps and the counts around them. *)
Lemma cleanup_tasks_spec w :
  let cutoff_time := clock (Main.ticks w) - timedelta_hours 1 in
  exists w',
    Main.cleanup_tasks clock w =
    (Returned {| Main.cleanup_success := true;
                 Main.cleaned :=
                   {| Main.generations :=
                        store_size Main.Generation w - store_size Main.Generation w';
                      Main.analyses :=
                        store_size Main.Analysis w - store_size Main.Analysis w';
                      Main.publishes :=
                        store_size Main.Publish w - store_size Main.Publish w' |};
                 Main.remaining :=
                   {| Main.generations := store_size Main.Generation w';
                      Main.analyses := store_size Main.Analysis w';
                      Main.publishes := store_size Main.Publish w' |} |}, w') /\
    (forall f, Main.tasks_of f (Main.stores w') =
               swept cutoff_time (Main.tasks_of f (Main.stores w))) /\
    Main.background w' = Main.background w.
Proof.
  intros cutoff_time.
  assert (H0 : forall k, (Main.ticks (Main.tick w) <= k)%nat -> cutoff_time <= clock k).
  { intros k Hk. cbn in Hk. subst cutoff_time. unfold timedelta_hours.
    pose proof (clock_monotone (Main.ticks w) k ltac:(lia)). lia. }
  destruct (clean_family_spec Main.Generation cutoff_time _ H0)
    as (w1 & Hrun1 & Hf1 & Hg1 & Ht1 & Hb1).
  assert (H1 : forall k, (Main.ticks w1 <= k)%nat -> cutoff_time <= clock k).
  { intros k Hk. apply H0. lia. }
  destruct (clean_family_spec Main.Analysis cutoff_time _ H1)
    as (w2 & Hrun2 & Hf2 & Hg2 & Ht2 & Hb2).
  assert (H2 : forall k, (Main.ticks w2 <= k)%nat -> cutoff_time <= clock k).
  { intros k Hk. apply H1. lia. }
  destruct (clean_family_spec Main.Publish cutoff_time _ H2)
    as (w3 & Hrun3 & Hf3 & Hg3 & Ht3 & Hb3).
  exists w3. split; [| split].
  - unfold Main.cleanup_tasks, bind. rewrite counts_spec.
    cbn [Main.utcnow fst snd]. fold cutoff_time.
    rewrite Hrun1, Hrun2, Hrun3, counts_spec. reflexivity.
  - intros [].
    + rewrite (Hg3 Main.Generation), (Hg2 Main.Generation), Hf1 by discriminate.
      reflexivity.
    + rewrite (Hg3 Main.Analysis), Hf2, (Hg1 Main.Analysis) by discriminate.
      reflexivity.
    + rewrite Hf3, (Hg2 Main.Publish), (Hg1 Main.Publish) by discriminate.
      reflexivity.
  - rewrite Hb3, Hb2, Hb1. reflexivity.
Qed.

Lemma swept_lookup cutoff_time (m : gmap string Main.Task) k :
  swept cutoff_time m !! k =
  match m !! k with
  | Some t => if stale cutoff_time t then None else Some t
  | None => None
  end.
Proof.
  unfold swept. destruct (m !! k) as [t |] eqn:Hm.
  - destruct (stale cutoff_time t) eqn:Hst.
    + apply map_lookup_filter_None. right. intros t' Hm' Hc. cbn in Hc. congruence.
    + apply map_lookup_filter_Some. split; [exact Hm |]. cbn. congruence.
  - apply map_lookup_filter_None. left. exact Hm.
Qed.

Lemma swept_idempotent cutoff_time (m : gmap string Main.Task) :
  swept cutoff_time (swept cutoff_time m) = swept cutoff_time m.
Proof.
  apply map_eq. intros k. rewrite !swept_lookup.
  destruct (m !! k) as [t |]; [| reflexivity].
  destruct (stale cutoff_time t) eqn:Hst; [reflexivity |]. rewrite Hst. reflexivity.
Qed.

Lemma size_swept cutoff_time (m : gmap string Main.Task) :
  Z.of_nat (size m) - Z.of_nat (size (swept cutoff_time m)) =
  Z.of_nat (size (evictable cutoff_time m)).
Proof.
  pose proof (map_filter_union_complement
                (fun kv : string * Main.Task => stale cutoff_time (snd kv) = true) m) as Hu.
  pose proof (map_disjoint_filter_complement
                (fun kv : string * Main.Task => stale cutoff_time (snd kv) = true) m) as Hd.
  apply map_size_disj_union in Hd. rewrite Hu in Hd.
  unfold swept, evictable. lia.
Qed.
End Cleanup.

(** Stores are equal when their three maps are. *)
Lemma stores_ext (s s' : Main.Stores) :
  (forall f, Main.tasks_of f s = Main.tasks_of f s') -> s = s'.
Proof.
  intros H. destruct s, s'.
  pose proof (H Main.Generation). pose proof (H Main.Analysis). pose proof (H Main.Publish).
  cbn in *. congruence.
Qed.

(** C5: under a clock that does not run backwards, [cleanup_tasks]
    returns, and with the cutoff one hour before its first clock reading
    it removes from each of the three stores exactly the records that are
    completed or failed with a [completed_at] before the cutoff, leaving
    every other record as it was; it reports per family the number of
    records removed and the number left; and a second sweep whose cutoff
    is the same removes nothing. *)
Theorem cleanup_tasks_evicts_stale (clock : nat -> Z) (w : Main.World) :
  monotone clock ->
  let cutoff_time := clock (Main.ticks w) - timedelta_hours 1 in
  exists resp w',
    Main.cleanup_tasks clock w = (Returned resp, w') /\
    (forall f k,
        Main.tasks_of f (Main.stores w') !! k =
        match Main.tasks_of f (Main.stores w) !! k with
        | Some t => if stale cutoff_time t then None else Some t
        | None => None
        end) /\
    (forall f,
        count_of f (Main.cleaned resp) =
        Z.of_nat (size (evictable cutoff_time (Main.tasks_of f (Main.stores w))))) /\
    (forall f, count_of f (Main.remaining resp) = store_size f w') /\
    (clock (Main.ticks w') = clock (Main.ticks w) ->
     exists resp2 w2,
       Main.cleanup_tasks clock w' = (Returned resp2, w2) /\
       Main.stores w2 = Main.stores w' /\
       forall f, count_of f (Main.cleaned resp2) = 0).
Proof.
  intros Hmono cutoff_time.
  destruct (cleanup_tasks_spec clock Hmono w) as (w' & Hrun & Hsw & _).
  fold cutoff_time in Hsw.
  eexists _, w'. split; [exact Hrun |].
  split; [| split; [| split]].
  - intros f k. rewrite Hsw. apply swept_lookup.
  - intros f. rewrite <- size_swept, <- Hsw. destruct f; reflexivity.
  - intros []; reflexivity.
  - intros Hsame.
    destruct (cleanup_tasks_spec clock Hmono w') as (w2 & Hrun2 & Hsw2 & _).
    rewrite Hsame in Hsw2. fold cutoff_time in Hsw2.
    assert (Hstay : forall f, Main.tasks_of f (Main.stores w2) =
                              Main.tasks_of f (Main.stores w')).
    { intros f. rewrite Hsw2, Hsw. apply swept_idempotent. }
    eexists _, w2. split; [exact Hrun2 |].
    split; [apply stores_ext, Hstay |].
    intros f. unfold store_size.
    destruct f; cbn [count_of Main.cleaned Main.generations Main.analyses Main.publishes];
      rewrite Hstay; lia.
Qed.

(** C5 at work: with the clock at three hours, the publish task completed
    at one hour goes, the one completed at two and a half hours and the
    running analysis stay. *)
Lemma cleanup_tasks_evicts_stale_witness :
  monotone three_hours /\
  exists resp w',
    Main.cleanup_tasks three_hours main_crowded = (Returned resp, w') /\
    Main.publish_tasks (Main.stores w') !! "pub-old" = None /\
    Main.status <$> Main.publish_tasks (Main.stores w') !! "pub-new" = Some "failed" /\
    Main.status <$> Main.analysis_tasks (Main.stores w') !! "ana-1" = Some "running" /\
    count_of Main.Publish (Main.cleaned resp) = 1.
Proof.
  assert (Hmono : monotone three_hours) by (intros n m _; reflexivity).
  split; [exact Hmono |].
  destruct (cleanup_tasks_evicts_stale three_hours main_crowded Hmono)
    as (resp & w' & Hrun & Hlook & Hcount & _).
  exists resp, w'. split; [exact Hrun |].
  split; [| split; [| split]].
  - rewrite (Hlook Main.Publish). vm_compute. reflexivity.
  - rewrite (Hlook Main.Publish). vm_compute. reflexivity.
  - rewrite (Hlook Main.Analysis). vm_compute. reflexivity.
  - rewrite (Hcount Main.Publish). vm_compute. reflexivity.
Defined.

(** ** The generation task of the router *)

Section RouterFacts.
Variable clock : nat -> Z.
Variable analyze_idea : Value -> Value -> Value -> Outcome Dict.
Variable generate_source_code : Dict -> Value -> Outcome Value.
Variable generate_tests : Value -> Dict -> Outcome Value.
Variable create_package : Dict -> Value -> Value -> Outcome Dict.

Lemma silent_py_or a b : silent b -> silent (Router.py_or a b).
Proof. intros Hb w. unfold Router.py_or. destruct (truthy a); [reflexivity | apply Hb]. Qed.

Lemma views_mutate task_id r w :
  views task_id (Router.mutate <[task_id := r]> w) = views task_id w ++ [view r].
Proof.
  unfold views, history, Router.mutate. cbn [Router.journal Router.generation_tasks].
  rewrite omap_app, map_app. cbn. rewrite lookup_insert_eq. reflexivity.
Qed.

Lemma update_present task_id task status progress stage message result error w :
  Router.generation_tasks w !! task_id = Some task ->
  Router.update_task_status clock task_id status progress stage message result error w =
  (Returned tt,
   Router.mutate <[task_id := updated task status progress stage message result error
                                (clock (Router.ticks w))]> (Router.tick w)).
Proof.
  intros H. unfold Router.update_task_status, bind, gets. cbn [fst snd]. rewrite H.
  reflexivity.
Qed.

Lemma router_getitem_present task_id r w :
  Router.generation_tasks w !! task_id = Some r ->
  Router.getitem task_id w = (Returned r, w).
Proof.
  intros H. unfold Router.getitem, bind, gets. cbn [fst snd]. rewrite H. reflexivity.
Qed.

Section Run.
Variable task_id : string.
Variable w0 : Router.World.

(** An in-progress update moves the task to its next mark. *)
Lemma enter_phase k m R :
  marks !! k = Some m ->
  triple (at_phase task_id w0 k)
    (Router.update_task_status clock task_id "in_progress" (fst m) (snd m)
       None None None)
    (fun _ => at_phase task_id w0 (S k)) R.
Proof.
  intros Hk w (r & Hr & Hh & _).
  rewrite (update_present _ _ _ _ _ _ _ _ _ Hr).
  eexists. split; [apply lookup_insert_eq |].
  split.
  - rewrite (take_S_r _ _ _ Hk), views_mutate.
    change (views task_id (Router.tick w)) with (views task_id w).
    rewrite Hh, map_app, <- app_assoc. reflexivity.
  - rewrite Hk. reflexivity.
Qed.

(** Between two updates the run calls collaborators and reads
    dictionaries: the task stays at its mark, also when they raise. *)
Lemma stay {A} k (c : Py Router.World A) :
  (1 <= k <= 5)%nat -> silent c ->
  triple (at_phase task_id w0 k) c (fun _ => at_phase task_id w0 k)
    (interrupted task_id w0).
Proof.
  intros Hk Hc w HP. specialize (Hc w).
  destruct (c w) as [[a | e] w']; simpl in Hc; subst; [exact HP | exists k; auto].
Qed.

(** The last update. *)
Lemma complete res R :
  triple (at_phase task_id w0 5)
    (Router.update_task_status clock task_id "completed" 100 "done" None (Some res) None)
    (fun _ => finished task_id w0 res) R.
Proof.
  intros w (r & Hr & Hh & _).
  rewrite (update_present _ _ _ _ _ _ _ _ _ Hr).
  eexists. split; [apply lookup_insert_eq |].
  split; [reflexivity |].
  rewrite views_mutate.
  change (views task_id (Router.tick w)) with (views task_id w).
  rewrite Hh, <- app_assoc. reflexivity.
Qed.

(** The body of the [try] block either goes through all five marks and
    completes the task, or raises at one of them. *)
Lemma generation_phases_triple request :
  triple (at_phase task_id w0 0)
    (Router.generation_phases clock analyze_idea generate_source_code generate_tests
       create_package task_id request)
    (fun _ w => exists res, finished task_id w0 res w)
    (interrupted task_id w0).
Proof.
  unfold Router.generation_phases.
  eapply triple_bind; [apply (enter_phase 0 (10, _)); reflexivity | intros []].
  eapply triple_bind; [apply stay; [lia | apply silent_lift] | intros analysis].
  eapply triple_bind; [apply (enter_phase 1 (30, _)); reflexivity | intros []].
  eapply triple_bind;
    [apply stay; [lia | apply silent_py_or, silent_subscript] | intros name].
  eapply triple_bind;
    [apply stay; [lia | apply silent_py_or, silent_subscript] | intros descr].
  eapply triple_bind;
    [apply stay; [lia | apply silent_py_or, silent_subscript] | intros type].
  eapply triple_bind; [apply stay; [lia | apply silent_subscript] | intros features].
  eapply triple_bind; [apply stay; [lia | apply silent_subscript] | intros deps].
  eapply triple_bind; [apply (enter_phase 2 (50, _)); reflexivity | intros []].
  eapply triple_bind; [apply stay; [lia | apply silent_lift] | intros source_files].
  eapply triple_bind; [apply (enter_phase 3 (70, _)); reflexivity | intros []].
  eapply triple_bind;
    [apply stay; [lia | destruct (Router.enable_testing request);
                        [apply silent_lift | apply silent_ret]]
    | intros test_files].
  eapply triple_bind; [apply (enter_phase 4 (90, _)); reflexivity | intros []].
  eapply triple_bind; [apply stay; [lia | apply silent_lift] | intros res].
  eapply triple_bind; [apply complete | intros []].
  intros w H. exists res. exact H.
Qed.

(** A run on a task that is in the store: it returns, and either all
    phases went through and the task is completed with their result,
    or a phase raised after the [k]-th progress mark and the task is
    failed at that mark with the text of the exception. *)
Lemma generate_package_async_spec request user_id t0 :
  Router.generation_tasks w0 !! task_id = Some t0 ->
  exists w' r,
    Router.generate_package_async clock analyze_idea generate_source_code generate_tests
      create_package task_id request user_id w0 = (Returned tt, w') /\
    Router.generation_tasks w' !! task_id = Some r /\
    ((exists res,
        outcome_of (Router.generation_phases clock analyze_idea generate_source_code
                      generate_tests create_package task_id request) w0 = Returned tt /\
        view r = completed_view res /\
        views task_id w' =
          views task_id w0 ++ map in_progress_view marks ++ [completed_view res])
     \/
     (exists e k m,
        outcome_of (Router.generation_phases clock analyze_idea generate_source_code
                      generate_tests create_package task_id request) w0 = Raised e /\
        marks !! k = Some m /\
        view r = failed_view m e /\
        views task_id w' =
          views task_id w0 ++ map in_progress_view (take (S k) marks)
            ++ [failed_view m e])).
Proof.
  intros H0.
  assert (Hstart : at_phase task_id w0 0 w0).
  { exists t0. split; [exact H0 |]. split; [| exact H0].
    cbn. rewrite app_nil_r. reflexivity. }
  pose proof (generation_phases_triple request w0 Hstart) as Hrun.
  unfold Router.generate_package_async, try_except, outcome_of.
  destruct (Router.generation_phases clock analyze_idea generate_source_code
              generate_tests create_package task_id request w0) as [[[] | e] w1].
  - destruct Hrun as (res & r & Hr & Hv & Hh).
    exists w1, r. split; [reflexivity |]. split; [exact Hr |].
    left. exists res. rewrite <- Hv. auto.
  - destruct Hrun as (k & Hk & r1 & Hr1 & Hh & Hlast).
    destruct k as [| j]; [lia |].
    destruct (marks !! j) as [m |] eqn:Hj; [| discriminate].
    cbn in Hlast. injection Hlast as Hst Hp Hsg _ _.
    unfold bind. rewrite !(router_getitem_present _ _ _ Hr1).
    rewrite (update_present _ _ _ _ _ _ _ _ _ Hr1).
    eexists _, _. split; [reflexivity |]. split; [apply lookup_insert_eq |].
    right. exists e, j, m. split; [reflexivity |]. split; [exact Hj |].
    assert (Hv : view (updated r1 "failed" (Router.progress r1) (Router.stage r1)
                         None None (Some (str e)) (clock (Router.ticks w1))) =
                 failed_view m e).
    { unfold view, failed_view. cbn. rewrite Hp, Hsg. reflexivity. }
    split; [exact Hv |].
    rewrite views_mutate, Hv.
    change (views task_id (Router.tick w1)) with (views task_id w1).
    rewrite Hh, <- app_assoc. reflexivity.
Qed.
End Run.
End RouterFacts.

(** ** Shapes of a run of the router *)

(** The five marks. *)
Lemma marks_cases k m :
  marks !! k = Some m ->
  (k = 0%nat /\ m = (10, "analyzing_requirements")) \/
  (k = 1%nat /\ m = (30, "generating_structure")) \/
  (k = 2%nat /\ m = (50, "generating_code")) \/
  (k = 3%nat /\ m = (70, "generating_tests")) \/
  (k = 4%nat /\ m = (90, "finalizing_package")).
Proof.
  do 5 (destruct k as [| k]; [cbn; intros [= <-]; tauto |]).
  discriminate.
Qed.

Ltac shape_cases H :=
  destruct H as [(res & ->) | (e & k & m & Hm & ->)];
  [| apply marks_cases in Hm as [[-> ->] | [[-> ->] | [[-> ->] | [[-> ->] | [-> ->]]]]]];
  cbn [take map marks app fst snd].

Lemma run_shape_progress (p0 : Z) (new : list Snapshot) :
  run_shape new -> 0 <= p0 <= 10 ->
  Forall (fun v => 0 <= seen_progress v <= 100) new /\
  StronglySorted Z.le (p0 :: map seen_progress new).
Proof.
  intros H Hp0. shape_cases H.
  all: split; [repeat constructor; cbn; lia
              | repeat (constructor; [| repeat constructor; cbn; lia]); constructor].
Qed.

Lemma run_shape_failed_step (new : list Snapshot) :
  run_shape new ->
  forall i a b,
    new !! i = Some a -> new !! S i = Some b -> seen_status b = "failed" ->
    seen_status a = "in_progress" /\
    seen_progress b = seen_progress a /\ seen_stage b = seen_stage a.
Proof.
  intros H i a b. shape_cases H.
  all: do 6 (destruct i as [| i]; [cbn; intros [= <-] [= <-]; cbn; intros Hs;
                                   (discriminate Hs || auto) |]).
  all: cbn; intros _ Hb; destruct i; discriminate Hb.
Qed.

Section RouterClaims.
Variable clock : nat -> Z.
Variable analyze_idea : Value -> Value -> Value -> Outcome Dict.
Variable generate_source_code : Dict -> Value -> Outcome Value.
Variable generate_tests : Value -> Dict -> Outcome Value.
Variable create_package : Dict -> Value -> Value -> Outcome Dict.

(** The snapshots a run appends have the shape [run_shape]. *)
Lemma generate_package_async_shape task_id request user_id w t :
  Router.generation_tasks w !! task_id = Some t ->
  exists w' r new,
    Router.generate_package_async clock analyze_idea generate_source_code generate_tests
      create_package task_id request user_id w = (Returned tt, w') /\
    Router.generation_tasks w' !! task_id = Some r /\
    views task_id w' = views task_id w ++ new /\
    run_shape new /\
    last new = Some (view r).
Proof.
  intros H.
  destruct (generate_package_async_spec clock analyze_idea generate_source_code
              generate_tests create_package task_id w request user_id t H)
    as (w' & r & Hrun & Hr & [(res & _ & Hv & Hh) | (e & k & m & _ & Hm & Hv & Hh)]).
  - exists w', r, (map in_progress_view marks ++ [completed_view res]).
    repeat split; try assumption.
    + left. exists res. reflexivity.
    + rewrite last_snoc, Hv. reflexivity.
  - exists w', r, (map in_progress_view (take (S k) marks) ++ [failed_view m e]).
    repeat split; try assumption.
    + right. exists e, k, m. auto.
    + rewrite last_snoc, Hv. reflexivity.
Qed.

(** C6: along a run of the generation task, started on a record whose
    progress is between 0 and 10 (it is 0 at creation), every update
    writes a progress between 0 and 100, the successive values never
    decrease, and an update to failed follows an in-progress record and
    keeps its progress and stage. *)
Theorem progress_never_decreases (task_id : string)
    (request : Router.PackageGenerationRequest) (user_id : Value)
    (w : Router.World) (t : Router.GenerationStatus) :
  Router.generation_tasks w !! task_id = Some t ->
  0 <= Router.progress t <= 10 ->
  exists w' new,
    Router.generate_package_async clock analyze_idea generate_source_code generate_tests
      create_package task_id request user_id w = (Returned tt, w') /\
    views task_id w' = views task_id w ++ new /\
    Forall (fun v => 0 <= seen_progress v <= 100) new /\
    StronglySorted Z.le (Router.progress t :: map seen_progress new) /\
    (forall i a b,
        new !! i = Some a -> new !! S i = Some b -> seen_status b = "failed" ->
        seen_status a = "in_progress" /\
        seen_progress b = seen_progress a /\ seen_stage b = seen_stage a).
Proof.
  intros H Hp.
  destruct (generate_package_async_shape task_id request user_id w t H)
    as (w' & r & new & Hrun & _ & Hh & Hshape & _).
  exists w', new. split; [exact Hrun |]. split; [exact Hh |].
  destruct (run_shape_progress (Router.progress t) new Hshape Hp) as [Hrange Hsorted].
  split; [exact Hrange |]. split; [exact Hsorted |].
  apply run_shape_failed_step. exact Hshape.
Qed.
End RouterClaims.

(** The records the scenarios start from. *)
Lemma router_accepted_task :
  Router.generation_tasks router_accepted !! "task-1" =
  Some (pending "task-1" (demo_clock 0) (demo_clock 1)).
Proof. vm_compute. reflexivity. Qed.

(** C6 at work: a run whose first collaborator raises. *)
Lemma progress_never_decreases_witness :
  Router.generation_tasks router_accepted !! "task-1" =
    Some (pending "task-1" (demo_clock 0) (demo_clock 1)) /\
  0 <= 0 <= 10 /\
  exists w' new,
    Router.generate_package_async demo_clock broken_analyze_idea demo_generate_source_code
      demo_generate_tests demo_create_package "task-1" demo_request (VStr "user-1")
      router_accepted = (Returned tt, w') /\
    views "task-1" w' = views "task-1" router_accepted ++ new /\
    StronglySorted Z.le (0 :: map seen_progress new).
Proof.
  split; [exact router_accepted_task |]. split; [lia |].
  destruct (progress_never_decreases demo_clock broken_analyze_idea
              demo_generate_source_code demo_generate_tests demo_create_package
              "task-1" demo_request (VStr "user-1") router_accepted _
              router_accepted_task ltac:(cbn; lia))
    as (w' & new & Hrun & Hh & _ & Hsorted & _).
  exists w', new. auto.
Defined.

(** ** The status endpoint and the rejected requests *)

(** C10: a status update addressed to a task that is not in the store
    returns normally and leaves the world, the store included, exactly as
    it was. *)
Theorem update_task_status_unknown_task (clock : nat -> Z) (task_id status : string)
    (progress : Z) (stage : string) (message : option string) (result : option Dict)
    (error : option string) (w : Router.World) :
  Router.generation_tasks w !! task_id = None ->
  Router.update_task_status clock task_id status progress stage message result error w =
  (Returned tt, w).
Proof.
  intros H. unfold Router.update_task_status, bind, gets. cbn [fst snd]. rewrite H.
  reflexivity.
Qed.

(** C10 at work: an update for an identifier the store never saw. *)
Lemma update_task_status_unknown_task_witness :
  Router.generation_tasks router_accepted !! "task-404" = None /\
  Router.update_task_status demo_clock "task-404" "failed" 30 "generating_structure"
    None None (Some "boom") router_accepted = (Returned tt, router_accepted).
Proof.
  assert (H : Router.generation_tasks router_accepted !! "task-404" = None)
    by (vm_compute; reflexivity).
  split; [exact H |].
  apply (update_task_status_unknown_task demo_clock "task-404" "failed" 30
           "generating_structure" None None (Some "boom") router_accepted H).
Defined.

(** C9: a request to analyse a path that does not exist is rejected
    before any task is created or scheduled, the world being left as it
    was; the [400] raised for it is caught by the handler's own
    [except Exception] and leaves as a [500]. *)
Theorem analyze_package_missing_path (clock : nat -> Z) (which : string -> option string)
    (path_exists : string -> bool) (cli_path analysis_id : string)
    (request : Main.AnalysisRequest) (w : Main.World) :
  path_exists (Main.packagePath request) = false ->
  Main.analyze_package clock which path_exists cli_path analysis_id request w =
  (Raised (HTTPException 500
             ("Analysis failed: " +:+ str (HTTPException 400 "Package path does not exist"))),
   w).
Proof.
  intros H. unfold Main.analyze_package, try_except. rewrite H. reflexivity.
Qed.

(** C9 at work: the request for [/no/such/package] leaves as a 500. *)
Lemma analyze_package_missing_path_witness :
  demo_path_exists (Main.packagePath missing_package) = false /\
  Main.analyze_package demo_clock demo_which demo_path_exists demo_cli_path
    "ana-7" missing_package main_empty =
  (Raised (HTTPException 500 "Analysis failed: 400: Package path does not exist"),
   main_empty).
Proof.
  split; [reflexivity |].
  rewrite (analyze_package_missing_path demo_clock demo_which demo_path_exists
             demo_cli_path "ana-7" missing_package main_empty eq_refl).
  vm_compute. reflexivity.
Defined.

(** C8, counterexample: an absent task whose cache entry has not expired
    but holds an empty payload is answered with not-found. *)
Lemma get_generation_status_empty_payload :
  ~ answers_from_cache demo_clock "task-9" router_cached_empty.
Proof.
  intros claim.
  destruct (claim {| Router.cached_value := []; Router.expires_at := timedelta_hours 1 |})
    as (r & Hr & _).
  - reflexivity.
  - vm_compute. reflexivity.
  - vm_compute. reflexivity.
  - vm_compute in Hr. discriminate Hr.
Qed.

(** C8, amended: for a task that is not in the store, the status endpoint
    reads the cache under [package:<id>]; an entry that has not expired
    and whose payload is not empty is answered as a completed status
    carrying that payload; in every other case (no entry, an expired
    entry, an empty payload) the endpoint raises [404]. *)
Theorem get_generation_status_fallback (clock : nat -> Z) (task_id : string)
    (w : Router.World) :
  Router.generation_tasks w !! task_id = None ->
  Router.generation_tasks (world_after (Router.get_generation_status clock task_id) w) =
    Router.generation_tasks w /\
  match Router.cache w !! ("package:" +:+ task_id) with
  | Some entry =>
      if (clock (Router.ticks w) <? Router.expires_at entry)
         && truthy (VDict (Router.cached_value entry))
      then
        exists r,
          outcome_of (Router.get_generation_status clock task_id) w = Returned r /\
          view r = completed_view (Router.cached_value entry)
      else
        outcome_of (Router.get_generation_status clock task_id) w =
        Raised (HTTPException 404 "Task not found")
  | None =>
      outcome_of (Router.get_generation_status clock task_id) w =
      Raised (HTTPException 404 "Task not found")
  end.
Proof.
  intros H.
  unfold Router.get_generation_status, world_after, outcome_of, bind, gets.
  cbn [fst snd]. rewrite H. unfold Router.cache_get, bind, gets.
  cbn [Router.utcnow fst snd Router.cache Router.tick].
  destruct (Router.cache w !! ("package:" +:+ task_id)) as [entry |]; [| split; reflexivity].
  destruct (clock (Router.ticks w) <? Router.expires_at entry); [| split; reflexivity].
  cbn [ret fst snd from_option andb].
  destruct (truthy (VDict (Router.cached_value entry))); [| split; reflexivity].
  cbn. split; [reflexivity |]. eexists. split; reflexivity.
Qed.

(** C8 at work: the restarted router answers [task-1] from its cache. *)
Lemma get_generation_status_fallback_witness :
  Router.generation_tasks router_restarted !! "task-1" = None /\
  exists r,
    outcome_of (Router.get_generation_status demo_clock "task-1") router_restarted =
      Returned r /\
    view r = completed_view demo_package.
Proof.
  assert (H : Router.generation_tasks router_restarted !! "task-1" = None)
    by reflexivity.
  split; [exact H |].
  pose proof (get_generation_status_fallback demo_clock "task-1" router_restarted H)
    as [_ Hc].
  vm_compute in Hc. exact Hc.
Defined.

(** ** What a background run leaves behind *)

Lemma main_accepted_task :
  current_task "gen-1" main_accepted =
  Some (Main.new_task "gen-1" (Main.GenerationInfo demo_config) (demo_clock 0)
          (Main.generation_command demo_cli_path demo_config "/usr/bin/node" "/tmp/out")).
Proof. vm_compute. reflexivity. Qed.

Section RunClaims.
Variable clock : nat -> Z.
Variable analyze_idea : Value -> Value -> Value -> Outcome Dict.
Variable generate_source_code : Dict -> Value -> Outcome Value.
Variable generate_tests : Value -> Dict -> Outcome Value.
Variable create_package : Dict -> Value -> Value -> Outcome Dict.
Variable os_exec : list string -> option string -> Launch.
Variable path_exists : string -> bool.
Variable os_walk : string -> Outcome (list (string * list string * list string)).

(** C7: a background run on a task that is in its store returns without
    raising and leaves the task completed or failed; an exception
    raised by the body of the run leaves it failed, with the text of
    the exception as its [error].  This holds for the generation task
    of the router and for [run_generation_task] of [main.py]. *)
Theorem background_run_ends_terminal
    (task_id : string) (request : Router.PackageGenerationRequest) (user_id : Value)
    (w : Router.World) (t : Router.GenerationStatus)
    (generation_id : string) (command : list string) (output_dir : string)
    (mw : Main.World) (mt : Main.Task) :
  Router.generation_tasks w !! task_id = Some t ->
  current_task generation_id mw = Some mt ->
  (exists w' r,
      Router.generate_package_async clock analyze_idea generate_source_code
        generate_tests create_package task_id request user_id w = (Returned tt, w') /\
      Router.generation_tasks w' !! task_id = Some r /\
      is_terminal (Router.status r) /\
      forall e,
        outcome_of (Router.generation_phases clock analyze_idea generate_source_code
                      generate_tests create_package task_id request) w = Raised e ->
        Router.status r = "failed" /\ Router.error r = Some (str e)) /\
  (exists mw' mt',
      Main.run_generation_task clock os_exec path_exists os_walk
        generation_id command output_dir mw = (Returned tt, mw') /\
      current_task generation_id mw' = Some mt' /\
      is_terminal (Main.status mt') /\
      forall e,
        outcome_of (Main.generation_attempt clock os_exec path_exists os_walk
                      generation_id command output_dir) mw = Raised e ->
        Main.status mt' = "failed" /\ Main.error mt' = Some (str e)).
Proof.
  intros H Hm. split.
  - destruct (generate_package_async_spec clock analyze_idea generate_source_code
                generate_tests create_package task_id w request user_id t H)
      as (w' & r & Hrun & Hr & [(res & Hok & Hv & _) | (e0 & k & m & Hex & _ & Hv & _)]).
    + exists w', r. split; [exact Hrun |]. split; [exact Hr |].
      injection Hv as Hst _ _ _ _.
      split; [left; exact Hst |]. intros e He. congruence.
    + exists w', r. split; [exact Hrun |]. split; [exact Hr |].
      injection Hv as Hst _ _ _ Herr.
      split; [right; exact Hst |]. intros e He.
      rewrite Hex in He. injection He as <-. auto.
  - destruct (run_generation_task_spec clock os_exec path_exists os_walk
                generation_id command output_dir mt mw Hm)
      as (mw' & mt' & Hrun & Hcur & Hcases).
    exists mw', mt'. split; [exact Hrun |]. split; [exact Hcur |].
    unfold outcome_of.
    rewrite (generation_attempt_spec clock os_exec path_exists os_walk
               generation_id command output_dir mt mw Hm).
    cbn zeta in *.
    destruct (success (runner_result os_exec command None)) eqn:Hs.
    + destruct (collected path_exists os_walk output_dir) as [found | e0].
      * destruct Hcases as [-> _]. cbn. rewrite Hs.
        split; [left; reflexivity | discriminate].
      * destruct Hcases as [-> _]. cbn.
        split; [right; reflexivity |]. intros e [= <-]. auto.
    + destruct Hcases as [-> _]. cbn. rewrite Hs.
      split; [right; reflexivity | discriminate].
Qed.

(** C4, amended: when the child of a background generation exits with a
    non-zero code, the run returns and leaves the task failed, with the
    whole result of the runner stored under [result] ([success] false;
    the exit code and the captured standard error, when both streams
    are UTF-8) and the [error] entry as it was before the run. *)
Theorem non_zero_exit_fails_task
    (generation_id : string) (command : list string) (output_dir : string)
    (w : Main.World) (t : Main.Task) (code : Z) (out err : list Byte.byte) :
  current_task generation_id w = Some t ->
  os_exec command None = Exited code out err ->
  code <> 0 ->
  exists w' t' res,
    Main.run_generation_task clock os_exec path_exists os_walk
      generation_id command output_dir w = (Returned tt, w') /\
    current_task generation_id w' = Some t' /\
    Main.status t' = "failed" /\
    Main.error t' = Main.error t /\
    Main.result t' = Some res /\
    success res = false /\
    (utf8_valid out = true -> utf8_valid err = true ->
     returncode res = code /\ stderr res = String.string_of_list_byte err).
Proof.
  intros H Hexec Hcode.
  destruct (run_generation_task_spec clock os_exec path_exists os_walk
              generation_id command output_dir t w H)
    as (w' & t' & Hrun & Hcur & Hcases).
  cbn zeta in Hcases.
  assert (Hres : runner_result os_exec command None =
                 if utf8_valid out && utf8_valid err then exit_result code out err
                 else failure_result UnicodeDecodeError).
  { unfold runner_result. rewrite Hexec. reflexivity. }
  assert (Hs : success (runner_result os_exec command None) = false).
  { rewrite Hres. destruct (utf8_valid out && utf8_valid err); [| reflexivity].
    cbn. apply Z.eqb_neq. exact Hcode. }
  rewrite Hs in Hcases. destruct Hcases as [-> _].
  eexists w', _, (runner_result os_exec command None).
  split; [exact Hrun |]. split; [exact Hcur |].
  split; [cbn; rewrite Hs; reflexivity |].
  split; [reflexivity |]. split; [reflexivity |]. split; [exact Hs |].
  intros Ho He. rewrite Hres, Ho, He. split; reflexivity.
Qed.
End RunClaims.

(** C4, counterexample: after a child that wrote [boom] to its standard
    error and exited with code 1, the task is failed but has no [error]
    entry. *)
Lemma non_zero_exit_leaves_no_error :
  ~ error_holds_stderr "gen-1" main_failed "boom".
Proof.
  intros (t & msg & Ht & _ & He & _).
  vm_compute in Ht. injection Ht as <-. discriminate He.
Qed.

(** C4 at work: the child that writes [boom] and exits with code 1. *)
Lemma non_zero_exit_fails_task_witness :
  current_task "gen-1" main_accepted =
    Some (Main.new_task "gen-1" (Main.GenerationInfo demo_config) (demo_clock 0)
            (Main.generation_command demo_cli_path demo_config "/usr/bin/node" "/tmp/out")) /\
  failing_child ["node"] None = Exited 1 [] (String.list_byte_of_string "boom") /\
  1 <> 0 /\
  exists w' t' res,
    Main.run_generation_task demo_clock failing_child demo_path_exists demo_os_walk
      "gen-1" ["node"] "/tmp/out" main_accepted = (Returned tt, w') /\
    current_task "gen-1" w' = Some t' /\
    Main.status t' = "failed" /\
    Main.error t' = None /\
    Main.result t' = Some res /\
    stderr res = "boom".
Proof.
  split; [exact main_accepted_task |]. split; [reflexivity |]. split; [discriminate |].
  destruct (non_zero_exit_fails_task demo_clock failing_child demo_path_exists demo_os_walk
              "gen-1" ["node"] "/tmp/out" main_accepted _ 1 []
              (String.list_byte_of_string "boom") main_accepted_task eq_refl
              ltac:(discriminate))
    as (w' & t' & res & Hrun & Hcur & Hst & Herr & Hres & _ & Hdec).
  exists w', t', res. repeat split; try assumption.
  apply Hdec; reflexivity.
Defined.

(** C7 at work: an AI service that is down, and a child that fails. *)
Lemma background_run_ends_terminal_witness :
  Router.generation_tasks router_accepted !! "task-1" =
    Some (pending "task-1" (demo_clock 0) (demo_clock 1)) /\
  current_task "gen-1" main_accepted =
    Some (Main.new_task "gen-1" (Main.GenerationInfo demo_config) (demo_clock 0)
            (Main.generation_command demo_cli_path demo_config "/usr/bin/node" "/tmp/out")) /\
  (exists w' r,
      Router.generate_package_async demo_clock broken_analyze_idea demo_generate_source_code
        demo_generate_tests demo_create_package "task-1" demo_request (VStr "user-1")
        router_accepted = (Returned tt, w') /\
      Router.generation_tasks w' !! "task-1" = Some r /\
      Router.status r = "failed" /\
      Router.error r = Some "AI service unavailable") /\
  (exists mw' mt',
      Main.run_generation_task demo_clock failing_child demo_path_exists demo_os_walk
        "gen-1" ["node"] "/tmp/out" main_accepted = (Returned tt, mw') /\
      current_task "gen-1" mw' = Some mt' /\
      is_terminal (Main.status mt')).
Proof.
  split; [exact router_accepted_task |]. split; [exact main_accepted_task |].
  destruct (background_run_ends_terminal demo_clock broken_analyze_idea
              demo_generate_source_code demo_generate_tests demo_create_package
              failing_child demo_path_exists demo_os_walk
              "task-1" demo_request (VStr "user-1") router_accepted _
              "gen-1" ["node"] "/tmp/out" main_accepted _
              router_accepted_task main_accepted_task)
    as [(w' & r & Hrun & Hr & _ & Hexc) (mw' & mt' & Hmrun & Hmcur & Hmterm & _)].
  split.
  - exists w', r. split; [exact Hrun |]. split; [exact Hr |].
    apply (Hexc (Error "ConnectionError" "AI service unavailable")).
    vm_compute. reflexivity.
  - exists mw', mt'. auto.
Defined.

(** ** The life cycle of a status *)

Ltac all_terminal :=
  repeat (apply List.Forall_cons; [first [left; reflexivity | right; reflexivity] |]);
  apply List.Forall_nil.

Ltac none_terminal :=
  repeat (apply List.Forall_cons; [intros [? | ?]; discriminate |]);
  apply List.Forall_nil.

(** Non-terminal reads followed by terminal reads never regress. *)
Lemma never_regresses_app (running finished : list string) :
  Forall (fun s => ~ is_terminal s) running ->
  Forall is_terminal finished ->
  never_regresses (running ++ finished).
Proof.
  intros Hrun Hfin i j s s' Hij Hi Hj Hs.
  destruct (decide (j < length running)%nat) as [Hlt | Hge].
  - rewrite lookup_app_l in Hi by lia.
    exfalso. exact (proj1 (Forall_lookup _ _) Hrun i s Hi Hs).
  - rewrite lookup_app_r in Hj by lia.
    exact (proj1 (Forall_lookup _ _) Hfin _ s' Hj).
Qed.

Lemma gen_statuses_views task_id w :
  gen_statuses task_id w = map seen_status (views task_id w).
Proof. unfold gen_statuses, views. rewrite map_map. reflexivity. Qed.

(** The endpoint of the router creates the pending record, also when it
    then fails to read the user. *)
Lemma router_generate_package_spec clock task_id request current_user w :
  let w1 := world_after (Router.generate_package clock task_id request current_user) w in
  let created := pending task_id (clock (Router.ticks w)) (clock (S (Router.ticks w))) in
  Router.generation_tasks w1 !! task_id = Some created /\
  views task_id w1 = views task_id w ++ [view created].
Proof.
  unfold world_after, Router.generate_package, bind, modify.
  cbn [Router.utcnow fst snd Router.tick Router.ticks].
  unfold subscript. destruct (dict_get current_user "user_id"); cbn [ret raise fst snd].
  - split; [apply lookup_insert_eq |].
    exact (views_mutate task_id _ (Router.tick (Router.tick w))).
  - split; [apply lookup_insert_eq |].
    exact (views_mutate task_id _ (Router.tick (Router.tick w))).
Qed.

(** The statuses of a run: in progress one to five times, then a terminal
    one. *)
Lemma statuses_of_shape new :
  run_shape new ->
  exists k s, (1 <= k <= 5)%nat /\ is_terminal s /\
              map seen_status new = replicate k "in_progress" ++ [s].
Proof.
  intros [(res & ->) | (e & k & m & Hm & ->)].
  - exists 5%nat, "completed". split; [lia |]. split; [left; reflexivity | reflexivity].
  - exists (S k), "failed".
    apply marks_cases in Hm as [[-> ->] | [[-> ->] | [[-> ->] | [[-> ->] | [-> ->]]]]];
      (split; [lia |]); (split; [right; reflexivity | reflexivity]).
Qed.

(** C1, counterexample: the statuses a poll reads of a router task while
    it runs are [in_progress], which is none of the four statuses of the
    specification. *)
Lemma in_progress_is_not_a_spec_status :
  ~ Forall (fun s => In s spec_statuses) (gen_statuses "task-1" router_done).
Proof.
  intros H.
  assert (Hseen : In "in_progress" (gen_statuses "task-1" router_done))
    by (vm_compute; tauto).
  apply (proj1 (List.Forall_forall _ _) H) in Hseen.
  cbn in Hseen. intuition discriminate.
Qed.

(** C3, counterexample: a task of [main.py] that failed because its child
    exited with code 1 has a [result] and no [error]. *)
Lemma failed_task_with_result_only :
  ~ (forall t, current_task "gen-1" main_failed = Some t -> exactly_one_populated t).
Proof.
  intros claim.
  destruct (current_task "gen-1" main_failed) as [t |] eqn:Ht;
    [| vm_compute in Ht; discriminate Ht].
  destruct (claim t eq_refl) as [_ Hfailed].
  vm_compute in Ht. injection Ht as <-.
  destruct (Hfailed eq_refl) as [_ Hres]. discriminate Hres.
Qed.

Section LifeCycle.
Variable clock : nat -> Z.
Variable analyze_idea : Value -> Value -> Value -> Outcome Dict.
Variable generate_source_code : Dict -> Value -> Outcome Value.
Variable generate_tests : Value -> Dict -> Outcome Value.
Variable create_package : Dict -> Value -> Value -> Outcome Dict.
Variable os_exec : list string -> option string -> Launch.
Variable which : string -> option string.
Variable path_exists : string -> bool.
Variable os_walk : string -> Outcome (list (string * list string * list string)).
Variable mkdtemp : string -> Outcome string.
Variable cli_path : string.

(** C1, amended: a task of the router is created [pending], is
    [in_progress] while its run goes through its one to five phases,
    and ends [completed] or [failed]; a task of [main.py] is created
    [running] and its run writes only [completed] or [failed].  In both
    stores no status read after a terminal one is non-terminal. *)
Theorem status_life_cycle
    (task_id : string) (request : Router.PackageGenerationRequest)
    (current_user : Dict) (user_id : Value) (w : Router.World)
    (generation_id : string) (mrequest : Main.GenerationRequest)
    (command : list string) (output_dir : string)
    (mw mw1 : Main.World) (resp : Main.GenerationResponse) :
  Main.generate_package clock which path_exists mkdtemp cli_path
    generation_id mrequest mw = (Returned resp, mw1) ->
  (let w1 := world_after (Router.generate_package clock task_id request current_user) w in
   let w2 := world_after
               (Router.generate_package_async clock analyze_idea generate_source_code
                  generate_tests create_package task_id request user_id) w1 in
   exists k s,
     (1 <= k <= 5)%nat /\ is_terminal s /\
     gen_statuses task_id w2 =
       gen_statuses task_id w ++ "pending" :: replicate k "in_progress" ++ [s] /\
     never_regresses ("pending" :: replicate k "in_progress" ++ [s])) /\
  (let mw2 := world_after
                (Main.run_generation_task clock os_exec path_exists os_walk
                   generation_id command output_dir) mw1 in
   exists written,
     written <> [] /\ Forall is_terminal written /\
     task_statuses generation_id mw2 =
       task_statuses generation_id mw ++ "running" :: written /\
     never_regresses ("running" :: written)).
Proof.
  intros Haccept. split.
  - cbn zeta.
    destruct (router_generate_package_spec clock task_id request current_user w)
      as [Hcreated Hv1].
    set (w1 := world_after _ w) in *.
    destruct (generate_package_async_shape clock analyze_idea generate_source_code
                generate_tests create_package task_id request user_id w1 _ Hcreated)
      as (w2 & r & new & Hrun & _ & Hv2 & Hshape & _).
    unfold world_after at 1. rewrite Hrun. cbn [snd].
    destruct (statuses_of_shape new Hshape) as (k & s & Hk & Hs & Hnew).
    exists k, s. split; [exact Hk |]. split; [exact Hs |]. split.
    + rewrite !gen_statuses_views, Hv2, Hv1, !map_app, Hnew, <- app_assoc. reflexivity.
    + apply (never_regresses_app ("pending" :: replicate k "in_progress") [s]).
      * constructor; [intros [? | ?]; discriminate |].
        apply Forall_replicate. intros [? | ?]; discriminate.
      * constructor; [exact Hs | constructor].
  - cbn zeta.
    destruct (generate_package_accepts clock which path_exists mkdtemp cli_path
                generation_id mrequest mw resp mw1 Haccept)
      as (cmd & out & Hcur & Hh1 & _).
    cbn zeta in Hcur, Hh1.
    destruct (run_generation_task_spec clock os_exec path_exists os_walk
                generation_id command output_dir _ mw1 Hcur)
      as (mw2 & t' & Hrun & _ & Hcases).
    unfold world_after. rewrite Hrun. cbn [snd]. cbn zeta in Hcases.
    unfold task_statuses.
    destruct (success (runner_result os_exec command None)) eqn:Hs.
    + destruct (collected path_exists os_walk output_dir) as [found | e];
        destruct Hcases as [-> ->];
        rewrite Hh1, <- app_assoc, !map_app; cbn [map app];
        cbn [Main.status reported crashed Main.set_files Main.set_output_dir
               Main.set_result Main.set_completed_at Main.set_status Main.set_error
               Main.new_task];
        rewrite ?Hs.
      * exists ["completed"; "completed"].
        split; [discriminate |]. split; [all_terminal |]. split; [reflexivity |].
        apply (never_regresses_app ["running"] ["completed"; "completed"]);
          [none_terminal | all_terminal].
      * exists ["completed"; "failed"].
        split; [discriminate |]. split; [all_terminal |]. split; [reflexivity |].
        apply (never_regresses_app ["running"] ["completed"; "failed"]);
          [none_terminal | all_terminal].
    + destruct Hcases as [-> ->].
      rewrite Hh1, <- app_assoc, !map_app. cbn [map app].
      cbn [Main.status reported Main.set_output_dir Main.set_result
             Main.set_completed_at Main.set_status Main.new_task].
      rewrite Hs.
      exists ["failed"].
      split; [discriminate |]. split; [all_terminal |]. split; [reflexivity |].
      apply (never_regresses_app ["running"] ["failed"]);
        [none_terminal | all_terminal].
Qed.
End LifeCycle.

(** ** Result and error of a finished task *)

Section Payload.
Variable clock : nat -> Z.
Variable analyze_idea : Value -> Value -> Value -> Outcome Dict.
Variable generate_source_code : Dict -> Value -> Outcome Value.
Variable generate_tests : Value -> Dict -> Outcome Value.
Variable create_package : Dict -> Value -> Value -> Outcome Dict.
Variable os_exec : list string -> option string -> Launch.
Variable path_exists : string -> bool.
Variable os_walk : string -> Outcome (list (string * list string * list string)).

(** C3, amended: a task of the router ends with exactly one of [result]
    and [error]: the result when completed, the error when failed.  A
    task of [main.py] that had no [error] before its run ends with a
    [result] in every case, completed or failed, and with an [error]
    exactly when the body of the run raised. *)
Theorem terminal_record_payload
    (task_id : string) (request : Router.PackageGenerationRequest) (user_id : Value)
    (w : Router.World) (t : Router.GenerationStatus)
    (generation_id : string) (command : list string) (output_dir : string)
    (mw : Main.World) (mt : Main.Task) :
  Router.generation_tasks w !! task_id = Some t ->
  current_task generation_id mw = Some mt ->
  Main.error mt = None ->
  (exists w' r,
      Router.generate_package_async clock analyze_idea generate_source_code
        generate_tests create_package task_id request user_id w = (Returned tt, w') /\
      Router.generation_tasks w' !! task_id = Some r /\
      is_terminal (Router.status r) /\
      (Router.status r = "completed" ->
       is_Some (Router.result r) /\ Router.error r = None) /\
      (Router.status r = "failed" ->
       is_Some (Router.error r) /\ Router.result r = None)) /\
  (exists mw' mt',
      Main.run_generation_task clock os_exec path_exists os_walk
        generation_id command output_dir mw = (Returned tt, mw') /\
      current_task generation_id mw' = Some mt' /\
      is_terminal (Main.status mt') /\
      is_Some (Main.result mt') /\
      (Main.status mt' = "completed" -> Main.error mt' = None) /\
      (is_Some (Main.error mt') <->
       exists e,
         outcome_of (Main.generation_attempt clock os_exec path_exists os_walk
                       generation_id command output_dir) mw = Raised e)).
Proof.
  intros H Hm Herr. split.
  - destruct (generate_package_async_spec clock analyze_idea generate_source_code
                generate_tests create_package task_id w request user_id t H)
      as (w' & r & Hrun & Hr & [(res & _ & Hv & _) | (e0 & k & m & _ & _ & Hv & _)]);
      injection Hv as Hst _ _ Hres Herror;
      exists w', r; (split; [exact Hrun |]); (split; [exact Hr |]).
    + split; [left; exact Hst |]. rewrite Hst, Hres, Herror.
      split; [intros _; split; [eexists; reflexivity | reflexivity] | discriminate].
    + split; [right; exact Hst |]. rewrite Hst, Hres, Herror.
      split; [discriminate | intros _; split; [eexists; reflexivity | reflexivity]].
  - destruct (run_generation_task_spec clock os_exec path_exists os_walk
                generation_id command output_dir mt mw Hm)
      as (mw' & mt' & Hrun & Hcur & Hcases).
    exists mw', mt'. split; [exact Hrun |]. split; [exact Hcur |].
    unfold outcome_of.
    rewrite (generation_attempt_spec clock os_exec path_exists os_walk
               generation_id command output_dir mt mw Hm).
    cbn zeta in *.
    destruct (success (runner_result os_exec command None)) eqn:Hs.
    + destruct (collected path_exists os_walk output_dir) as [found | e0];
        destruct Hcases as [-> _]; cbn; rewrite ?Hs, ?Herr.
      * split; [left; reflexivity |]. split; [eexists; reflexivity |].
        split; [reflexivity |].
        split; [intros [? ?]; discriminate | intros [? ?]; discriminate].
      * split; [right; reflexivity |]. split; [eexists; reflexivity |].
        split; [discriminate |].
        split; [intros _; eexists; reflexivity | intros _; eexists; reflexivity].
    + destruct Hcases as [-> _]. cbn. rewrite Hs, Herr.
      split; [right; reflexivity |]. split; [eexists; reflexivity |].
      split; [discriminate |].
      split; [intros [? ?]; discriminate | intros [? ?]; discriminate].
Qed.
End Payload.

(** C3 at work: a completed task of the router, a failed task of [main.py]. *)
Lemma terminal_record_payload_witness :
  Router.generation_tasks router_accepted !! "task-1" =
    Some (pending "task-1" (demo_clock 0) (demo_clock 1)) /\
  current_task "gen-1" main_accepted =
    Some (Main.new_task "gen-1" (Main.GenerationInfo demo_config) (demo_clock 0)
            (Main.generation_command demo_cli_path demo_config "/usr/bin/node" "/tmp/out")) /\
  (exists w' r,
      Router.generate_package_async demo_clock demo_analyze_idea demo_generate_source_code
        demo_generate_tests demo_create_package "task-1" demo_request (VStr "user-1")
        router_accepted = (Returned tt, w') /\
      Router.generation_tasks w' !! "task-1" = Some r /\
      is_terminal (Router.status r)) /\
  (exists mw' mt',
      Main.run_generation_task demo_clock failing_child demo_path_exists demo_os_walk
        "gen-1" ["node"] "/tmp/out" main_accepted = (Returned tt, mw') /\
      current_task "gen-1" mw' = Some mt' /\
      is_Some (Main.result mt')).
Proof.
  split; [exact router_accepted_task |]. split; [exact main_accepted_task |].
  destruct (terminal_record_payload demo_clock demo_analyze_idea
              demo_generate_source_code demo_generate_tests demo_create_package
              failing_child demo_path_exists demo_os_walk
              "task-1" demo_request (VStr "user-1") router_accepted _
              "gen-1" ["node"] "/tmp/out" main_accepted _
              router_accepted_task main_accepted_task eq_refl)
    as [(w' & r & Hrun & Hr & Hterm & _) (mw' & mt' & Hmrun & Hmcur & _ & Hres & _)].
  split; [exists w', r | exists mw', mt']; auto.
Defined.

(** C1 at work: the two scenarios from acceptance to the end of the run. *)
Lemma status_life_cycle_witness :
  (exists resp,
      Main.generate_package demo_clock demo_which demo_path_exists demo_mkdtemp
        demo_cli_path "gen-1" demo_generation_request main_empty =
      (Returned resp, main_accepted)) /\
  (exists k s,
      (1 <= k <= 5)%nat /\ is_terminal s /\
      gen_statuses "task-1" router_done =
        gen_statuses "task-1" router_empty ++ "pending" :: replicate k "in_progress" ++ [s]) /\
  (exists written,
      Forall is_terminal written /\
      task_statuses "gen-1" main_failed =
        task_statuses "gen-1" main_empty ++ "running" :: written).
Proof.
  assert (Haccept : exists resp,
             Main.generate_package demo_clock demo_which demo_path_exists demo_mkdtemp
               demo_cli_path "gen-1" demo_generation_request main_empty =
             (Returned resp, main_accepted)).
  { eexists. vm_compute. reflexivity. }
  split; [exact Haccept |].
  destruct Haccept as [resp Haccept].
  destruct (status_life_cycle demo_clock demo_analyze_idea demo_generate_source_code
              demo_generate_tests demo_create_package failing_child demo_which
              demo_path_exists demo_os_walk demo_mkdtemp demo_cli_path
              "task-1" demo_request demo_user (VStr "user-1") router_empty
              "gen-1" demo_generation_request
              ["/usr/bin/node"; demo_cli_path; "generate"; "demo-lib"] "/tmp/out"
              main_empty main_accepted resp Haccept)
    as [(k & s & Hk & Hs & Hrouter & _) (written & _ & Hterm & Hmain & _)].
  split.
  - exists k, s. split; [exact Hk |]. split; [exact Hs | exact Hrouter].
  - exists written. split; [exact Hterm | exact Hmain].
Defined.

(** ** Sweeps under any clock *)

(** Whatever the clock says, the comprehension selects some of the keys
    it is given, in their order. *)
Lemma select_expired_sublist clock cutoff_time items : forall w,
  exists ids n,
    Main.select_expired clock cutoff_time items w = (Returned ids, advance n w) /\
    ids `sublist_of` map fst items.
Proof.
  induction items as [| [task_id task] rest IH]; intros w.
  - exists [], 0%nat. rewrite advance_0. split; [reflexivity | constructor].
  - cbn [Main.select_expired map fst]. unfold bind at 1. unfold Main.expired.
    destruct (Main.terminal (Main.status task)).
    + unfold bind at 1. cbn [Main.utcnow ret fst snd]. unfold bind at 1.
      destruct (IH (Main.tick w)) as (ids & n & -> & Hsub).
      rewrite advance_tick. unfold ret.
      destruct (default (clock (Main.ticks w)) (Main.completed_at task) <? cutoff_time).
      * exists (task_id :: ids), (S n). split; [reflexivity | by constructor].
      * exists ids, (S n). split; [reflexivity | by constructor].
    + unfold ret at 1. unfold bind at 1.
      destruct (IH w) as (ids & n & -> & Hsub).
      exists ids, n. split; [reflexivity | by constructor].
Qed.

(** A sweep never raises and only removes records of its own store. *)
Lemma clean_family_shrinks clock f cutoff_time w :
  exists w',
    Main.clean_family clock f cutoff_time w = (Returned tt, w') /\
    (forall k t, Main.tasks_of f (Main.stores w') !! k = Some t ->
                 Main.tasks_of f (Main.stores w) !! k = Some t) /\
    (forall g, f <> g ->
               Main.tasks_of g (Main.stores w') = Main.tasks_of g (Main.stores w)) /\
    Main.background w' = Main.background w.
Proof.
  unfold Main.clean_family, bind at 1, gets. cbn [fst snd].
  set (m := Main.tasks_of f (Main.stores w)).
  unfold bind.
  destruct (select_expired_sublist clock cutoff_time (map_to_list m) w)
    as (ids & n & -> & Hsub).
  destruct (remove_all_spec f ids (advance n w)) as (w' & Hrun & Hf & Hg & _ & Hb).
  { assert (Hnd : NoDup (map fst (map_to_list m))) by apply NoDup_fst_map_to_list.
    exact (sublist_NoDup _ _ Hnd Hsub). }
  { intros k Hk. eapply elem_of_sublist in Hk; [| exact Hsub].
    apply list_elem_of_In, in_map_iff in Hk as ([k' t] & Hk & Hin).
    cbn in Hk. subst k'.
    apply list_elem_of_In, elem_of_map_to_list in Hin. exists t. exact Hin. }
  exists w'. split; [exact Hrun |]. split; [| split].
  - intros k t. rewrite Hf. destruct (decide (k ∈ ids)); [discriminate | auto].
  - intros g Hfg. rewrite (Hg g Hfg). reflexivity.
  - rewrite Hb. reflexivity.
Qed.

Lemma cleanup_tasks_shrinks clock w :
  exists resp w',
    Main.cleanup_tasks clock w = (Returned resp, w') /\
    (forall f k t, Main.tasks_of f (Main.stores w') !! k = Some t ->
                   Main.tasks_of f (Main.stores w) !! k = Some t) /\
    Main.background w' = Main.background w.
Proof.
  set (cutoff_time := clock (Main.ticks w) - timedelta_hours 1).
  destruct (clean_family_shrinks clock Main.Generation cutoff_time (Main.tick w))
    as (w1 & Hrun1 & Hf1 & Hg1 & Hb1).
  destruct (clean_family_shrinks clock Main.Analysis cutoff_time w1)
    as (w2 & Hrun2 & Hf2 & Hg2 & Hb2).
  destruct (clean_family_shrinks clock Main.Publish cutoff_time w2)
    as (w3 & Hrun3 & Hf3 & Hg3 & Hb3).
  eexists _, w3. split; [| split].
  - unfold Main.cleanup_tasks, bind. rewrite counts_spec.
    cbn [Main.utcnow fst snd]. fold cutoff_time.
    rewrite Hrun1, Hrun2, Hrun3, counts_spec. reflexivity.
  - intros [] k t H.
    + rewrite (Hg3 Main.Generation), (Hg2 Main.Generation) in H by discriminate.
      exact (Hf1 k t H).
    + rewrite (Hg3 Main.Analysis) in H by discriminate.
      apply Hf2 in H. rewrite (Hg1 Main.Analysis) in H by discriminate. exact H.
    + apply Hf3 in H.
      rewrite (Hg2 Main.Publish), (Hg1 Main.Publish) in H by discriminate. exact H.
  - rewrite Hb3, Hb2, Hb1. reflexivity.
Qed.

(** ** What each call does to the stores *)

Lemma rewrites_put generation_id t w :
  rewrites Main.Generation generation_id t w (put generation_id t w).
Proof. reflexivity. Qed.

Lemma with_tasks_twice f m m' s :
  Main.with_tasks f m (Main.with_tasks f m' s) = Main.with_tasks f m s.
Proof. destruct f; reflexivity. Qed.

(** Writing a key twice is writing it once with the last record. *)
Lemma rewrites_twice f key t1 t2 w w1 w2 :
  rewrites f key t1 w w1 -> rewrites f key t2 w1 w2 -> rewrites f key t2 w w2.
Proof.
  unfold rewrites. intros H1 H2. rewrite H2, H1.
  rewrite tasks_of_with_tasks, insert_insert_eq, with_tasks_twice. reflexivity.
Qed.

Lemma rewrites_setitem f key t w :
  exists w', Main.setitem f key t w = (Returned tt, w') /\
             rewrites f key t w w' /\
             Main.background w' = Main.background w /\
             Main.ticks w' = Main.ticks w.
Proof. eexists. split; [reflexivity |]. repeat split. Qed.

Section Effects.
Variable clock : nat -> Z.
Variable os_exec : list string -> option string -> Launch.
Variable which : string -> option string.
Variable path_exists : string -> bool.
Variable os_walk : string -> Outcome (list (string * list string * list string)).
Variable mkdtemp : string -> Outcome string.
Variable cli_path : string.
Variable json_loads : string -> Outcome Value.

Lemma getitem_absent f task_id w :
  Main.tasks_of f (Main.stores w) !! task_id = None ->
  Main.getitem f task_id w = (Raised (KeyError task_id), w).
Proof.
  intros H. unfold Main.getitem, bind, gets. cbn [fst snd]. rewrite H. reflexivity.
Qed.

(** [generate_package] either creates and schedules one running task or
    leaves the world as it was. *)
Lemma generate_package_effect generation_id request w :
  match Main.generate_package clock which path_exists mkdtemp cli_path
          generation_id request w with
  | (Returned resp, w') =>
      exists command output_dir,
        rewrites Main.Generation generation_id
          (Main.new_task generation_id (Main.GenerationInfo (Main.config request))
             (clock (Main.ticks w)) command) w w' /\
        Main.background w' =
          Main.background w
          ++ [Main.RunGenerationTask generation_id command output_dir] /\
        Main.generationId resp = generation_id
  | (Raised e, w') => w' = w /\ exists detail, e = HTTPException 500 detail
  end.
Proof.
  unfold Main.generate_package, try_except. unfold bind at 1.
  set (chosen := match Main.outputDir (Main.config request) with
                 | Some d => _ | None => _ end).
  assert (Hsilent : silent chosen).
  { subst chosen. destruct (Main.outputDir (Main.config request)) as [d |];
      [destruct (String.eqb d "") |]; intros ?; reflexivity. }
  specialize (Hsilent w). destruct (chosen w) as [[output_dir | e] w1];
    cbn in Hsilent; subst w1.
  - destruct (path_exists cli_path); cbn [negb].
    + eexists _, output_dir. repeat split.
    + split; [reflexivity | eexists; reflexivity].
  - split; [reflexivity | eexists; reflexivity].
Qed.

Lemma analyze_package_effect analysis_id request w :
  match Main.analyze_package clock which path_exists cli_path analysis_id request w with
  | (Returned resp, w') =>
      exists command,
        rewrites Main.Analysis analysis_id
          (Main.new_task analysis_id
             (Main.AnalysisInfo (Main.packagePath request) (Main.analysisType request))
             (clock (Main.ticks w)) command) w w' /\
        Main.background w' =
          Main.background w ++ [Main.RunAnalysisTask analysis_id command] /\
        Main.analysisId resp = analysis_id
  | (Raised e, w') => w' = w /\ exists detail, e = HTTPException 500 detail
  end.
Proof.
  unfold Main.analyze_package, try_except.
  destruct (path_exists (Main.packagePath request)); cbn [negb].
  - eexists. repeat split.
  - split; [reflexivity | eexists; reflexivity].
Qed.

Lemma publish_package_effect publish_id request w :
  match Main.publish_package clock which path_exists publish_id request w with
  | (Returned (resp, jobs), w') =>
      let command := Main.publish_command request (Main.get_npm_executable which) in
      rewrites Main.Publish publish_id
        (Main.new_task publish_id
           (Main.PublishInfo (Main.pub_packagePath request) (Main.registry request))
           (clock (Main.ticks w)) command) w w' /\
      Main.background w' = Main.background w /\
      jobs = [Main.RunPublishTask publish_id command (Main.pub_packagePath request)] /\
      Main.publishId resp = publish_id
  | (Raised e, w') => w' = w /\ exists detail, e = HTTPException 500 detail
  end.
Proof.
  unfold Main.publish_package, try_except.
  destruct (path_exists (Main.pub_packagePath request)); cbn [negb].
  - repeat split.
  - split; [reflexivity | eexists; reflexivity].
Qed.

(** A run on an identifier its store does not hold raises [KeyError] out
    of its own handler and changes nothing. *)
Lemma run_generation_task_absent generation_id command output_dir w :
  current_task generation_id w = None ->
  Main.run_generation_task clock os_exec path_exists os_walk
    generation_id command output_dir w = (Raised (KeyError generation_id), w).
Proof.
  intros H. unfold Main.run_generation_task, Main.generation_attempt, try_except.
  unfold bind at 1. rewrite run_node_command_returns.
  unfold bind at 1. rewrite (getitem_absent Main.Generation _ _ H).
  unfold bind. rewrite (getitem_absent Main.Generation _ _ H). reflexivity.
Qed.

Lemma run_generation_task_effect generation_id command output_dir t w :
  current_task generation_id w = Some t ->
  let r := runner_result os_exec command None in
  let t1 := reported r output_dir (clock (Main.ticks w)) t in
  let t' := if success r then
              match collected path_exists os_walk output_dir with
              | Returned found => Main.set_files found t1
              | Raised e => crashed e (clock (S (Main.ticks w))) t1
              end
            else t1 in
  exists w',
    Main.run_generation_task clock os_exec path_exists os_walk
      generation_id command output_dir w = (Returned tt, w') /\
    rewrites Main.Generation generation_id t' w w' /\
    Main.background w' = Main.background w.
Proof.
  intros H r t1 t'. subst t'.
  unfold Main.run_generation_task, try_except.
  rewrite (generation_attempt_spec clock os_exec path_exists os_walk
             generation_id command output_dir t w H).
  cbn zeta. fold r. fold t1.
  assert (H1 : rewrites Main.Generation generation_id t1 w
                 (put generation_id t1 (Main.tick w))) by reflexivity.
  destruct (success r).
  - destruct (collected path_exists os_walk output_dir) as [found | e].
    + eexists. split; [reflexivity |]. split; [| reflexivity].
      eapply rewrites_twice; [exact H1 | apply rewrites_put].
    + unfold bind.
      rewrite (getitem_present Main.Generation generation_id t1 _
                 (current_task_put _ _ _)).
      cbn [Main.utcnow fst snd]. rewrite setitem_generation.
      eexists. split; [reflexivity |]. split; [| reflexivity].
      eapply rewrites_twice; [exact H1 |]. reflexivity.
  - eexists. split; [reflexivity |]. split; [exact H1 | reflexivity].
Qed.

Lemma parse_step (note : string) (r : CommandResult) (w : Main.World) :
  (if success r && negb (String.eqb (stdout r) "") then
     try_except_only "JSONDecodeError" (lift (json_loads (stdout r)))
       (fun _ => ret (VDict [("error", VStr note)]))
   else ret (VDict [])) w =
  (parsed_document json_loads note r, w).
Proof.
  unfold parsed_document, try_except_only, lift, ret.
  destruct (success r && negb (String.eqb (stdout r) "")); [| reflexivity].
  destruct (json_loads (stdout r)) as [v | e]; [reflexivity |].
  destruct (is_instance "JSONDecodeError" e); reflexivity.
Qed.

Lemma run_analysis_task_absent analysis_id command w :
  Main.analysis_tasks (Main.stores w) !! analysis_id = None ->
  Main.run_analysis_task clock os_exec json_loads analysis_id command w =
  (Raised (KeyError analysis_id), w).
Proof.
  intros H. unfold Main.run_analysis_task, Main.analysis_attempt, try_except.
  unfold bind at 1. rewrite run_node_command_returns.
  unfold bind at 1. rewrite parse_step.
  destruct (parsed_document json_loads "Failed to parse analysis result" _) as [v | e].
  - unfold bind at 1. rewrite (getitem_absent Main.Analysis _ _ H).
    unfold bind. rewrite (getitem_absent Main.Analysis _ _ H). reflexivity.
  - unfold bind. rewrite (getitem_absent Main.Analysis _ _ H). reflexivity.
Qed.

Lemma run_analysis_task_effect analysis_id command t w :
  Main.analysis_tasks (Main.stores w) !! analysis_id = Some t ->
  let r := runner_result os_exec command None in
  let t' := match parsed_document json_loads "Failed to parse analysis result" r with
            | Returned v => analysed r v (clock (Main.ticks w)) t
            | Raised e => crashed e (clock (Main.ticks w)) t
            end in
  exists w',
    Main.run_analysis_task clock os_exec json_loads analysis_id command w =
      (Returned tt, w') /\
    rewrites Main.Analysis analysis_id t' w w' /\
    Main.background w' = Main.background w.
Proof.
  intros H r t'. subst t'.
  unfold Main.run_analysis_task, Main.analysis_attempt, try_except.
  unfold bind at 1. rewrite run_node_command_returns. fold r.
  unfold bind at 1. rewrite parse_step.
  destruct (parsed_document json_loads "Failed to parse analysis result" r) as [v | e].
  - unfold bind. rewrite (getitem_present Main.Analysis _ _ _ H).
    cbn [Main.utcnow fst snd].
    eexists. split; [reflexivity |]. split; reflexivity.
  - unfold bind. rewrite (getitem_present Main.Analysis _ _ _ H).
    cbn [Main.utcnow fst snd].
    eexists. split; [reflexivity |]. split; reflexivity.
Qed.

Lemma run_publish_task_absent publish_id command package_path w :
  Main.publish_tasks (Main.stores w) !! publish_id = None ->
  Main.run_publish_task clock os_exec publish_id command package_path w =
  (Raised (KeyError publish_id), w).
Proof.
  intros H. unfold Main.run_publish_task, try_except.
  unfold bind at 1. rewrite run_node_command_returns.
  unfold bind at 1. rewrite (getitem_absent Main.Publish _ _ H).
  unfold bind. rewrite (getitem_absent Main.Publish _ _ H). reflexivity.
Qed.

Lemma run_publish_task_effect publish_id command package_path t w :
  Main.publish_tasks (Main.stores w) !! publish_id = Some t ->
  let r := runner_result os_exec command (Some package_path) in
  exists w',
    Main.run_publish_task clock os_exec publish_id command package_path w =
      (Returned tt, w') /\
    rewrites Main.Publish publish_id (published r (clock (Main.ticks w)) t) w w' /\
    Main.background w' = Main.background w.
Proof.
  intros H r.
  unfold Main.run_publish_task, try_except.
  unfold bind at 1. rewrite run_node_command_returns. fold r.
  unfold bind. rewrite (getitem_present Main.Publish _ _ _ H).
  cbn [Main.utcnow fst snd].
  eexists. split; [reflexivity |]. split; reflexivity.
Qed.
End Effects.

(** ** The invariant of the stores *)

Lemma task_ok_new_task f key i now cmd :
  info_fits f i -> task_ok f key (Main.new_task key i now cmd).
Proof.
  intros Hi. split; cbn; try tauto; try discriminate.
Qed.

Lemma task_ok_published f key r now t :
  task_ok f key t -> task_ok f key (published r now t).
Proof.
  intros [Hid Hinfo _ _ _ _ _]. split; cbn; try assumption.
  - destruct (success r); tauto.
  - destruct (success r); discriminate.
  - intros _. eexists. reflexivity.
  - destruct (success r) eqn:Hs; [| discriminate]. intros _. eauto.
  - destruct (success r) eqn:Hs; [discriminate |]. intros _. left. eauto.
Qed.

Lemma task_ok_reported f key r output_dir now t :
  task_ok f key t -> task_ok f key (reported r output_dir now t).
Proof. intros H. destruct (task_ok_published f key r now t H). split; assumption. Qed.

Lemma task_ok_analysed f key r parsed now t :
  task_ok f key t -> task_ok f key (analysed r parsed now t).
Proof. intros H. destruct (task_ok_published f key r now t H). split; assumption. Qed.

Lemma task_ok_set_files f key found t :
  task_ok f key t -> task_ok f key (Main.set_files found t).
Proof. intros []. split; assumption. Qed.

Lemma task_ok_crashed f key e now t :
  task_ok f key t -> task_ok f key (crashed e now t).
Proof.
  intros [Hid Hinfo _ _ _ _ _]. split; cbn; try assumption; try discriminate.
  - tauto.
  - intros _. eexists. reflexivity.
  - intros _. right. eexists. reflexivity.
Qed.

Lemma family_eq_dec (f g : Main.Family) : {f = g} + {f <> g}.
Proof. decide equality. Defined.

Lemma stores_ok_rewrites f key t w w' :
  stores_ok w -> rewrites f key t w w' -> task_ok f key t -> stores_ok w'.
Proof.
  intros Hok Hrw Ht g k t0. rewrite Hrw.
  destruct (family_eq_dec f g) as [<- | Hfg].
  - rewrite tasks_of_with_tasks. destruct (decide (key = k)) as [<- | Hk].
    + rewrite lookup_insert_eq. intros [= <-]. exact Ht.
    + rewrite lookup_insert_ne by exact Hk. apply Hok.
  - rewrite tasks_of_with_tasks_ne by exact Hfg. apply Hok.
Qed.

Lemma stores_ok_shrinks w w' :
  stores_ok w ->
  (forall f k t, Main.tasks_of f (Main.stores w') !! k = Some t ->
                 Main.tasks_of f (Main.stores w) !! k = Some t) ->
  stores_ok w'.
Proof. intros Hok Hsub f k t H. apply Hok, Hsub, H. Qed.

Lemma stores_ok_perform clock c w : stores_ok w -> stores_ok (perform clock c w).
Proof.
  intros Hok. destruct c; cbn [perform]; unfold world_after.
  - pose proof (generate_package_effect clock which path_exists mkdtemp cli_path
                  generation_id request w) as H.
    destruct (Main.generate_package _ _ _ _ _ _ _ w) as [[resp | e] w']; cbn [snd].
    + destruct H as (cmd & out & Hrw & _).
      eapply stores_ok_rewrites; [exact Hok | exact Hrw |].
      apply task_ok_new_task. exact I.
    + destruct H as [-> _]. exact Hok.
  - destruct (current_task generation_id w) as [t |] eqn:Ht.
    + destruct (run_generation_task_effect clock os_exec path_exists os_walk
                  generation_id command output_dir t w Ht) as (w' & -> & Hrw & _).
      cbn [snd]. eapply stores_ok_rewrites; [exact Hok | exact Hrw |].
      pose proof (Hok Main.Generation generation_id t Ht) as Htask.
      destruct (success _).
      * destruct (collected _ _ _).
        -- apply task_ok_set_files, task_ok_reported, Htask.
        -- apply task_ok_crashed, task_ok_reported, Htask.
      * apply task_ok_reported, Htask.
    + rewrite (run_generation_task_absent clock os_exec path_exists os_walk
                 generation_id command output_dir w Ht). exact Hok.
  - pose proof (analyze_package_effect clock which path_exists cli_path
                  analysis_id request w) as H.
    destruct (Main.analyze_package _ _ _ _ _ _ w) as [[resp | e] w']; cbn [snd].
    + destruct H as (cmd & Hrw & _).
      eapply stores_ok_rewrites; [exact Hok | exact Hrw |].
      apply task_ok_new_task. exact I.
    + destruct H as [-> _]. exact Hok.
  - destruct (Main.analysis_tasks (Main.stores w) !! analysis_id) as [t |] eqn:Ht.
    + destruct (run_analysis_task_effect clock os_exec json_loads
                  analysis_id command t w Ht) as (w' & -> & Hrw & _).
      cbn [snd]. eapply stores_ok_rewrites; [exact Hok | exact Hrw |].
      pose proof (Hok Main.Analysis analysis_id t Ht) as Htask.
      destruct (parsed_document _ _ _).
      * apply task_ok_analysed, Htask.
      * apply task_ok_crashed, Htask.
    + rewrite (run_analysis_task_absent clock os_exec json_loads
                 analysis_id command w Ht). exact Hok.
  - pose proof (publish_package_effect clock which path_exists publish_id request w) as H.
    destruct (Main.publish_package _ _ _ _ _ w) as [[[resp jobs] | e] w']; cbn [snd].
    + destruct H as (Hrw & _).
      eapply stores_ok_rewrites; [exact Hok | exact Hrw |].
      apply task_ok_new_task. exact I.
    + destruct H as [-> _]. exact Hok.
  - destruct (Main.publish_tasks (Main.stores w) !! publish_id) as [t |] eqn:Ht.
    + destruct (run_publish_task_effect clock os_exec publish_id command package_path
                  t w Ht) as (w' & -> & Hrw & _).
      cbn [snd]. eapply stores_ok_rewrites; [exact Hok | exact Hrw |].
      apply task_ok_published, (Hok Main.Publish publish_id t Ht).
    + rewrite (run_publish_task_absent clock os_exec publish_id command package_path
                 w Ht). exact Hok.
  - destruct (cleanup_tasks_shrinks clock w) as (resp & w' & -> & Hsub & _).
    cbn [snd]. eapply stores_ok_shrinks; [exact Hok | exact Hsub].
Qed.

Lemma stores_ok_empty : stores_ok main_empty.
Proof. intros [] k t H; cbn in H; rewrite lookup_empty in H; discriminate. Qed.

(** The invariant holds in every reachable world. *)
Lemma stores_ok_reachable (clock : nat -> Z) (w : Main.World) :
  reachable clock w -> stores_ok w.
Proof.
  induction 1 as [| w c _ IH]; [apply stores_ok_empty | apply stores_ok_perform, IH].
Qed.

(** X1: every record the service can hold is well formed.  In any world
    reached from the empty stores by calls of the three accepting
    endpoints, the three background runs and the cleanup, in any order
    and with any environment, a record stored under a key has that key
    as its [id], the creation keys of its own family, and a status among
    running, completed and failed; a running record has no
    [completed_at], [result] or [error]; a finished one has a
    [completed_at]; a completed one has the result of a successful
    command; a failed one has the result of a failed command or an
    [error]. *)
Theorem reachable_stores_ok (clock : nat -> Z) (w : Main.World)
    (f : Main.Family) (key : string) (t : Main.Task) :
  reachable clock w ->
  Main.tasks_of f (Main.stores w) !! key = Some t ->
  Main.id t = key /\
  info_fits f (Main.info t) /\
  (Main.status t = "running" \/ Main.status t = "completed" \/ Main.status t = "failed") /\
  (Main.status t = "running" ->
   Main.completed_at t = None /\ Main.result t = None /\ Main.error t = None) /\
  (Main.status t <> "running" -> is_Some (Main.completed_at t)) /\
  (Main.status t = "completed" -> exists r, Main.result t = Some r /\ success r = true) /\
  (Main.status t = "failed" ->
   (exists r, Main.result t = Some r /\ success r = false) \/ is_Some (Main.error t)).
Proof.
  intros Hreach Hlook.
  destruct (stores_ok_reachable clock w Hreach f key t Hlook)
    as [H1 H2 H3 H4 H5 H6 H7].
  exact (conj H1 (conj H2 (conj H3 (conj H4 (conj H5 (conj H6 H7)))))).
Qed.

(** ** Metrics and polls *)

(** Tasks whose status is one of the three add up. *)
Lemma count_partition (l : list Main.Task) :
  Forall (fun t => Main.status t = "running" \/ Main.status t = "completed"
                   \/ Main.status t = "failed") l ->
  length l =
  (length (List.filter (fun t => String.eqb (Main.status t) "running") l)
   + length (List.filter (fun t => String.eqb (Main.status t) "completed") l)
   + length (List.filter (fun t => String.eqb (Main.status t) "failed") l))%nat.
Proof.
  induction 1 as [| t l Ht _ IH]; [reflexivity |].
  cbn [List.filter length].
  destruct Ht as [-> | [-> | ->]]; cbn; lia.
Qed.

Lemma status_counts_add_up f w :
  stores_ok w ->
  let c := Main.status_counts (Main.tasks_of f (Main.stores w)) in
  Main.total c = Main.running c + Main.completed c + Main.failed c.
Proof.
  intros Hok. cbn. unfold Main.count_status.
  set (m := Main.tasks_of f (Main.stores w)).
  rewrite <- (length_map_to_list m), <- (length_map snd (map_to_list m)).
  rewrite (count_partition (map snd (map_to_list m))); [lia |].
  apply List.Forall_forall. intros t Hin.
  apply in_map_iff in Hin as ([k t'] & <- & Hin).
  apply list_elem_of_In, elem_of_map_to_list in Hin.
  exact (ok_status _ _ _ (Hok f k t' Hin)).
Qed.

(** X2: in every reachable world the metrics endpoint returns, leaves the
    stores alone, and for each of the three families its total is the
    sum of its running, completed and failed counts. *)
Theorem metrics_add_up (clock : nat -> Z) (which : string -> option string)
    (gettempdir : string) (w : Main.World) :
  reachable clock w ->
  exists m w',
    Main.get_metrics clock which gettempdir w = (Returned m, w') /\
    Main.stores w' = Main.stores w /\
    (forall c,
        c = Main.generation_counts m \/ c = Main.analysis_counts m
        \/ c = Main.publish_counts m ->
        Main.total c = Main.running c + Main.completed c + Main.failed c).
Proof.
  intros Hreach. pose proof (stores_ok_reachable clock w Hreach) as Hok.
  eexists _, _. split; [reflexivity |]. split; [reflexivity |].
  intros c [-> | [-> | ->]].
  - exact (status_counts_add_up Main.Generation w Hok).
  - exact (status_counts_add_up Main.Analysis w Hok).
  - exact (status_counts_add_up Main.Publish w Hok).
Qed.

Section Polls.
Variable clock : nat -> Z.

(** X3: in every reachable world the three status endpoints answer
    without touching the world: an identifier that is in the store of
    the family is answered with the status, completion time and error of
    its record (and never with a [KeyError] for a creation key), any
    other identifier with [404]. *)
Theorem polls_answer (w : Main.World) (task_id : string) :
  reachable clock w ->
  match Main.generation_tasks (Main.stores w) !! task_id with
  | Some t =>
      exists resp,
        Main.get_generation_status task_id w = (Returned resp, w) /\
        Main.gs_status resp = Main.status t /\
        Main.gs_completed_at resp = Main.completed_at t /\
        Main.gs_result resp = Main.result t /\
        Main.gs_error resp = Main.error t
  | None =>
      Main.get_generation_status task_id w =
      (Raised (HTTPException 404 "Generation not found"), w)
  end /\
  match Main.analysis_tasks (Main.stores w) !! task_id with
  | Some t =>
      exists resp,
        Main.get_analysis_status task_id w = (Returned resp, w) /\
        Main.as_status resp = Main.status t /\
        Main.as_completed_at resp = Main.completed_at t /\
        Main.as_result resp = default (VDict []) (Main.analysis_result t) /\
        Main.as_error resp = Main.error t
  | None =>
      Main.get_analysis_status task_id w =
      (Raised (HTTPException 404 "Analysis not found"), w)
  end /\
  match Main.publish_tasks (Main.stores w) !! task_id with
  | Some t =>
      exists resp,
        Main.get_publish_status task_id w = (Returned resp, w) /\
        Main.ps_status resp = Main.status t /\
        Main.ps_completed_at resp = Main.completed_at t /\
        Main.ps_result resp = Main.result t /\
        Main.ps_error resp = Main.error t
  | None =>
      Main.get_publish_status task_id w =
      (Raised (HTTPException 404 "Publish not found"), w)
  end.
Proof.
  intros Hreach. pose proof (stores_ok_reachable clock w Hreach) as Hok.
  split; [| split].
  - unfold Main.get_generation_status, bind, gets. cbn [fst snd].
    destruct (Main.generation_tasks (Main.stores w) !! task_id) as [t |] eqn:Ht;
      [| reflexivity].
    pose proof (ok_info _ _ _ (Hok Main.Generation task_id t Ht)) as Hinfo.
    destruct (Main.info t); cbn in Hinfo; try contradiction.
    eexists. repeat split.
  - unfold Main.get_analysis_status, bind, gets. cbn [fst snd].
    destruct (Main.analysis_tasks (Main.stores w) !! task_id) as [t |] eqn:Ht;
      [| reflexivity].
    pose proof (ok_info _ _ _ (Hok Main.Analysis task_id t Ht)) as Hinfo.
    destruct (Main.info t); cbn in Hinfo; try contradiction.
    eexists. repeat split.
  - unfold Main.get_publish_status, bind, gets. cbn [fst snd].
    destruct (Main.publish_tasks (Main.stores w) !! task_id) as [t |] eqn:Ht;
      [| reflexivity].
    pose proof (ok_info _ _ _ (Hok Main.Publish task_id t Ht)) as Hinfo.
    destruct (Main.info t); cbn in Hinfo; try contradiction.
    eexists. repeat split.
Qed.
End Polls.

(** ** Acceptance and runs, seen from the stores *)

Lemma rewrites_lookup f key t w w' :
  rewrites f key t w w' ->
  Main.tasks_of f (Main.stores w') !! key = Some t /\
  forall g k, g <> f \/ k <> key ->
              Main.tasks_of g (Main.stores w') !! k = Main.tasks_of g (Main.stores w) !! k.
Proof.
  intros Hrw. rewrite Hrw. split.
  - rewrite tasks_of_with_tasks. apply lookup_insert_eq.
  - intros g k Hne. destruct (family_eq_dec f g) as [<- | Hfg].
    + rewrite tasks_of_with_tasks. destruct Hne as [Hne | Hne]; [congruence |].
      apply lookup_insert_ne. congruence.
    + apply (f_equal (fun m => m !! k)), tasks_of_with_tasks_ne, Hfg.
Qed.

Section Acceptance.
Variable clock : nat -> Z.
Variable os_exec : list string -> option string -> Launch.
Variable which : string -> option string.
Variable path_exists : string -> bool.
Variable os_walk : string -> Outcome (list (string * list string * list string)).
Variable mkdtemp : string -> Outcome string.
Variable cli_path : string.
Variable json_loads : string -> Outcome Value.

(** X4: acceptance is all or nothing.  Each of [generate_package],
    [analyze_package] and [publish_package] either returns, having put
    one running record under the identifier it drew and touched no
    other record of any store, or raises a [500] and leaves the whole
    world (stores, scheduled jobs, clock) as it found it. *)
Theorem acceptance_all_or_nothing (task_id : string)
    (grequest : Main.GenerationRequest) (arequest : Main.AnalysisRequest)
    (prequest : Main.PublishRequest) (w : Main.World) :
  let accepted (f : Main.Family) (w' : Main.World) :=
    (exists t, Main.tasks_of f (Main.stores w') !! task_id = Some t /\
               Main.status t = "running" /\ Main.started_at t = clock (Main.ticks w)) /\
    (forall g k, g <> f \/ k <> task_id ->
                 Main.tasks_of g (Main.stores w') !! k =
                 Main.tasks_of g (Main.stores w) !! k) in
  let refused (e : PyExc) (w' : Main.World) :=
    w' = w /\ exists detail, e = HTTPException 500 detail in
  match Main.generate_package clock which path_exists mkdtemp cli_path
          task_id grequest w with
  | (Returned _, w') => accepted Main.Generation w'
  | (Raised e, w') => refused e w'
  end /\
  match Main.analyze_package clock which path_exists cli_path task_id arequest w with
  | (Returned _, w') => accepted Main.Analysis w'
  | (Raised e, w') => refused e w'
  end /\
  match Main.publish_package clock which path_exists task_id prequest w with
  | (Returned _, w') => accepted Main.Publish w'
  | (Raised e, w') => refused e w'
  end.
Proof.
  intros accepted refused. split; [| split].
  - pose proof (generate_package_effect clock which path_exists mkdtemp cli_path
                  task_id grequest w) as H.
    destruct (Main.generate_package _ _ _ _ _ _ _ w) as [[resp | e] w']; [| exact H].
    destruct H as (cmd & out & Hrw & _).
    destruct (rewrites_lookup _ _ _ _ _ Hrw) as [Hnew Hother].
    split; [eexists; split; [exact Hnew | split; reflexivity] | exact Hother].
  - pose proof (analyze_package_effect clock which path_exists cli_path
                  task_id arequest w) as H.
    destruct (Main.analyze_package _ _ _ _ _ _ w) as [[resp | e] w']; [| exact H].
    destruct H as (cmd & Hrw & _).
    destruct (rewrites_lookup _ _ _ _ _ Hrw) as [Hnew Hother].
    split; [eexists; split; [exact Hnew | split; reflexivity] | exact Hother].
  - pose proof (publish_package_effect clock which path_exists task_id prequest w) as H.
    destruct (Main.publish_package _ _ _ _ _ w) as [[[resp jobs] | e] w']; [| exact H].
    destruct H as (Hrw & _).
    destruct (rewrites_lookup _ _ _ _ _ Hrw) as [Hnew Hother].
    split; [eexists; split; [exact Hnew | split; reflexivity] | exact Hother].
Qed.

(** X5: the identifier in the response of an accepting endpoint resolves
    at once: polled right after acceptance, the task is running, with no
    completion time, files, result or error, and with the configuration
    or path of the request. *)
Theorem accepted_task_resolves (gid aid pid : string)
    (grequest : Main.GenerationRequest) (arequest : Main.AnalysisRequest)
    (prequest : Main.PublishRequest) (w gw aw pw : Main.World)
    (gresp : Main.GenerationResponse) (aresp : Main.AnalysisResponse)
    (presp : Main.PublishResponse * list Main.PublishJob) :
  Main.generate_package clock which path_exists mkdtemp cli_path gid grequest w =
    (Returned gresp, gw) ->
  Main.analyze_package clock which path_exists cli_path aid arequest w =
    (Returned aresp, aw) ->
  Main.publish_package clock which path_exists pid prequest w = (Returned presp, pw) ->
  (exists poll,
      Main.get_generation_status (Main.generationId gresp) gw = (Returned poll, gw) /\
      Main.gs_status poll = "running" /\
      Main.gs_config poll = Main.config grequest /\
      Main.gs_completed_at poll = None /\ Main.gs_files poll = [] /\
      Main.gs_result poll = None /\ Main.gs_error poll = None) /\
  (exists poll,
      Main.get_analysis_status (Main.analysisId aresp) aw = (Returned poll, aw) /\
      Main.as_status poll = "running" /\
      Main.as_package_path poll = Main.packagePath arequest /\
      Main.as_completed_at poll = None /\ Main.as_result poll = VDict [] /\
      Main.as_error poll = None) /\
  (exists poll,
      Main.get_publish_status (Main.publishId (fst presp)) pw = (Returned poll, pw) /\
      Main.ps_status poll = "running" /\
      Main.ps_package_path poll = Main.pub_packagePath prequest /\
      Main.ps_registry poll = Main.registry prequest /\
      Main.ps_completed_at poll = None /\
      Main.ps_result poll = None /\ Main.ps_error poll = None).
Proof.
  intros Hg Ha Hp. split; [| split].
  - pose proof (generate_package_effect clock which path_exists mkdtemp cli_path
                  gid grequest w) as H.
    rewrite Hg in H. destruct H as (cmd & out & Hrw & _ & ->).
    destruct (rewrites_lookup _ _ _ _ _ Hrw) as [Hnew _]. cbn in Hnew.
    unfold Main.get_generation_status, bind, gets. cbn [fst snd]. rewrite Hnew.
    eexists. repeat split.
  - pose proof (analyze_package_effect clock which path_exists cli_path
                  aid arequest w) as H.
    rewrite Ha in H. destruct H as (cmd & Hrw & _ & ->).
    destruct (rewrites_lookup _ _ _ _ _ Hrw) as [Hnew _]. cbn in Hnew.
    unfold Main.get_analysis_status, bind, gets. cbn [fst snd]. rewrite Hnew.
    eexists. repeat split.
  - pose proof (publish_package_effect clock which path_exists pid prequest w) as H.
    rewrite Hp in H. destruct presp as [resp jobs]. destruct H as (Hrw & _ & _ & Hid).
    cbn [fst]. rewrite Hid.
    destruct (rewrites_lookup _ _ _ _ _ Hrw) as [Hnew _]. cbn in Hnew.
    unfold Main.get_publish_status, bind, gets. cbn [fst snd]. rewrite Hnew.
    eexists. repeat split.
Qed.

(** X6: a background run started for an identifier its store does not
    hold does not end quietly: the [KeyError] of the lookup is raised
    again by the exception handler, the run raises it, and the world is
    left as it was. *)
Theorem run_without_record (task_id : string) (command : list string)
    (directory : string) (w : Main.World) :
  (forall f, Main.tasks_of f (Main.stores w) !! task_id = None) ->
  Main.run_generation_task clock os_exec path_exists os_walk
    task_id command directory w = (Raised (KeyError task_id), w) /\
  Main.run_analysis_task clock os_exec json_loads task_id command w =
    (Raised (KeyError task_id), w) /\
  Main.run_publish_task clock os_exec task_id command directory w =
    (Raised (KeyError task_id), w).
Proof.
  intros H. split; [| split].
  - apply run_generation_task_absent, (H Main.Generation).
  - apply run_analysis_task_absent, (H Main.Analysis).
  - apply run_publish_task_absent, (H Main.Publish).
Qed.

(** X7: a background run writes one record: whatever it meets, every
    record other than the one under its own identifier in the store of
    its own family is after the run what it was before, and nothing is
    scheduled. *)
Theorem run_touches_only_its_record (task_id : string) (command : list string)
    (directory : string) (w : Main.World) :
  let untouched (f : Main.Family) (w' : Main.World) :=
    (forall g k, g <> f \/ k <> task_id ->
                 Main.tasks_of g (Main.stores w') !! k =
                 Main.tasks_of g (Main.stores w) !! k) /\
    Main.background w' = Main.background w in
  untouched Main.Generation
    (world_after (Main.run_generation_task clock os_exec path_exists os_walk
                    task_id command directory) w) /\
  untouched Main.Analysis
    (world_after (Main.run_analysis_task clock os_exec json_loads task_id command) w) /\
  untouched Main.Publish
    (world_after (Main.run_publish_task clock os_exec task_id command directory) w).
Proof.
  intros untouched. unfold world_after. split; [| split].
  - destruct (current_task task_id w) as [t |] eqn:Ht.
    + destruct (run_generation_task_effect clock os_exec path_exists os_walk
                  task_id command directory t w Ht) as (w' & -> & Hrw & Hb).
      split; [exact (proj2 (rewrites_lookup _ _ _ _ _ Hrw)) | exact Hb].
    + rewrite (run_generation_task_absent clock os_exec path_exists os_walk
                 task_id command directory w Ht). split; reflexivity.
  - destruct (Main.analysis_tasks (Main.stores w) !! task_id) as [t |] eqn:Ht.
    + destruct (run_analysis_task_effect clock os_exec json_loads
                  task_id command t w Ht) as (w' & -> & Hrw & Hb).
      split; [exact (proj2 (rewrites_lookup _ _ _ _ _ Hrw)) | exact Hb].
    + rewrite (run_analysis_task_absent clock os_exec json_loads task_id command w Ht).
      split; reflexivity.
  - destruct (Main.publish_tasks (Main.stores w) !! task_id) as [t |] eqn:Ht.
    + destruct (run_publish_task_effect clock os_exec task_id command directory t w Ht)
        as (w' & -> & Hrw & Hb).
      split; [exact (proj2 (rewrites_lookup _ _ _ _ _ Hrw)) | exact Hb].
    + rewrite (run_publish_task_absent clock os_exec task_id command directory w Ht).
      split; reflexivity.
Qed.
End Acceptance.

(** ** Runs followed by polls *)

Lemma get_generation_status_present generation_id t cfg w :
  Main.generation_tasks (Main.stores w) !! generation_id = Some t ->
  Main.info t = Main.GenerationInfo cfg ->
  Main.get_generation_status generation_id w =
  (Returned {| Main.gs_generationId := generation_id;
               Main.gs_status := Main.status t;
               Main.gs_started_at := Main.started_at t;
               Main.gs_completed_at := Main.completed_at t;
               Main.gs_config := cfg;
               Main.gs_files := default [] (Main.files t);
               Main.gs_result := Main.result t;
               Main.gs_error := Main.error t |}, w).
Proof.
  intros Ht Hinfo. unfold Main.get_generation_status, bind, gets. cbn [fst snd].
  rewrite Ht, Hinfo. reflexivity.
Qed.

Lemma get_analysis_status_present analysis_id t path type w :
  Main.analysis_tasks (Main.stores w) !! analysis_id = Some t ->
  Main.info t = Main.AnalysisInfo path type ->
  exists poll,
    Main.get_analysis_status analysis_id w = (Returned poll, w) /\
    Main.as_status poll = Main.status t /\
    Main.as_result poll = default (VDict []) (Main.analysis_result t) /\
    Main.as_error poll = Main.error t.
Proof.
  intros Ht Hinfo. unfold Main.get_analysis_status, bind, gets. cbn [fst snd].
  rewrite Ht, Hinfo. eexists. repeat split.
Qed.

Section RunsAndPolls.
Variable clock : nat -> Z.
Variable os_exec : list string -> option string -> Launch.
Variable which : string -> option string.
Variable path_exists : string -> bool.
Variable os_walk : string -> Outcome (list (string * list string * list string)).
Variable cli_path : string.
Variable json_loads : string -> Outcome Value.

(** X8: what a poll shows after [run_generation_task] ran on a task that
    had no files yet.  The result of the runner is there in every case.
    After a failed command the task is failed, without files, its error
    as before; after a successful command it is completed with exactly
    the files collected under the output directory; and if collecting
    them raised, the task that was completed is failed, without files,
    the text of the exception as its error. *)
Theorem generation_poll_after_run (generation_id : string) (command : list string)
    (output_dir : string) (t : Main.Task) (cfg : Main.PackageConfig) (w : Main.World) :
  current_task generation_id w = Some t ->
  Main.info t = Main.GenerationInfo cfg ->
  Main.files t = None ->
  let r := runner_result os_exec command None in
  exists w' poll,
    Main.run_generation_task clock os_exec path_exists os_walk
      generation_id command output_dir w = (Returned tt, w') /\
    Main.get_generation_status generation_id w' = (Returned poll, w') /\
    Main.gs_result poll = Some r /\
    Main.gs_config poll = cfg /\
    (success r = false ->
     Main.gs_status poll = "failed" /\ Main.gs_files poll = [] /\
     Main.gs_error poll = Main.error t) /\
    (forall found,
        success r = true -> collected path_exists os_walk output_dir = Returned found ->
        Main.gs_status poll = "completed" /\ Main.gs_files poll = found /\
        Main.gs_error poll = Main.error t) /\
    (forall e,
        success r = true -> collected path_exists os_walk output_dir = Raised e ->
        Main.gs_status poll = "failed" /\ Main.gs_files poll = [] /\
        Main.gs_error poll = Some (str e)).
Proof.
  intros Ht Hinfo Hfiles r.
  destruct (run_generation_task_effect clock os_exec path_exists os_walk
              generation_id command output_dir t w Ht) as (w' & Hrun & Hrw & _).
  destruct (rewrites_lookup _ _ _ _ _ Hrw) as [Hnew _]. cbn in Hnew.
  fold r in Hnew. exists w'.
  destruct (success r) eqn:Hs.
  - destruct (collected path_exists os_walk output_dir) as [found | e] eqn:Hc.
    + eexists. split; [exact Hrun |].
      split; [apply (get_generation_status_present _ _ cfg _ Hnew); exact Hinfo |].
      cbn. rewrite Hs.
      split; [reflexivity |]. split; [reflexivity |].
      split; [discriminate |]. split.
      * intros found' _ [= <-]. repeat split.
      * intros e' _ [=].
    + eexists. split; [exact Hrun |].
      split; [apply (get_generation_status_present _ _ cfg _ Hnew); exact Hinfo |].
      cbn. rewrite Hfiles.
      split; [reflexivity |]. split; [reflexivity |].
      split; [discriminate |]. split.
      * intros found' _ [=].
      * intros e' _ [= <-]. repeat split.
  - eexists. split; [exact Hrun |].
    split; [apply (get_generation_status_present _ _ cfg _ Hnew); exact Hinfo |].
    cbn. rewrite Hs, Hfiles.
    split; [reflexivity |]. split; [reflexivity |].
    split; [repeat split |]. split; discriminate.
Qed.

(** X9: what a poll shows after [run_analysis_task].  A failed command
    leaves the task failed with an empty result and its error as before:
    the standard error of the command does not reach the poll.  A
    successful command that printed nothing leaves it completed with an
    empty result; one that printed a document, completed with the parsed
    document; one whose output is not JSON, still completed, with the
    note [Failed to parse analysis result] as its result.  Only another
    exception of the parser fails the task, with its text as error. *)
Theorem analysis_poll_after_run (analysis_id : string) (command : list string)
    (t : Main.Task) (path type : string) (w : Main.World) :
  Main.analysis_tasks (Main.stores w) !! analysis_id = Some t ->
  Main.info t = Main.AnalysisInfo path type ->
  let r := runner_result os_exec command None in
  exists w' poll,
    Main.run_analysis_task clock os_exec json_loads analysis_id command w =
      (Returned tt, w') /\
    Main.get_analysis_status analysis_id w' = (Returned poll, w') /\
    (success r = false ->
     Main.as_status poll = "failed" /\ Main.as_result poll = VDict [] /\
     Main.as_error poll = Main.error t) /\
    (success r = true -> stdout r = "" ->
     Main.as_status poll = "completed" /\ Main.as_result poll = VDict [] /\
     Main.as_error poll = Main.error t) /\
    (forall v,
        success r = true -> stdout r <> "" -> json_loads (stdout r) = Returned v ->
        Main.as_status poll = "completed" /\ Main.as_result poll = v /\
        Main.as_error poll = Main.error t) /\
    (forall msg,
        success r = true -> stdout r <> "" ->
        json_loads (stdout r) = Raised (Error "JSONDecodeError" msg) ->
        Main.as_status poll = "completed" /\
        Main.as_result poll = VDict [("error", VStr "Failed to parse analysis result")] /\
        Main.as_error poll = Main.error t) /\
    (forall e,
        success r = true -> stdout r <> "" ->
        json_loads (stdout r) = Raised e -> is_instance "JSONDecodeError" e = false ->
        Main.as_status poll = "failed" /\
        Main.as_result poll = default (VDict []) (Main.analysis_result t) /\
        Main.as_error poll = Some (str e)).
Proof.
  intros Ht Hinfo r.
  destruct (run_analysis_task_effect clock os_exec json_loads analysis_id command t w Ht)
    as (w' & Hrun & Hrw & _).
  destruct (rewrites_lookup _ _ _ _ _ Hrw) as [Hnew _]. cbn in Hnew.
  fold r in Hnew. exists w'.
  match type of Hnew with _ = Some ?u => set (t' := u) in * end.
  assert (Hinfo' : Main.info t' = Main.AnalysisInfo path type).
  { subst t'. unfold parsed_document.
    destruct (success r && negb (String.eqb (stdout r) "")); [| exact Hinfo].
    destruct (json_loads (stdout r)) as [v | e]; [exact Hinfo |].
    destruct (is_instance "JSONDecodeError" e); exact Hinfo. }
  destruct (get_analysis_status_present _ _ _ _ _ Hnew Hinfo')
    as (poll & Hpoll & Hst & Hres & Herr).
  exists poll. split; [exact Hrun |]. split; [exact Hpoll |].
  rewrite Hst, Hres, Herr. clear Hst Hres Herr Hpoll Hnew Hinfo'.
  subst t'. unfold parsed_document.
  destruct (success r) eqn:Hs; cbn [andb].
  - destruct (String.eqb (stdout r) "") eqn:Hout; cbn [negb].
    + apply String.eqb_eq in Hout. cbn; rewrite ?Hs.
      split; [discriminate |]. split; [repeat split |].
      split; [intros v _ Hne; contradiction |].
      split; [intros msg _ Hne; contradiction |].
      intros e _ Hne; contradiction.
    + apply String.eqb_neq in Hout.
      destruct (json_loads (stdout r)) as [v | e] eqn:Hj.
      * cbn; rewrite ?Hs. split; [discriminate |]. split; [intros _ Hemp; contradiction |].
        split; [intros v' _ _ [= <-]; repeat split |].
        split; [intros msg _ _ [=] |]. intros e _ _ [=].
      * destruct (is_instance "JSONDecodeError" e) eqn:Hi.
        -- cbn; rewrite ?Hs. split; [discriminate |]. split; [intros _ Hemp; contradiction |].
           split; [intros v' _ _ [=] |].
           split; [intros msg _ _ _; repeat split |].
           intros e' _ _ [= <-] Hi'. congruence.
        -- cbn; rewrite ?Hs. split; [discriminate |]. split; [intros _ Hemp; contradiction |].
           split; [intros v' _ _ [=] |].
           split; [intros msg _ _ [= ->]; cbn in Hi; discriminate Hi |].
           intros e' _ _ [= <-] _. repeat split.
  - cbn; rewrite ?Hs. split; [repeat split |]. split; [discriminate |].
    split; [discriminate |]. split; discriminate.
Qed.
End RunsAndPolls.

(** ** Publishing, optimisation, templates, health *)

Lemma get_publish_status_present publish_id t path reg w :
  Main.publish_tasks (Main.stores w) !! publish_id = Some t ->
  Main.info t = Main.PublishInfo path reg ->
  Main.get_publish_status publish_id w =
  (Returned {| Main.ps_publishId := publish_id;
               Main.ps_status := Main.status t;
               Main.ps_started_at := Main.started_at t;
               Main.ps_completed_at := Main.completed_at t;
               Main.ps_package_path := path;
               Main.ps_registry := reg;
               Main.ps_result := Main.result t;
               Main.ps_error := Main.error t |}, w).
Proof.
  intros Ht Hinfo. unfold Main.get_publish_status, bind, gets. cbn [fst snd].
  rewrite Ht, Hinfo. reflexivity.
Qed.

(** The document the optimisation and analysis endpoints read, as a
    computation. *)
Lemma parse_outcome {W} (json_loads : string -> Outcome Value) (note : string)
    (r : CommandResult) (w : W) :
  (if success r && negb (String.eqb (stdout r) "") then
     try_except_only "JSONDecodeError"
       (lift (json_loads (stdout r)))
       (fun _ => ret (VDict [("error", VStr note)]))
   else ret (VDict [])) w = (parsed_document json_loads note r, w).
Proof.
  unfold parsed_document, try_except_only, lift, ret.
  destruct (success r && negb (String.eqb (stdout r) "")); [| reflexivity].
  destruct (json_loads (stdout r)) as [v | e]; [reflexivity |].
  destruct (is_instance "JSONDecodeError" e); reflexivity.
Qed.

Section Stateless.
Variable clock : nat -> Z.
Variable os_exec : list string -> option string -> Launch.
Variable which : string -> option string.
Variable path_exists : string -> bool.
Variable cli_path : string.
Variable json_loads : string -> Outcome Value.
Variable strip : string -> string.
Variable gettempdir : string.
Variable OptimizationResponse_init :
  bool -> string -> Value -> Value -> Value -> Outcome Main.OptimizationResponse.

(** X10: the job [publish_package] schedules, once run, publishes from
    the package directory with the command stored in the record, and a
    poll then shows the result of exactly that run: completed when the
    command succeeded, failed otherwise, no error text either way.  The
    registry of the request is echoed by the poll but is no part of the
    command: requests that differ in the registry only run the same
    command. *)
Theorem publish_job_runs_in_package_directory (publish_id : string)
    (request : Main.PublishRequest) (w w1 : Main.World)
    (resp : Main.PublishResponse) (jobs : list Main.PublishJob) :
  Main.publish_package clock which path_exists publish_id request w =
    (Returned (resp, jobs), w1) ->
  exists cmd w2 poll,
    jobs = [Main.RunPublishTask publish_id cmd (Main.pub_packagePath request)] /\
    (forall other,
        Main.dryRun other = Main.dryRun request ->
        Main.isPublic other = Main.isPublic request ->
        Main.tag other = Main.tag request ->
        Main.publish_command other (Main.get_npm_executable which) = cmd) /\
    Main.run_publish_task clock os_exec publish_id cmd (Main.pub_packagePath request) w1 =
      (Returned tt, w2) /\
    Main.get_publish_status publish_id w2 = (Returned poll, w2) /\
    let r := runner_result os_exec cmd (Some (Main.pub_packagePath request)) in
    Main.ps_result poll = Some r /\
    Main.ps_status poll = (if success r then "completed" else "failed") /\
    Main.ps_registry poll = Main.registry request /\
    Main.ps_package_path poll = Main.pub_packagePath request /\
    Main.ps_error poll = None.
Proof.
  intros Hp.
  pose proof (publish_package_effect clock which path_exists publish_id request w) as H.
  rewrite Hp in H. cbv zeta in H. destruct H as (Hrw & _ & -> & _).
  destruct (rewrites_lookup _ _ _ _ _ Hrw) as [Hnew _]. cbn in Hnew.
  destruct (run_publish_task_effect clock os_exec publish_id
              (Main.publish_command request (Main.get_npm_executable which))
              (Main.pub_packagePath request) _ w1 Hnew) as (w2 & Hrun & Hrw2 & _).
  destruct (rewrites_lookup _ _ _ _ _ Hrw2) as [Hnew2 _]. cbn in Hnew2.
  eexists _, w2, _. split; [reflexivity |]. split.
  { intros other Hd Hpub Htag. unfold Main.publish_command.
    rewrite Hd, Hpub, Htag. reflexivity. }
  split; [exact Hrun |].
  split; [eapply get_publish_status_present; [exact Hnew2 | reflexivity] |].
  cbn. repeat split.
Qed.

(** X11: publishing or optimising a package path that does not exist is
    answered with status [500], not [400]: the [400] raised inside the
    [try] block is caught by its own handler, and its text becomes part
    of the detail.  Nothing is stored. *)
Theorem missing_path_is_reported_as_500 (task_id : string)
    (prequest : Main.PublishRequest) (orequest : Main.OptimizationRequest)
    (w : Main.World) :
  (path_exists (Main.pub_packagePath prequest) = false ->
   Main.publish_package clock which path_exists task_id prequest w =
   (Raised (HTTPException 500 "Publish failed: 400: Package path does not exist"), w)) /\
  (path_exists (Main.opt_packagePath orequest) = false ->
   Main.optimize_package os_exec which path_exists cli_path json_loads
     OptimizationResponse_init task_id orequest w =
   (Raised (HTTPException 500 "Optimization failed: 400: Package path does not exist"), w)).
Proof.
  split; intros Hmiss.
  - unfold Main.publish_package, try_except. rewrite Hmiss. reflexivity.
  - unfold Main.optimize_package, try_except. rewrite Hmiss. reflexivity.
Qed.

(** What [optimize_package] computes once the path is known to exist. *)
Lemma optimize_package_body optimization_id request w :
  path_exists (Main.opt_packagePath request) = true ->
  let r := runner_result os_exec
             (Main.optimization_command cli_path request (Main.get_node_executable which))
             None in
  Main.optimize_package os_exec which path_exists cli_path json_loads
    OptimizationResponse_init optimization_id request w =
  match parsed_document json_loads "Failed to parse optimization result" r with
  | Returned (VDict entries) =>
      match OptimizationResponse_init (success r) optimization_id
              (default (VList []) (dict_get entries "improvements"))
              (default (VDict []) (dict_get entries "metrics"))
              (default (VList []) (dict_get entries "recommendations")) with
      | Returned resp => (Returned resp, w)
      | Raised e => (Raised (HTTPException 500 ("Optimization failed: " +:+ str e)), w)
      end
  | Returned v =>
      (Raised (HTTPException 500
                 ("Optimization failed: " +:+
                  str (Error "AttributeError"
                         ("'" +:+ type_name v +:+ "' object has no attribute 'get'")))), w)
  | Raised e => (Raised (HTTPException 500 ("Optimization failed: " +:+ str e)), w)
  end.
Proof.
  intros Hex r. unfold Main.optimize_package, try_except. rewrite Hex. cbn [negb].
  unfold bind at 1. rewrite run_node_command_returns. fold r.
  unfold bind at 1. rewrite parse_outcome.
  destruct (parsed_document json_loads "Failed to parse optimization result" r)
    as [v | e]; [| reflexivity].
  destruct v; reflexivity.
Qed.
(** X12: [optimize_package] keeps no state and fails in one way only.
    Whatever the request and the command do, the stores, the scheduled
    jobs and the clock are as before the call (so the identifier in its
    response can never be polled), and every exception it raises is an
    HTTP [500]. *)
Theorem optimize_package_keeps_no_state (optimization_id : string)
    (request : Main.OptimizationRequest) (w : Main.World) :
  world_after (Main.optimize_package os_exec which path_exists cli_path json_loads
                 OptimizationResponse_init optimization_id request) w = w /\
  match outcome_of (Main.optimize_package os_exec which path_exists cli_path json_loads
                      OptimizationResponse_init optimization_id request) w with
  | Returned _ => True
  | Raised e => exists detail, e = HTTPException 500 detail
  end.
Proof.
  unfold world_after, outcome_of.
  destruct (path_exists (Main.opt_packagePath request)) eqn:Hex.
  - rewrite (optimize_package_body optimization_id request w Hex). cbv zeta.
    destruct (parsed_document _ _ _) as [v | e]; [| split; [reflexivity | eexists; reflexivity]].
    destruct v; try (split; [reflexivity | eexists; reflexivity]).
    destruct (OptimizationResponse_init _ _ _ _ _).
    + split; [reflexivity | exact I].
    + split; [reflexivity | eexists; reflexivity].
  - unfold Main.optimize_package, try_except. rewrite Hex. cbn.
    split; [reflexivity | eexists; reflexivity].
Qed.

(** X13: what reaches the response of [optimize_package] when the
    command gave nothing to read.  If the command failed, or printed
    nothing, or printed something that is not JSON, the response is
    built from the success flag of the run and three empty defaults: the
    standard error of a failed command is dropped, and an output that
    does not parse still yields a response with [success = True]. *)
Theorem optimize_package_without_document (optimization_id : string)
    (request : Main.OptimizationRequest) (w : Main.World) :
  path_exists (Main.opt_packagePath request) = true ->
  let r := runner_result os_exec
             (Main.optimization_command cli_path request (Main.get_node_executable which))
             None in
  (success r = false \/ stdout r = "" \/
   exists msg, json_loads (stdout r) = Raised (Error "JSONDecodeError" msg)) ->
  forall resp,
    OptimizationResponse_init (success r) optimization_id (VList []) (VDict []) (VList [])
      = Returned resp ->
    Main.optimize_package os_exec which path_exists cli_path json_loads
      OptimizationResponse_init optimization_id request w = (Returned resp, w).
Proof.
  intros Hex r Hnone resp Hinit.
  rewrite (optimize_package_body optimization_id request w Hex). cbv zeta. fold r.
  assert (Hdoc : exists entries,
             parsed_document json_loads "Failed to parse optimization result" r
             = Returned (VDict entries) /\
             dict_get entries "improvements" = None /\
             dict_get entries "metrics" = None /\
             dict_get entries "recommendations" = None).
  { unfold parsed_document.
    destruct (success r) eqn:Hs; cbn [andb]; [| exists []; repeat split].
    destruct (String.eqb (stdout r) "") eqn:Hout; cbn [negb]; [exists []; repeat split |].
    apply String.eqb_neq in Hout.
    destruct Hnone as [Hf | [He | [msg Hj]]]; [discriminate | contradiction |].
    rewrite Hj. cbn. eexists. repeat split. }
  destruct Hdoc as (entries & -> & -> & -> & ->). cbn [default].
  rewrite Hinit. reflexivity.
Qed.

(** What [list_templates] computes. *)
Lemma list_templates_body w :
  let r := runner_result os_exec
             [Main.get_node_executable which; cli_path; "template"; "--list"; "--json"]
             None in
  Main.list_templates os_exec which cli_path json_loads w =
  (if success r && negb (String.eqb (stdout r) "") then
     match json_loads (stdout r) with
     | Returned found => Returned [("success", VBool true); ("templates", found)]
     | Raised e =>
         if is_instance "JSONDecodeError" e then
           Returned [("success", VBool false); ("error", VStr "Failed to parse templates")]
         else Raised (HTTPException 500 ("Template listing failed: " +:+ str e))
     end
   else Returned [("success", VBool false); ("error", VStr (stderr r))], w).
Proof.
  intros r. unfold Main.list_templates, try_except.
  unfold bind at 1. rewrite run_node_command_returns. fold r.
  destruct (success r && negb (String.eqb (stdout r) "")); [| reflexivity].
  unfold try_except_only, bind, lift.
  destruct (json_loads (stdout r)) as [found | e]; [reflexivity |].
  destruct (is_instance "JSONDecodeError" e); reflexivity.
Qed.

(** X14: [list_templates] leaves the world alone and answers in one of
    four ways.  With a successful command whose output parses, the
    answer carries the parsed templates and [success = True]; with
    output that is not JSON, [success = False] and a fixed note; with a
    failed command or no output at all, [success = False] and the
    standard error of the command, which is empty for a command that
    succeeded silently.  It raises only when the parser raises something
    other than [JSONDecodeError], and then an HTTP [500]. *)
Theorem list_templates_answers (w : Main.World) :
  let r := runner_result os_exec
             [Main.get_node_executable which; cli_path; "template"; "--list"; "--json"]
             None in
  let call := Main.list_templates os_exec which cli_path json_loads in
  world_after call w = w /\
  (success r = false \/ stdout r = "" ->
   outcome_of call w = Returned [("success", VBool false); ("error", VStr (stderr r))]) /\
  (success r = true -> stdout r <> "" ->
   match json_loads (stdout r) with
   | Returned found =>
       outcome_of call w = Returned [("success", VBool true); ("templates", found)]
   | Raised e =>
       if is_instance "JSONDecodeError" e then
         outcome_of call w =
         Returned [("success", VBool false); ("error", VStr "Failed to parse templates")]
       else
         outcome_of call w =
         Raised (HTTPException 500 ("Template listing failed: " +:+ str e))
   end).
Proof.
  intros r call. subst call.
  unfold world_after, outcome_of. rewrite list_templates_body. fold r. cbn [fst snd].
  split; [reflexivity |].
  destruct (success r) eqn:Hs; cbn [andb].
  - destruct (String.eqb (stdout r) "") eqn:Hout; cbn [negb].
    + apply String.eqb_eq in Hout. split; [reflexivity |]. intros _ Hne. contradiction.
    + apply String.eqb_neq in Hout. split.
      * intros [Hf | He]; [discriminate | contradiction].
      * intros _ _. destruct (json_loads (stdout r)) as [found | e]; [reflexivity |].
        destruct (is_instance "JSONDecodeError" e); reflexivity.
  - split; [reflexivity | discriminate].
Qed.

(** X15: [health_check] always answers, and always with
    [status = "healthy"], whatever the two version commands do: a
    missing interpreter shows only in the entry of the service, whose
    version is present exactly when the command succeeded.  The three
    activity figures are the sizes of the stores, finished tasks
    included, and the call changes nothing but the clock. *)
Theorem health_check_always_healthy (w : Main.World) :
  exists report,
    Main.health_check clock os_exec which strip w = (Returned report, Main.tick w) /\
    Main.health_status report = "healthy" /\
    Main.active_generations report = Z.of_nat (size (Main.generation_tasks (Main.stores w))) /\
    Main.active_analyses report = Z.of_nat (size (Main.analysis_tasks (Main.stores w))) /\
    Main.active_publishes report = Z.of_nat (size (Main.publish_tasks (Main.stores w))) /\
    Main.available (Main.node report) =
      success (runner_result os_exec [Main.get_node_executable which; "--version"] None) /\
    Main.available (Main.npm report) =
      success (runner_result os_exec [Main.get_npm_executable which; "--version"] None) /\
    (Main.available (Main.node report) = true <->
     is_Some (Main.service_version (Main.node report))) /\
    (Main.available (Main.npm report) = true <->
     is_Some (Main.service_version (Main.npm report))).
Proof.
  unfold Main.health_check.
  unfold bind at 1. rewrite run_node_command_returns.
  unfold bind at 1. rewrite run_node_command_returns.
  cbn. eexists. split; [reflexivity |]. cbn.
  repeat split.
  - intros ->. eexists. reflexivity.
  - destruct (success _); [reflexivity | intros [v Hv]; discriminate Hv].
  - intros ->. eexists. reflexivity.
  - destruct (success _); [reflexivity | intros [v Hv]; discriminate Hv].
Qed.

(** X16: the two availability flags of [get_metrics] carry no
    information: a look-up of the executable that finds nothing falls
    back to a fixed path, so both flags are [True] whether or not the
    programs are installed. *)
Theorem metrics_availability_is_constant (w : Main.World) :
  which "node" <> Some "" ->
  exists m w',
    Main.get_metrics clock which gettempdir w = (Returned m, w') /\
    Main.node_available m = true /\ Main.npm_available m = true.
Proof.
  intros Hnode. unfold Main.get_metrics, bind, gets. cbn.
  eexists _, _. split; [reflexivity |]. cbn. split.
  - unfold Main.get_node_executable.
    destruct (which "node") as [p |]; cbn; [| reflexivity].
    destruct p; [contradiction Hnode; reflexivity | reflexivity].
  - unfold Main.get_npm_executable, str_or.
    destruct (which "npm") as [p |]; [| reflexivity].
    destruct (String.eqb p "") eqn:Hp; [reflexivity |]. rewrite Hp. reflexivity.
Qed.
End Stateless.

(** ** Sweeps and running tasks *)

(** The comprehension only selects tasks whose status is terminal. *)
Lemma select_expired_terminal clock cutoff_time items : forall w,
  exists ids n,
    Main.select_expired clock cutoff_time items w = (Returned ids, advance n w) /\
    forall k, k ∈ ids ->
              exists t, (k, t) ∈ items /\ Main.terminal (Main.status t) = true.
Proof.
  induction items as [| [task_id task] rest IH]; intros w.
  - exists [], 0%nat. rewrite advance_0. split; [reflexivity |].
    intros k Hk. inversion Hk.
  - cbn [Main.select_expired]. unfold bind at 1. unfold Main.expired.
    destruct (Main.terminal (Main.status task)) eqn:Hterm.
    + unfold bind at 1. cbn [Main.utcnow ret fst snd]. unfold bind at 1.
      destruct (IH (Main.tick w)) as (ids & n & -> & Hids).
      rewrite advance_tick. unfold ret.
      destruct (default (clock (Main.ticks w)) (Main.completed_at task) <? cutoff_time).
      * exists (task_id :: ids), (S n). split; [reflexivity |].
        intros k Hk. apply elem_of_cons in Hk as [-> | Hk].
        -- exists task. split; [left | exact Hterm].
        -- destruct (Hids k Hk) as (t & Hin & Ht). exists t. split; [by right | exact Ht].
      * exists ids, (S n). split; [reflexivity |].
        intros k Hk. destruct (Hids k Hk) as (t & Hin & Ht).
        exists t. split; [by right | exact Ht].
    + unfold ret at 1. unfold bind at 1.
      destruct (IH w) as (ids & n & -> & Hids).
      exists ids, n. split; [reflexivity |].
      intros k Hk. destruct (Hids k Hk) as (t & Hin & Ht).
      exists t. split; [by right | exact Ht].
Qed.

(** A sweep keeps every record whose status is not terminal. *)
Lemma clean_family_keeps clock f cutoff_time w :
  forall w', Main.clean_family clock f cutoff_time w = (Returned tt, w') ->
  forall k t, Main.tasks_of f (Main.stores w) !! k = Some t ->
              Main.terminal (Main.status t) = false ->
              Main.tasks_of f (Main.stores w') !! k = Some t.
Proof.
  intros w'. unfold Main.clean_family, bind at 1, gets. cbn [fst snd].
  set (m := Main.tasks_of f (Main.stores w)).
  unfold bind.
  destruct (select_expired_sublist clock cutoff_time (map_to_list m) w)
    as (ids & n & Hsel & Hsub).
  destruct (select_expired_terminal clock cutoff_time (map_to_list m) w)
    as (ids' & n' & Hsel' & Hterm).
  rewrite Hsel in Hsel'. injection Hsel' as <- _. rewrite Hsel.
  destruct (remove_all_spec f ids (advance n w)) as (w1 & Hrun & Hf & _).
  { assert (Hnd : NoDup (map fst (map_to_list m))) by apply NoDup_fst_map_to_list.
    exact (sublist_NoDup _ _ Hnd Hsub). }
  { intros k Hk. destruct (Hterm k Hk) as (t & Hin & _).
    apply elem_of_map_to_list in Hin. exists t. exact Hin. }
  rewrite Hrun. intros [= <-] k t Hk Hrunning.
  rewrite Hf. destruct (decide (k ∈ ids)) as [Hin | _]; [| exact Hk].
  destruct (Hterm k Hin) as (t' & Hin' & Ht').
  apply elem_of_map_to_list in Hin'. fold m in Hk. cbn in Hk.
  change (Main.tasks_of f (Main.stores (advance n w))) with m in Hk.
  congruence.
Qed.

(** X17: [cleanup_tasks] under any clock, also one that jumps backwards
    between its readings.  It never raises; it adds no record and
    changes none; it removes no task that is still running; it leaves
    the scheduled jobs alone; and the figures it reports are, per store,
    the number of records removed and the number left. *)
Theorem cleanup_tasks_spares_running (clock : nat -> Z) (w : Main.World) :
  exists resp w',
    Main.cleanup_tasks clock w = (Returned resp, w') /\
    (forall f k t, Main.tasks_of f (Main.stores w') !! k = Some t ->
                   Main.tasks_of f (Main.stores w) !! k = Some t) /\
    (forall f k t, Main.tasks_of f (Main.stores w) !! k = Some t ->
                   Main.status t <> "completed" -> Main.status t <> "failed" ->
                   Main.tasks_of f (Main.stores w') !! k = Some t) /\
    (forall f, count_of f (Main.cleaned resp) = store_size f w - store_size f w' /\
               count_of f (Main.remaining resp) = store_size f w') /\
    Main.background w' = Main.background w.
Proof.
  set (cutoff_time := clock (Main.ticks w) - timedelta_hours 1).
  destruct (clean_family_shrinks clock Main.Generation cutoff_time (Main.tick w))
    as (w1 & Hrun1 & Hf1 & Hg1 & Hb1).
  destruct (clean_family_shrinks clock Main.Analysis cutoff_time w1)
    as (w2 & Hrun2 & Hf2 & Hg2 & Hb2).
  destruct (clean_family_shrinks clock Main.Publish cutoff_time w2)
    as (w3 & Hrun3 & Hf3 & Hg3 & Hb3).
  pose proof (clean_family_keeps clock Main.Generation cutoff_time _ _ Hrun1) as Hk1.
  pose proof (clean_family_keeps clock Main.Analysis cutoff_time _ _ Hrun2) as Hk2.
  pose proof (clean_family_keeps clock Main.Publish cutoff_time _ _ Hrun3) as Hk3.
  eexists _, w3. split; [| split; [| split; [| split]]].
  - unfold Main.cleanup_tasks, bind. rewrite counts_spec.
    cbn [Main.utcnow fst snd]. fold cutoff_time.
    rewrite Hrun1, Hrun2, Hrun3, counts_spec. reflexivity.
  - intros [] k t H.
    + rewrite (Hg3 Main.Generation), (Hg2 Main.Generation) in H by discriminate.
      exact (Hf1 k t H).
    + rewrite (Hg3 Main.Analysis) in H by discriminate.
      apply Hf2 in H. rewrite (Hg1 Main.Analysis) in H by discriminate. exact H.
    + apply Hf3 in H.
      rewrite (Hg2 Main.Publish), (Hg1 Main.Publish) in H by discriminate. exact H.
  - intros f k t H Hc Hf.
    assert (Hterm : Main.terminal (Main.status t) = false).
    { unfold Main.terminal. apply orb_false_iff. split; apply String.eqb_neq; assumption. }
    destruct f.
    + rewrite (Hg3 Main.Generation), (Hg2 Main.Generation) by discriminate.
      exact (Hk1 k t H Hterm).
    + rewrite (Hg3 Main.Analysis) by discriminate.
      apply Hk2; [| exact Hterm]. rewrite (Hg1 Main.Analysis) by discriminate. exact H.
    + apply Hk3; [| exact Hterm].
      rewrite (Hg2 Main.Publish), (Hg1 Main.Publish) by discriminate. exact H.
  - intros []; split; reflexivity.
  - rewrite Hb3, Hb2, Hb1. reflexivity.
Qed.

(** ** Package names *)

Lemma remove_chars_filter (name : list N) :
  remove_char 47 (remove_char 64 (remove_char 95 (remove_char 45 name))) =
  List.filter (fun c => negb (separator c)) name.
Proof.
  unfold remove_char. induction name as [| c rest IH]; [reflexivity |].
  cbn [List.filter]. unfold separator at 1.
  destruct (N.eqb c 45); cbn [negb orb]; [exact IH |].
  cbn [List.filter].
  destruct (N.eqb c 95); cbn [negb orb]; [exact IH |].
  cbn [List.filter].
  destruct (N.eqb c 64); cbn [negb orb]; [exact IH |].
  cbn [List.filter].
  destruct (N.eqb c 47); cbn [negb orb]; [exact IH |].
  f_equal. exact IH.
Qed.

Lemma isalnum_spec (unicode_isalnum : N -> bool) (s : list N) :
  isalnum unicode_isalnum s = true <->
  s <> [] /\ forall c, In c s -> char_isalnum unicode_isalnum c = true.
Proof.
  unfold isalnum. destruct s as [| c rest].
  - split; [discriminate | intros [H _]; contradiction].
  - rewrite forallb_forall. split; [intros H; split; [discriminate | exact H] | tauto].
Qed.

(** X18: the names [validate_package_name] lets through.  A name is
    returned unchanged exactly when it has at least one character other
    than [-], [_], [@] and [/], and every character other than those
    four is alphanumeric; any other name, the empty one and those made
    of the four characters only among them, raises [ValueError].  The
    place of the four characters in the name is not looked at. *)
Theorem validate_package_name_accepts {W : Type} (unicode_isalnum : N -> bool)
    (v : string) (w : W) :
  let name := code_points (String.list_byte_of_string v) in
  let fits :=
    (exists c, In c name /\ separator c = false) /\
    (forall c, In c name -> separator c = true \/ char_isalnum unicode_isalnum c = true) in
  (fits -> Main.validate_package_name unicode_isalnum v w = (Returned v, w)) /\
  (~ fits ->
   Main.validate_package_name unicode_isalnum v w =
   (Raised (Error "ValueError" "Package name contains invalid characters"), w)).
Proof.
  intros name fits. unfold Main.validate_package_name. fold name.
  rewrite remove_chars_filter.
  assert (Hiff : isalnum unicode_isalnum (List.filter (fun c => negb (separator c)) name)
                 = true <-> fits).
  { rewrite isalnum_spec. subst fits. split.
    - intros [Hne Hall]. split.
      + destruct (List.filter _ name) as [| c rest] eqn:Hf; [contradiction |].
        assert (Hc : In c (List.filter (fun c => negb (separator c)) name))
          by (rewrite Hf; left; reflexivity).
        apply filter_In in Hc as [Hin Hsep]. exists c. split; [exact Hin |].
        apply negb_true_iff, Hsep.
      + intros c Hin. destruct (separator c) eqn:Hsep; [left; reflexivity | right].
        apply Hall, filter_In. split; [exact Hin | rewrite Hsep; reflexivity].
    - intros [(c & Hin & Hsep) Hall]. split.
      + intros Hnil.
        assert (Hc : In c (List.filter (fun c => negb (separator c)) name))
          by (apply filter_In; split; [exact Hin | rewrite Hsep; reflexivity]).
        rewrite Hnil in Hc. exact Hc.
      + intros c' Hc'. apply filter_In in Hc' as [Hin' Hsep'].
        destruct (Hall c' Hin') as [Hs | Ha]; [| exact Ha].
        rewrite Hs in Hsep'. discriminate. }
  destruct (isalnum unicode_isalnum _) eqn:Hal; cbn [negb].
  - split; [reflexivity |]. intros Hn. exfalso. apply Hn, Hiff. reflexivity.
  - split; [| reflexivity]. intros Hf. apply Hiff in Hf. discriminate.
Qed.

(** ** The store of the router *)

Lemma router_update_absent clock task_id status progress stage message result error w :
  Router.generation_tasks w !! task_id = None ->
  Router.update_task_status clock task_id status progress stage message result error w =
  (Returned tt, w).
Proof.
  intros H. unfold Router.update_task_status, bind, gets. cbn [fst snd]. rewrite H.
  reflexivity.
Qed.

Lemma router_getitem_absent task_id w :
  Router.generation_tasks w !! task_id = None ->
  Router.getitem task_id w = (Raised (KeyError task_id), w).
Proof.
  intros H. unfold Router.getitem, bind, gets. cbn [fst snd]. rewrite H. reflexivity.
Qed.

(** A walk through the phases of a run, for any pair of invariants: [G]
    holds between calls, [P1] from the first progress update on. *)
Section Walk.
Variable clock : nat -> Z.
Variable analyze_idea : Value -> Value -> Value -> Outcome Dict.
Variable generate_source_code : Dict -> Value -> Outcome Value.
Variable generate_tests : Value -> Dict -> Outcome Value.
Variable create_package : Dict -> Value -> Value -> Outcome Dict.
Variable task_id : string.
Variable G : Router.World -> Prop.
Variable P1 : Router.World -> Prop.

Hypothesis enter :
  forall m w, In m marks -> G w ->
    P1 (world_after (Router.update_task_status clock task_id "in_progress" (fst m) (snd m)
                       None None None) w).
Hypothesis weaken : forall w, P1 w -> G w.
Hypothesis finish :
  forall res w, P1 w ->
    G (world_after (Router.update_task_status clock task_id "completed" 100 "done"
                      None (Some res) None) w).
Hypothesis cached :
  forall key v w, G w -> G (world_after (Router.cache_set clock key v 3600) w).

Lemma update_returns status progress stage message result error w :
  outcome_of (Router.update_task_status clock task_id status progress stage message
                result error) w = Returned tt.
Proof.
  unfold outcome_of, Router.update_task_status, bind, gets. cbn [fst snd].
  destruct (Router.generation_tasks w !! task_id); reflexivity.
Qed.

Lemma walk_enter m R :
  In m marks ->
  triple P1 (Router.update_task_status clock task_id "in_progress" (fst m) (snd m)
               None None None)
    (fun _ => P1) R.
Proof.
  intros Hm w HP. pose proof (enter m w Hm (weaken w HP)) as H.
  pose proof (update_returns "in_progress" (fst m) (snd m) None None None w) as Hr.
  unfold world_after in H. unfold outcome_of in Hr.
  destruct (Router.update_task_status _ _ _ _ _ _ _ _ w) as [[[] | e] w'];
    [exact H | discriminate Hr].
Qed.

Lemma walk_stay {A} (c : Py Router.World A) :
  silent c -> triple P1 c (fun _ => P1) (fun _ => P1).
Proof.
  intros Hc w HP. specialize (Hc w).
  destruct (c w) as [[a | e] w']; simpl in Hc; subst; exact HP.
Qed.

Lemma phases_walk request :
  triple G
    (Router.generation_phases clock analyze_idea generate_source_code generate_tests
       create_package task_id request)
    (fun _ => G) (fun _ => P1).
Proof.
  unfold Router.generation_phases.
  eapply triple_bind with (Q := fun _ => P1).
  { intros w HG. pose proof (enter (10, "analyzing_requirements") w) as H.
    pose proof (update_returns "in_progress" 10 "analyzing_requirements"
                  None None None w) as Hr.
    unfold world_after in H. unfold outcome_of in Hr. cbn [fst snd] in H.
    destruct (Router.update_task_status _ _ _ _ _ _ _ _ w) as [[[] | e] w'];
      [| discriminate Hr].
    apply H; [cbn; tauto | exact HG]. }
  intros [].
  eapply triple_bind; [apply walk_stay, silent_lift | intros analysis].
  eapply triple_bind;
    [apply (walk_enter (30, "generating_structure")); cbn; tauto | intros []].
  eapply triple_bind; [apply walk_stay, silent_py_or, silent_subscript | intros name].
  eapply triple_bind; [apply walk_stay, silent_py_or, silent_subscript | intros descr].
  eapply triple_bind; [apply walk_stay, silent_py_or, silent_subscript | intros type].
  eapply triple_bind; [apply walk_stay, silent_subscript | intros features].
  eapply triple_bind; [apply walk_stay, silent_subscript | intros deps].
  eapply triple_bind;
    [apply (walk_enter (50, "generating_code")); cbn; tauto | intros []].
  eapply triple_bind; [apply walk_stay, silent_lift | intros source_files].
  eapply triple_bind;
    [apply (walk_enter (70, "generating_tests")); cbn; tauto | intros []].
  eapply triple_bind;
    [apply walk_stay; destruct (Router.enable_testing request);
     [apply silent_lift | apply silent_ret]
    | intros test_files].
  eapply triple_bind;
    [apply (walk_enter (90, "finalizing_package")); cbn; tauto | intros []].
  eapply triple_bind; [apply walk_stay, silent_lift | intros res].
  eapply triple_bind with (Q := fun _ => G).
  { intros w HP. pose proof (finish res w HP) as H.
    pose proof (update_returns "completed" 100 "done" None (Some res) None w) as Hr.
    unfold world_after in H. unfold outcome_of in Hr.
    destruct (Router.update_task_status _ _ _ _ _ _ _ _ w) as [[[] | e] w'];
      [exact H | discriminate Hr]. }
  intros [].
  intros w HG. pose proof (cached ("package:" +:+ task_id) res w HG) as H.
  unfold world_after in H. unfold Router.cache_set, bind, modify in *.
  cbn [Router.utcnow fst snd] in *. exact H.
Qed.
End Walk.

(** The store an update leaves. *)
Lemma update_store clock task_id status progress stage message result error w :
  Router.generation_tasks
    (world_after (Router.update_task_status clock task_id status progress stage message
                    result error) w) =
  match Router.generation_tasks w !! task_id with
  | Some task =>
      <[task_id := updated task status progress stage message result error
                     (clock (Router.ticks w))]> (Router.generation_tasks w)
  | None => Router.generation_tasks w
  end.
Proof.
  unfold world_after.
  destruct (Router.generation_tasks w !! task_id) as [task |] eqn:H.
  - rewrite (update_present _ _ _ _ _ _ _ _ _ _ H). reflexivity.
  - rewrite (router_update_absent _ _ _ _ _ _ _ _ _ H). reflexivity.
Qed.

Lemma cache_set_store clock key v expire w :
  Router.generation_tasks (world_after (Router.cache_set clock key v expire) w) =
  Router.generation_tasks w.
Proof. reflexivity. Qed.

Lemma frames_refl task_id w : frames task_id w w.
Proof. split; auto. Qed.

Lemma frames_update clock task_id status progress stage message result error w0 w :
  frames task_id w0 w ->
  frames task_id w0
    (world_after (Router.update_task_status clock task_id status progress stage message
                    result error) w).
Proof.
  intros [Hother Hkept]. unfold frames. rewrite update_store.
  destruct (Router.generation_tasks w !! task_id) as [task |] eqn:H.
  - split.
    + intros key Hne. rewrite lookup_insert_ne by congruence. apply Hother, Hne.
    + intros _. rewrite lookup_insert_eq. eexists. reflexivity.
  - split; [exact Hother |]. intros Hs. rewrite H. exact (Hkept Hs).
Qed.

Section RouterRuns.
Variable clock : nat -> Z.
Variable analyze_idea : Value -> Value -> Value -> Outcome Dict.
Variable generate_source_code : Dict -> Value -> Outcome Value.
Variable generate_tests : Value -> Dict -> Outcome Value.
Variable create_package : Dict -> Value -> Value -> Outcome Dict.

(** A run keeps every record and touches only its own. *)
Lemma run_frames task_id request user_id w :
  frames task_id w
    (world_after (Router.generate_package_async clock analyze_idea generate_source_code
                    generate_tests create_package task_id request user_id) w).
Proof.
  pose proof (phases_walk clock analyze_idea generate_source_code generate_tests
                create_package task_id (frames task_id w) (frames task_id w)) as Hwalk.
  specialize (Hwalk
    (fun m w' _ H => frames_update clock task_id _ _ _ _ _ _ w w' H)
    (fun w' H => H)
    (fun res w' H => frames_update clock task_id _ _ _ _ _ _ w w' H)
    (fun key v w' H => H) request w (frames_refl task_id w)).
  unfold world_after, Router.generate_package_async, try_except.
  destruct (Router.generation_phases _ _ _ _ _ _ _ w) as [[[] | e] w1]; [exact Hwalk |].
  cbn [snd]. unfold bind.
  destruct (Router.generation_tasks w1 !! task_id) as [r |] eqn:Hr.
  - rewrite !(router_getitem_present _ _ _ Hr).
    exact (frames_update clock task_id _ _ _ _ _ _ w w1 Hwalk).
  - rewrite (router_getitem_absent _ _ Hr). exact Hwalk.
Qed.

Lemma record_ok_in_progress key task m now :
  record_ok key task -> In m marks ->
  record_ok key (updated task "in_progress" (fst m) (snd m) None None None now).
Proof.
  intros (Hid & _ & _) Hm. split; [exact Hid |]. split; [reflexivity |].
  right. left. cbn. rewrite <- surjective_pairing. auto.
Qed.

Lemma store_ok_insert key r w m :
  Router.generation_tasks w = m ->
  forall w', Router.generation_tasks w' = <[key := r]> m ->
  router_store_ok w -> record_ok key r -> router_store_ok w'.
Proof.
  intros Hm w' Hw' Hok Hr k r'. rewrite Hw'.
  destruct (decide (k = key)) as [-> | Hne].
  - rewrite lookup_insert_eq. intros [= <-]. exact Hr.
  - rewrite lookup_insert_ne by congruence. rewrite <- Hm. apply Hok.
Qed.

(** A run keeps the store well formed. *)
Lemma run_store_ok task_id request user_id w :
  router_store_ok w ->
  router_store_ok
    (world_after (Router.generate_package_async clock analyze_idea generate_source_code
                    generate_tests create_package task_id request user_id) w).
Proof.
  intros Hok.
  pose proof (phases_walk clock analyze_idea generate_source_code generate_tests
                create_package task_id router_store_ok (run_invariant task_id)) as Hwalk.
  assert (Hrun : match Router.generation_phases clock analyze_idea generate_source_code
                         generate_tests create_package task_id request w with
                 | (Returned _, w') => router_store_ok w'
                 | (Raised _, w') => run_invariant task_id w'
                 end).
  { apply Hwalk; [| | | | exact Hok].
    - intros m w' Hm Hok'.
      pose proof (update_store clock task_id "in_progress" (fst m) (snd m)
                    None None None w') as Hst.
      destruct (Router.generation_tasks w' !! task_id) as [task |] eqn:Ht.
      + split.
        * eapply store_ok_insert; [reflexivity | exact Hst | exact Hok' |].
          apply record_ok_in_progress; [exact (Hok' _ _ Ht) | exact Hm].
        * intros r. rewrite Hst, lookup_insert_eq. intros [= <-]. reflexivity.
      + split.
        * intros k r. rewrite Hst. apply Hok'.
        * intros r. rewrite Hst, Ht. discriminate.
    - intros w' [H _]. exact H.
    - intros res w' [Hok' Hin].
      pose proof (update_store clock task_id "completed" 100 "done"
                    None (Some res) None w') as Hst.
      destruct (Router.generation_tasks w' !! task_id) as [task |] eqn:Ht.
      + eapply store_ok_insert; [reflexivity | exact Hst | exact Hok' |].
        destruct (Hok' _ _ Ht) as (Hid & _ & _).
        split; [exact Hid |]. split; [reflexivity |].
        right. right. left. cbn. repeat split. eexists. reflexivity.
      + intros k r. rewrite Hst. apply Hok'.
    - intros key v w' Hok' k r. rewrite cache_set_store. apply Hok'. }
  unfold world_after, Router.generate_package_async, try_except.
  destruct (Router.generation_phases _ _ _ _ _ _ _ w) as [[[] | e] w1]; [exact Hrun |].
  cbn [snd]. unfold bind. destruct Hrun as [Hok1 Hin].
  destruct (Router.generation_tasks w1 !! task_id) as [r |] eqn:Hr.
  - rewrite !(router_getitem_present _ _ _ Hr).
    pose proof (update_store clock task_id "failed" (Router.progress r) (Router.stage r)
                  None None (Some (str e)) w1) as Hst.
    rewrite Hr in Hst. unfold world_after in Hst.
    eapply store_ok_insert; [reflexivity | exact Hst | exact Hok1 |].
    destruct (Hok1 _ _ Hr) as (Hid & _ & Hcases).
    pose proof (Hin r eq_refl) as Hs.
    split; [exact Hid |]. split; [reflexivity |].
    right. right. right. cbn.
    destruct Hcases as [(H & _) | [(_ & Hm & _) | [(H & _) | (H & _)]]];
      try (rewrite Hs in H; discriminate H).
    repeat split; [exact Hm | eexists; reflexivity].
  - rewrite (router_getitem_absent _ _ Hr). exact Hok1.
Qed.
End RouterRuns.

(** ** The endpoints of the router *)

Section RouterEndpoints.
Variable clock : nat -> Z.

(** The store [generate_package] leaves, whether or not the user has an
    identifier. *)
Lemma router_generate_package_store task_id request current_user w :
  Router.generation_tasks
    (world_after (Router.generate_package clock task_id request current_user) w) =
  <[task_id := pending task_id (clock (Router.ticks w)) (clock (S (Router.ticks w)))]>
    (Router.generation_tasks w).
Proof.
  unfold world_after, Router.generate_package, bind, modify.
  cbn [Router.utcnow fst snd Router.tick Router.ticks].
  unfold subscript. destruct (dict_get current_user "user_id"); reflexivity.
Qed.

Lemma record_ok_pending task_id created updated_ :
  record_ok task_id (pending task_id created updated_).
Proof. split; [reflexivity |]. split; [reflexivity |]. left. repeat split. Qed.

(** A poll leaves the store alone. *)
Lemma router_poll_store task_id w :
  Router.generation_tasks (world_after (Router.get_generation_status clock task_id) w) =
  Router.generation_tasks w.
Proof.
  unfold world_after, Router.get_generation_status, bind, gets. cbn [fst snd].
  destruct (Router.generation_tasks w !! task_id); [reflexivity |].
  unfold Router.cache_get, bind, gets. cbn [Router.utcnow fst snd].
  destruct (Router.cache (Router.tick w) !! ("package:" +:+ task_id)) as [entry |].
  - destruct (clock (Router.ticks w) <? Router.expires_at entry); cbn.
    + destruct (Router.cached_value entry); reflexivity.
    + reflexivity.
  - reflexivity.
Qed.

(** [generate_from_template] either stops before it touches the world, or
    goes on as [generate_package] does with the request it built. *)
Lemma generate_from_template_cases init template_ai_config task_id template_id
    customization current_user w :
  (exists e, Router.generate_from_template clock init template_ai_config task_id
               template_id customization current_user w = (Raised e, w)) \/
  (exists request,
      Router.generate_from_template clock init template_ai_config task_id
        template_id customization current_user w =
      Router.generate_package clock task_id request current_user w).
Proof.
  unfold Router.generate_from_template, Router.load_template, bind, ret, lift, subscript.
  destruct (Router.templates_get Router.templates template_id) as [template |];
    [| left; eexists; reflexivity].
  destruct template as [| entry rest]; [left; eexists; reflexivity |].
  cbv beta iota.
  destruct (dict_get (entry :: rest) "default_name"); [| left; eexists; reflexivity].
  destruct (dict_get (entry :: rest) "description"); [| left; eexists; reflexivity].
  destruct (dict_get (entry :: rest) "type"); [| left; eexists; reflexivity].
  unfold ret. cbv beta iota.
  match goal with
  | |- context [init ?a] => destruct (init a) as [request | e]
  end; [| left; eexists; reflexivity].
  right. exists request. reflexivity.
Qed.

Lemma router_perform_store c w :
  Router.generation_tasks (router_perform clock c w) = Router.generation_tasks w \/
  (exists created updated_,
      Router.generation_tasks (router_perform clock c w) =
      <[call_task_id c := pending (call_task_id c) created updated_]>
        (Router.generation_tasks w)) \/
  (exists analyze_idea generate_source_code generate_tests create_package request user_id,
      router_perform clock c w =
      world_after (Router.generate_package_async clock analyze_idea generate_source_code
                     generate_tests create_package (call_task_id c) request user_id) w).
Proof.
  destruct c as [task_id request current_user
                | analyze_idea generate_source_code generate_tests create_package
                    task_id request user_id
                | task_id
                | init template_ai_config task_id template_id customization current_user];
    cbn [router_perform call_task_id].
  - right. left. eexists _, _. apply router_generate_package_store.
  - right. right. eexists _, _, _, _, _, _. reflexivity.
  - left. apply router_poll_store.
  - destruct (generate_from_template_cases init template_ai_config task_id template_id
                customization current_user w) as [[e He] | [request Hr]].
    + left. unfold world_after. rewrite He. reflexivity.
    + right. left. unfold world_after. rewrite Hr. eexists _, _.
      apply router_generate_package_store.
Qed.

Lemma router_store_ok_perform c w :
  router_store_ok w -> router_store_ok (router_perform clock c w).
Proof.
  intros Hok.
  destruct (router_perform_store c w)
    as [Hsame | [(created & updated_ & Hnew)
                | (ai & gs & gt & cp & request & user_id & Hrun)]].
  - intros k r. rewrite Hsame. apply Hok.
  - eapply store_ok_insert; [reflexivity | exact Hnew | exact Hok |].
    apply record_ok_pending.
  - rewrite Hrun. apply run_store_ok, Hok.
Qed.

Lemma router_store_ok_reachable w : router_reachable clock w -> router_store_ok w.
Proof.
  induction 1 as [| w c _ IH].
  - intros k r Hk. cbn in Hk. rewrite lookup_empty in Hk. discriminate.
  - apply router_store_ok_perform, IH.
Qed.

Ltac status_case Hs :=
  let H := fresh in
  intros H; first [rewrite Hs in H; discriminate H | repeat split; assumption].

(** X19: the records of the router are well formed in every world it
    can reach by any sequence of acceptances, background runs, polls and
    template requests.  Each is stored under its own identifier and has
    no message; it is pending at progress 0, or in progress at one of
    the five marks, or completed at progress 100 with a result and no
    error, or failed at the mark it had reached with an error text and
    no result. *)
Theorem router_records_well_formed (w : Router.World) (key : string)
    (r : Router.GenerationStatus) :
  router_reachable clock w ->
  Router.generation_tasks w !! key = Some r ->
  Router.task_id r = key /\ Router.message r = None /\
  0 <= Router.progress r <= 100 /\
  (Router.status r = "pending" \/ Router.status r = "in_progress" \/
   Router.status r = "completed" \/ Router.status r = "failed") /\
  (Router.status r = "pending" ->
   Router.progress r = 0 /\ Router.stage r = "initialization" /\
   Router.result r = None /\ Router.error r = None) /\
  (Router.status r = "in_progress" ->
   In (Router.progress r, Router.stage r) marks /\
   Router.result r = None /\ Router.error r = None) /\
  (Router.status r = "completed" ->
   Router.progress r = 100 /\ Router.stage r = "done" /\
   is_Some (Router.result r) /\ Router.error r = None) /\
  (Router.status r = "failed" ->
   In (Router.progress r, Router.stage r) marks /\
   Router.result r = None /\ is_Some (Router.error r)).
Proof.
  intros Hreach Hr.
  destruct (router_store_ok_reachable w Hreach key r Hr) as (Hid & Hmsg & Hcases).
  split; [exact Hid |]. split; [exact Hmsg |].
  assert (Hmarks : In (Router.progress r, Router.stage r) marks ->
                   0 <= Router.progress r <= 100).
  { cbn. intros [H | [H | [H | [H | [H | []]]]]]; injection H as <- _; lia. }
  destruct Hcases as [(Hs & Hp & Hg & Hres & Herr)
                     | [(Hs & Hm & Hres & Herr)
                       | [(Hs & Hp & Hg & Hres & Herr) | (Hs & Hm & Hres & Herr)]]].
  - split; [lia |]. split; [tauto |].
    split; [status_case Hs |]. split; [status_case Hs |]. split; status_case Hs.
  - split; [exact (Hmarks Hm) |]. split; [tauto |].
    split; [status_case Hs |]. split; [status_case Hs |]. split; status_case Hs.
  - split; [lia |]. split; [tauto |].
    split; [status_case Hs |]. split; [status_case Hs |]. split; status_case Hs.
  - split; [exact (Hmarks Hm) |]. split; [tauto |].
    split; [status_case Hs |]. split; [status_case Hs |]. split; status_case Hs.
Qed.

(** X20: the router never forgets a task, and a call touches no record
    but that of its own task.  After any call, every record that was in
    the store is still there, and those of the other tasks are as they
    were: an identifier that could be polled once can be polled for
    good. *)
Theorem router_never_forgets (c : RouterCall) (w : Router.World) (key : string)
    (r : Router.GenerationStatus) :
  Router.generation_tasks w !! key = Some r ->
  exists r',
    Router.generation_tasks (router_perform clock c w) !! key = Some r' /\
    (key <> call_task_id c -> r' = r) /\
    outcome_of (Router.get_generation_status clock key) (router_perform clock c w)
    = Returned r'.
Proof.
  intros Hr.
  assert (Hkeep : exists r',
             Router.generation_tasks (router_perform clock c w) !! key = Some r' /\
             (key <> call_task_id c -> r' = r)).
  { destruct (router_perform_store c w)
      as [Hsame | [(created & updated_ & Hnew)
                  | (ai & gs & gt & cp & request & user_id & Hrun)]].
    - exists r. rewrite Hsame. auto.
    - rewrite Hnew. destruct (decide (key = call_task_id c)) as [-> | Hne].
      + rewrite lookup_insert_eq. eexists. split; [reflexivity | contradiction].
      + rewrite lookup_insert_ne by congruence. exists r. auto.
    - rewrite Hrun.
      destruct (run_frames clock ai gs gt cp (call_task_id c) request user_id w)
        as [Hother Hkept].
      destruct (decide (key = call_task_id c)) as [-> | Hne].
      + destruct Hkept as [r' Hr']; [eexists; exact Hr |].
        exists r'. split; [exact Hr' | contradiction].
      + exists r. rewrite (Hother key Hne). auto. }
  destruct Hkeep as (r' & Hr' & Hsame). exists r'.
  split; [exact Hr' |]. split; [exact Hsame |].
  unfold outcome_of, Router.get_generation_status, bind, gets. cbn [fst snd].
  rewrite Hr'. reflexivity.
Qed.

(** X21: acceptance by the router is not atomic.  For a user without a
    [user_id] the endpoint raises [KeyError], after it has stored the
    pending record and without scheduling the run: the record stays
    pending.  For a user with one, it returns the identifier and the
    socket address of the task, and the run is the last job scheduled. *)
Theorem router_acceptance_without_user (task_id : string)
    (request : Router.PackageGenerationRequest) (current_user : Dict) (w : Router.World) :
  let call := Router.generate_package clock task_id request current_user in
  (exists r, Router.generation_tasks (world_after call w) !! task_id = Some r /\
             Router.status r = "pending" /\ Router.progress r = 0) /\
  match dict_get current_user "user_id" with
  | None =>
      outcome_of call w = Raised (KeyError "user_id") /\
      Router.background (world_after call w) = Router.background w
  | Some user_id =>
      (exists resp, outcome_of call w = Returned resp /\
                    Router.resp_task_id resp = task_id /\
                    Router.resp_status resp = "accepted" /\
                    Router.websocket_url resp = "/ws/tasks/" +:+ task_id) /\
      Router.background (world_after call w) =
      Router.background w ++ [Router.GeneratePackageAsync task_id request user_id]
  end.
Proof.
  intros call. subst call. split.
  - rewrite router_generate_package_store, lookup_insert_eq.
    eexists. repeat split.
  - unfold world_after, outcome_of, Router.generate_package, bind, modify.
    cbn [Router.utcnow fst snd Router.tick Router.ticks].
    unfold subscript. destruct (dict_get current_user "user_id"); cbn.
    + split; [eexists; repeat split | reflexivity].
    + split; reflexivity.
Qed.
End RouterEndpoints.

(** ** Templates of the router *)

Section TemplateFacts.
Variable clock : nat -> Z.
Variable PackageGenerationRequest_init :
  Router.TemplateArguments -> Outcome Router.PackageGenerationRequest.
Variable template_ai_config : Value.

(** X22: a request for a template other than the two of the table is
    answered with [404], and nothing is created: no record, no scheduled
    run, no clock reading. *)
Theorem unknown_template_creates_nothing (task_id template_id : string)
    (customization current_user : Dict) (w : Router.World) :
  template_id <> "typescript-library" ->
  template_id <> "react-component" ->
  Router.generate_from_template clock PackageGenerationRequest_init template_ai_config
    task_id template_id customization current_user w =
  (Raised (HTTPException 404 "Template not found"), w).
Proof.
  intros H1 H2.
  unfold Router.generate_from_template, Router.load_template, bind, ret.
  cbn [Router.templates_get Router.templates].
  apply not_eq_sym, String.eqb_neq in H1. apply not_eq_sym, String.eqb_neq in H2.
  rewrite H1, H2. reflexivity.
Qed.

(** X23: of the customization of a template request only [name] and
    [description] are read.  Two customizations that agree on these two
    keys give the same outcome and the same world, whatever else they
    hold: the type, the TypeScript and testing flags and the AI
    configuration of the request cannot be customized. *)
Theorem template_customization_reads_two_keys (task_id template_id : string)
    (customization customization' current_user : Dict) (w : Router.World) :
  dict_get customization "name" = dict_get customization' "name" ->
  dict_get customization "description" = dict_get customization' "description" ->
  Router.generate_from_template clock PackageGenerationRequest_init template_ai_config
    task_id template_id customization current_user w =
  Router.generate_from_template clock PackageGenerationRequest_init template_ai_config
    task_id template_id customization' current_user w.
Proof.
  intros Hname Hdescr. unfold Router.generate_from_template.
  rewrite Hname, Hdescr. reflexivity.
Qed.
End TemplateFacts.

(** ** From acceptance to the end of the run *)

Section EndToEnd.
Variable clock : nat -> Z.
Variable os_exec : list string -> option string -> Launch.
Variable which : string -> option string.
Variable path_exists : string -> bool.
Variable os_walk : string -> Outcome (list (string * list string * list string)).
Variable mkdtemp : string -> Outcome string.
Variable cli_path : string.
Variable json_loads : string -> Outcome Value.

(** X24: the job an acceptance schedules finishes the task it was
    accepted for.  The last job scheduled by [generate_package] and by
    [analyze_package] carries the identifier of the response; run in the
    world the endpoint left, with any child process and any file system,
    it returns, and a poll of the identifier then shows a task that is
    completed or failed, never running, with a completion time and the
    start time of the acceptance. *)
Theorem scheduled_job_finishes_task (gid aid : string)
    (grequest : Main.GenerationRequest) (arequest : Main.AnalysisRequest)
    (w gw aw : Main.World)
    (gresp : Main.GenerationResponse) (aresp : Main.AnalysisResponse) :
  Main.generate_package clock which path_exists mkdtemp cli_path gid grequest w =
    (Returned gresp, gw) ->
  Main.analyze_package clock which path_exists cli_path aid arequest w =
    (Returned aresp, aw) ->
  (exists command output_dir w' poll,
      last (Main.background gw) =
        Some (Main.RunGenerationTask (Main.generationId gresp) command output_dir) /\
      Main.run_generation_task clock os_exec path_exists os_walk
        (Main.generationId gresp) command output_dir gw = (Returned tt, w') /\
      Main.get_generation_status (Main.generationId gresp) w' = (Returned poll, w') /\
      (Main.gs_status poll = "completed" \/ Main.gs_status poll = "failed") /\
      is_Some (Main.gs_completed_at poll) /\
      Main.gs_started_at poll = clock (Main.ticks w)) /\
  (exists command w' poll,
      last (Main.background aw) =
        Some (Main.RunAnalysisTask (Main.analysisId aresp) command) /\
      Main.run_analysis_task clock os_exec json_loads
        (Main.analysisId aresp) command aw = (Returned tt, w') /\
      Main.get_analysis_status (Main.analysisId aresp) w' = (Returned poll, w') /\
      (Main.as_status poll = "completed" \/ Main.as_status poll = "failed") /\
      is_Some (Main.as_completed_at poll) /\
      Main.as_started_at poll = clock (Main.ticks w)).
Proof.
  intros Hg Ha. split.
  - pose proof (generate_package_effect clock which path_exists mkdtemp cli_path
                  gid grequest w) as H.
    rewrite Hg in H. destruct H as (cmd & out & Hrw & Hbg & ->).
    destruct (rewrites_lookup _ _ _ _ _ Hrw) as [Hnew _]. cbn in Hnew.
    destruct (run_generation_task_effect clock os_exec path_exists os_walk
                gid cmd out _ gw Hnew) as (w' & Hrun & Hrw' & _).
    destruct (rewrites_lookup _ _ _ _ _ Hrw') as [Hnew' _]. cbn in Hnew'.
    exists cmd, out, w'. eexists.
    split; [rewrite Hbg; apply last_snoc |]. split; [exact Hrun |].
    split; [eapply get_generation_status_present; [exact Hnew' |] |].
    + destruct (success (runner_result os_exec cmd None));
        [destruct (collected path_exists os_walk out) |]; reflexivity.
    + destruct (success (runner_result os_exec cmd None)) eqn:Hs;
        [destruct (collected path_exists os_walk out) |]; cbn; rewrite ?Hs;
        (split; [tauto |]); (split; [eexists; reflexivity | reflexivity]).
  - pose proof (analyze_package_effect clock which path_exists cli_path
                  aid arequest w) as H.
    rewrite Ha in H. destruct H as (cmd & Hrw & Hbg & ->).
    destruct (rewrites_lookup _ _ _ _ _ Hrw) as [Hnew _]. cbn in Hnew.
    destruct (run_analysis_task_effect clock os_exec json_loads aid cmd _ aw Hnew)
      as (w' & Hrun & Hrw' & _).
    destruct (rewrites_lookup _ _ _ _ _ Hrw') as [Hnew' _]. cbn in Hnew'.
    exists cmd, w'.
    unfold Main.get_analysis_status, bind, gets. cbn [fst snd]. rewrite Hnew'.
    destruct (parsed_document json_loads "Failed to parse analysis result"
                (runner_result os_exec cmd None)) as [v | e]; cbn.
    + eexists. split; [rewrite Hbg; apply last_snoc |]. split; [exact Hrun |].
      split; [reflexivity |].
      destruct (success (runner_result os_exec cmd None)) eqn:Hs; cbn; rewrite ?Hs;
        (split; [tauto |]); (split; [eexists; reflexivity | reflexivity]).
    + eexists. split; [rewrite Hbg; apply last_snoc |]. split; [exact Hrun |].
      split; [reflexivity |]. cbn.
      split; [tauto |]. split; [eexists; reflexivity | reflexivity].
Qed.
End EndToEnd.

(** ** Templates and UltraThink of [main.py] *)

Section ToolFacts.
Variable os_exec : list string -> option string -> Launch.
Variable which : string -> option string.
Variable path_exists : string -> bool.
Variable os_walk : string -> Outcome (list (string * list string * list string)).
Variable cli_path : string.
Variable json_loads : string -> Outcome Value.
Variable NamedTemporaryFile : Outcome string.
Variable json_dump : Dict -> Outcome unit.
Variable os_unlink : string -> Outcome unit.
Variable float_str : PrimFloat.float -> string.
Variable UltraThinkResponse_init :
  bool -> string -> Value -> Value -> Value -> Outcome Main.UltraThinkResponse.

(** X25: the configuration file of [generate_from_template].  When the
    file is written and removed without an error, it is gone when the
    endpoint answers, whether the command succeeded, failed, or the
    listing of the output raised: a failed command is answered with
    [500] and its standard error, a successful one with the files found
    under the output directory.  The file is left behind in two cases
    only, both answered with [500]: when [json.dump] raises, and when
    [os.unlink] raises. *)
Theorem template_config_file_is_removed (template_id : string)
    (request : Main.TemplateRequest) (created : Main.TempFiles) :
  let call := Main.generate_from_template os_exec which path_exists os_walk cli_path
                NamedTemporaryFile json_dump os_unlink template_id request in
  match NamedTemporaryFile with
  | Raised e =>
      call created =
      (Raised (HTTPException 500 ("Template generation failed: " +:+ str e)), created)
  | Returned config_name =>
      let r := runner_result os_exec
                 (Main.template_command cli_path template_id config_name
                    (Main.tr_outputDir request) (Main.get_node_executable which))
                 None in
      match json_dump (Main.tr_config request), os_unlink config_name with
      | Returned _, Returned _ =>
          world_after call created = created ∖ {[config_name]} /\
          (success r = false ->
           outcome_of call created =
           Raised (HTTPException 500
                     ("Template generation failed: 500: " +:+ stderr r))) /\
          (success r = true ->
           outcome_of call created =
           match collected path_exists os_walk (Main.tr_outputDir request) with
           | Returned found =>
               Returned {| Main.tpl_success := true;
                           Main.tpl_templateId := template_id;
                           Main.outputPath := Main.tr_outputDir request;
                           Main.tpl_files := found |}
           | Raised e =>
               Raised (HTTPException 500 ("Template generation failed: " +:+ str e))
           end)
      | Raised e, _ | Returned _, Raised e =>
          call created =
          (Raised (HTTPException 500 ("Template generation failed: " +:+ str e)),
           {[config_name]} ∪ created)
      end
  end.
Proof.
  intros call. subst call.
  unfold Main.generate_from_template, try_except, world_after, outcome_of.
  unfold bind, lift, modify.
  destruct NamedTemporaryFile as [config_name | e]; [| reflexivity].
  cbv beta iota.
  destruct (json_dump (Main.tr_config request)) as [[] | e]; [| reflexivity].
  cbv beta iota zeta.
  rewrite run_node_command_returns.
  set (r := runner_result os_exec _ None).
  cbv beta iota.
  destruct (os_unlink config_name) as [[] | e]; [| reflexivity].
  cbv beta iota.
  assert (Hgone : ({[config_name]} ∪ created) ∖ {[config_name]}
                  = created ∖ ({[config_name]} : Main.TempFiles)).
  { apply set_eq. intros x.
    rewrite !elem_of_difference, elem_of_union, elem_of_singleton. tauto. }
  rewrite Hgone.
  destruct (success r) eqn:Hs.
  - unfold collected, ret.
    destruct (path_exists (Main.tr_outputDir request)).
    + destruct (os_walk (Main.tr_outputDir request)) as [walked | e]; cbn [fst snd];
        (split; [reflexivity |]); (split; [discriminate | reflexivity]).
    + cbn [fst snd].
      split; [reflexivity |]. split; [discriminate | reflexivity].
  - cbn [fst snd raise].
    split; [reflexivity |]. split; [reflexivity | discriminate].
Qed.

(** What [ultrathink_generate] computes. *)
Lemma ultrathink_generate_body thinking_id request w :
  let r := runner_result os_exec
             (Main.ultrathink_command cli_path float_str request
                (Main.get_node_executable which)) None in
  let failed e := Raised (HTTPException 500 ("UltraThink failed: " +:+ str e)) in
  let unparsed :=
    Raised (HTTPException 500
              "UltraThink failed: 500: Failed to parse UltraThink result") in
  Main.ultrathink_generate os_exec which cli_path json_loads float_str
    UltraThinkResponse_init thinking_id request w =
  (if success r && negb (String.eqb (stdout r) "") then
     match json_loads (stdout r) with
     | Returned (VDict entries) =>
         match UltraThinkResponse_init true thinking_id
                 (default (VList []) (dict_get entries "solutions"))
                 (default (VList []) (dict_get entries "insights"))
                 (default (VList []) (dict_get entries "recommendations")) with
         | Returned resp => Returned resp
         | Raised e => if is_instance "JSONDecodeError" e then unparsed else failed e
         end
     | Returned v =>
         failed (Error "AttributeError"
                   ("'" +:+ type_name v +:+ "' object has no attribute 'get'"))
     | Raised e => if is_instance "JSONDecodeError" e then unparsed else failed e
     end
   else failed (HTTPException 500 (stderr r)), w).
Proof.
  intros r failed unparsed. subst failed unparsed.
  unfold Main.ultrathink_generate, try_except.
  unfold bind at 1. rewrite run_node_command_returns. fold r.
  destruct (success r && negb (String.eqb (stdout r) "")); [| reflexivity].
  unfold try_except_only, bind, lift, method_get, ret, raise.
  destruct (json_loads (stdout r)) as [v | e].
  - destruct v; try reflexivity.
    cbv beta iota.
    match goal with
    | |- context [UltraThinkResponse_init ?a ?b ?c ?d ?e] =>
        destruct (UltraThinkResponse_init a b c d e) as [resp | e']
    end; [reflexivity |].
    cbv beta iota. destruct (is_instance "JSONDecodeError" e'); reflexivity.
  - cbv beta iota. destruct (is_instance "JSONDecodeError" e); reflexivity.
Qed.

(** X26: [ultrathink_generate] either answers with a response built with
    [success = True] from a parsed document, or raises an HTTP [500]:
    it never answers with [success = False].  A failed command, and a
    successful one that printed nothing, are answered with the standard
    error of the command behind two prefixes, and an output that is not
    JSON with a fixed note.  The stores, the scheduled jobs and the
    clock are as before the call. *)
Theorem ultrathink_generate_answers (thinking_id : string)
    (request : Main.UltraThinkRequest) (w : Main.World) :
  let r := runner_result os_exec
             (Main.ultrathink_command cli_path float_str request
                (Main.get_node_executable which)) None in
  let call := Main.ultrathink_generate os_exec which cli_path json_loads float_str
                UltraThinkResponse_init thinking_id request in
  world_after call w = w /\
  match outcome_of call w with
  | Returned resp =>
      success r = true /\ stdout r <> "" /\
      exists entries,
        json_loads (stdout r) = Returned (VDict entries) /\
        UltraThinkResponse_init true thinking_id
          (default (VList []) (dict_get entries "solutions"))
          (default (VList []) (dict_get entries "insights"))
          (default (VList []) (dict_get entries "recommendations")) = Returned resp
  | Raised e => exists detail, e = HTTPException 500 ("UltraThink failed: " +:+ detail)
  end /\
  (success r = false \/ stdout r = "" ->
   outcome_of call w =
   Raised (HTTPException 500 ("UltraThink failed: 500: " +:+ stderr r))) /\
  (forall msg,
      success r = true -> stdout r <> "" ->
      json_loads (stdout r) = Raised (Error "JSONDecodeError" msg) ->
      outcome_of call w =
      Raised (HTTPException 500
                "UltraThink failed: 500: Failed to parse UltraThink result")).
Proof.
  intros r call. subst call.
  unfold world_after, outcome_of. rewrite ultrathink_generate_body. fold r.
  cbn [fst snd]. cbv zeta. split; [reflexivity |].
  destruct (success r) eqn:Hs; cbn [andb].
  - destruct (String.eqb (stdout r) "") eqn:Hout; cbn [negb].
    + apply String.eqb_eq in Hout.
      split; [cbv beta iota; eexists; reflexivity |].
      split; [reflexivity |]. intros msg _ Hne. contradiction.
    + apply String.eqb_neq in Hout.
      destruct (json_loads (stdout r)) as [v | e] eqn:Hj.
      * assert (Hr2 : forall msg : string,
                   Returned v = Raised (Error "JSONDecodeError" msg) -> False)
          by (intros msg Hv; discriminate Hv).
        destruct v as [| b | n | s | l | entries];
          try (split; [cbv beta iota; eexists; reflexivity |];
               split; [intros [Hf | He]; [congruence | contradiction] |];
               intros msg _ _ H3; destruct (Hr2 msg H3)).
        destruct (UltraThinkResponse_init true thinking_id _ _ _) as [resp | e] eqn:Hinit.
        -- split; [cbv beta iota; split; [reflexivity |]; split; [exact Hout |];
                   exists entries; split; [reflexivity | exact Hinit] |].
           split; [intros [Hf | He]; [congruence | contradiction] |].
           intros msg _ _ H3; destruct (Hr2 msg H3).
        -- destruct (is_instance "JSONDecodeError" e);
             (split; [cbv beta iota; eexists; reflexivity |]);
             (split; [intros [Hf | He]; [congruence | contradiction] |]);
             intros msg _ _ H3; destruct (Hr2 msg H3).
      * destruct (is_instance "JSONDecodeError" e) eqn:Hi.
        -- split; [cbv beta iota; eexists; reflexivity |].
           split; [intros [Hf | He]; [congruence | contradiction] |].
           intros msg _ _ _. reflexivity.
        -- split; [cbv beta iota; eexists; reflexivity |].
           split; [intros [Hf | He]; [congruence | contradiction] |].
           intros msg _ _ [= ->]. cbn in Hi. discriminate Hi.
  - split; [cbv beta iota; eexists; reflexivity |].
    split; [reflexivity |]. intros msg Hf. discriminate Hf.
Qed.
End ToolFacts.

(** ** The properties at work *)

Lemma main_failed_reachable : reachable demo_clock main_failed.
Proof.
  exact (reachable_step demo_clock _
           (CallRunGenerationTask failing_child demo_path_exists demo_os_walk "gen-1"
              ["/usr/bin/node"; demo_cli_path; "generate"; "demo-lib"] "/tmp/out")
           (reachable_step demo_clock _
              (CallGeneratePackage demo_which demo_path_exists demo_mkdtemp demo_cli_path
                 "gen-1" demo_generation_request)
              (reachable_start demo_clock))).
Qed.

Lemma main_failed_task :
  exists t, Main.tasks_of Main.Generation (Main.stores main_failed) !! "gen-1" = Some t /\
            Main.status t = "failed".
Proof. vm_compute. eexists. split; reflexivity. Qed.

(** X1 at work: the task failed by a child that exits with code 1 holds
    the result of that child. *)
Lemma reachable_stores_ok_witness :
  reachable demo_clock main_failed /\
  exists t,
    Main.tasks_of Main.Generation (Main.stores main_failed) !! "gen-1" = Some t /\
    Main.id t = "gen-1" /\
    is_Some (Main.completed_at t) /\
    ((exists r, Main.result t = Some r /\ success r = false) \/ is_Some (Main.error t)).
Proof.
  split; [exact main_failed_reachable |].
  destruct main_failed_task as (t & Ht & Hs). exists t. split; [exact Ht |].
  destruct (reachable_stores_ok demo_clock main_failed Main.Generation "gen-1" t
              main_failed_reachable Ht) as (Hid & _ & _ & _ & Hdone & _ & Hfailed).
  split; [exact Hid |]. split; [| exact (Hfailed Hs)].
  apply Hdone. rewrite Hs. discriminate.
Defined.

(** X2 at work: the metrics after one failed generation. *)
Lemma metrics_add_up_witness :
  reachable demo_clock main_failed /\
  exists m w',
    Main.get_metrics demo_clock demo_which "/tmp" main_failed = (Returned m, w') /\
    Main.total (Main.generation_counts m) =
    Main.running (Main.generation_counts m) + Main.completed (Main.generation_counts m)
    + Main.failed (Main.generation_counts m).
Proof.
  split; [exact main_failed_reachable |].
  destruct (metrics_add_up demo_clock demo_which "/tmp" main_failed main_failed_reachable)
    as (m & w' & Hrun & _ & Hsum).
  exists m, w'. split; [exact Hrun |]. apply Hsum. left. reflexivity.
Defined.

(** X3 at work: the failed generation is answered with its record, an
    analysis of that name with [404]. *)
Lemma polls_answer_witness :
  reachable demo_clock main_failed /\
  (exists resp,
      Main.get_generation_status "gen-1" main_failed = (Returned resp, main_failed) /\
      Main.gs_status resp = "failed") /\
  Main.get_analysis_status "gen-1" main_failed =
    (Raised (HTTPException 404 "Analysis not found"), main_failed).
Proof.
  split; [exact main_failed_reachable |].
  destruct (polls_answer demo_clock main_failed "gen-1" main_failed_reachable)
    as (Hg & Ha & _).
  destruct main_failed_task as (t & Ht & Hs). cbn [Main.tasks_of] in Ht.
  rewrite Ht in Hg. destruct Hg as (resp & Hrun & Hst & _).
  split; [exists resp; split; [exact Hrun | rewrite Hst; exact Hs] |].
  assert (Hnone : Main.analysis_tasks (Main.stores main_failed) !! "gen-1" = None)
    by (vm_compute; reflexivity).
  rewrite Hnone in Ha. exact Ha.
Defined.

(** X5 at work: three acceptances on an empty service. *)
Lemma accepted_task_resolves_witness :
  exists gresp gw aresp aw presp pw,
    Main.generate_package demo_clock demo_which demo_path_exists demo_mkdtemp
      demo_cli_path "gen-1" demo_generation_request main_empty = (Returned gresp, gw) /\
    Main.analyze_package demo_clock demo_which demo_path_exists demo_cli_path
      "ana-1" demo_analysis_request main_empty = (Returned aresp, aw) /\
    Main.publish_package demo_clock demo_which demo_path_exists
      "pub-1" demo_publish_request main_empty = (Returned presp, pw) /\
    (exists poll,
        Main.get_generation_status (Main.generationId gresp) gw = (Returned poll, gw) /\
        Main.gs_status poll = "running") /\
    (exists poll,
        Main.get_analysis_status (Main.analysisId aresp) aw = (Returned poll, aw) /\
        Main.as_status poll = "running") /\
    (exists poll,
        Main.get_publish_status (Main.publishId (fst presp)) pw = (Returned poll, pw) /\
        Main.ps_status poll = "running").
Proof.
  eexists _, _, _, _, _, _.
  split; [vm_compute; reflexivity |]. split; [vm_compute; reflexivity |].
  split; [vm_compute; reflexivity |].
  match goal with
  | |- (exists pa, Main.get_generation_status _ ?gw = _ /\ _) /\
       (exists pb, Main.get_analysis_status _ ?aw = _ /\ _) /\
       (exists pc, Main.get_publish_status _ ?pw = _ /\ _) =>
      destruct (accepted_task_resolves demo_clock demo_which demo_path_exists
                  demo_mkdtemp demo_cli_path "gen-1" "ana-1" "pub-1"
                  demo_generation_request demo_analysis_request demo_publish_request
                  main_empty gw aw pw _ _ _
                  ltac:(vm_compute; reflexivity) ltac:(vm_compute; reflexivity)
                  ltac:(vm_compute; reflexivity))
        as ((p1 & Hp1 & Hs1 & _) & (p2 & Hp2 & Hs2 & _) & (p3 & Hp3 & Hs3 & _))
  end.
  split; [exists p1; split; [exact Hp1 | exact Hs1] |].
  split; [exists p2; split; [exact Hp2 | exact Hs2] |].
  exists p3. split; [exact Hp3 | exact Hs3].
Defined.

(** X6 at work: a run for [gen-9] on the empty service. *)
Lemma run_without_record_witness :
  (forall f, Main.tasks_of f (Main.stores main_empty) !! "gen-9" = None) /\
  Main.run_generation_task demo_clock failing_child demo_path_exists demo_os_walk
    "gen-9" ["node"] "/tmp/out" main_empty = (Raised (KeyError "gen-9"), main_empty).
Proof.
  assert (H : forall f, Main.tasks_of f (Main.stores main_empty) !! "gen-9" = None)
    by (intros []; reflexivity).
  split; [exact H |].
  exact (proj1 (run_without_record demo_clock failing_child demo_path_exists demo_os_walk
                  demo_json_loads "gen-9" ["node"] "/tmp/out" main_empty H)).
Defined.

(** X8 at work: the poll after the run of a child that exits with
    code 1. *)
Lemma generation_poll_after_run_witness :
  current_task "gen-1" main_accepted =
    Some (Main.new_task "gen-1" (Main.GenerationInfo demo_config) (demo_clock 0)
            (Main.generation_command demo_cli_path demo_config "/usr/bin/node" "/tmp/out")) /\
  exists w' poll,
    Main.run_generation_task demo_clock failing_child demo_path_exists demo_os_walk
      "gen-1" ["node"] "/tmp/out" main_accepted = (Returned tt, w') /\
    Main.get_generation_status "gen-1" w' = (Returned poll, w') /\
    Main.gs_status poll = "failed" /\ Main.gs_files poll = [] /\
    Main.gs_error poll = None.
Proof.
  split; [exact main_accepted_task |].
  destruct (generation_poll_after_run demo_clock failing_child demo_path_exists
              demo_os_walk "gen-1" ["node"] "/tmp/out" _ demo_config main_accepted
              main_accepted_task eq_refl eq_refl)
    as (w' & poll & Hrun & Hpoll & _ & _ & Hfailed & _).
  exists w', poll. split; [exact Hrun |]. split; [exact Hpoll |].
  exact (Hfailed eq_refl).
Defined.

Lemma main_analysing_task :
  Main.analysis_tasks (Main.stores main_analysing) !! "ana-1" =
  Some (Main.new_task "ana-1" (Main.AnalysisInfo "/srv/pkg" "comprehensive") (demo_clock 0)
          (Main.analysis_command demo_cli_path demo_analysis_request "/usr/bin/node")).
Proof. vm_compute. reflexivity. Qed.

(** X9 at work: an analysis whose command prints a version, not a
    document: the task is completed, with the note as its result. *)
Lemma analysis_poll_after_run_witness :
  Main.analysis_tasks (Main.stores main_analysing) !! "ana-1" =
    Some (Main.new_task "ana-1" (Main.AnalysisInfo "/srv/pkg" "comprehensive")
            (demo_clock 0)
            (Main.analysis_command demo_cli_path demo_analysis_request "/usr/bin/node")) /\
  exists w' poll,
    Main.run_analysis_task demo_clock version_child demo_json_loads "ana-1" ["node"]
      main_analysing = (Returned tt, w') /\
    Main.get_analysis_status "ana-1" w' = (Returned poll, w') /\
    Main.as_status poll = "completed" /\
    Main.as_result poll = VDict [("error", VStr "Failed to parse analysis result")].
Proof.
  split; [exact main_analysing_task |].
  destruct (analysis_poll_after_run demo_clock version_child demo_json_loads "ana-1"
              ["node"] _ "/srv/pkg" "comprehensive" main_analysing
              main_analysing_task eq_refl)
    as (w' & poll & Hrun & Hpoll & _ & _ & _ & Hnote & _).
  exists w', poll. split; [exact Hrun |]. split; [exact Hpoll |].
  destruct (Hnote "Expecting value" eq_refl ltac:(discriminate) eq_refl) as (Hs & Hr & _).
  split; [exact Hs | exact Hr].
Defined.

(** X10 at work: a dry run for the tag [next]; the same command would
    run for another registry. *)
Lemma publish_job_runs_in_package_directory_witness :
  exists resp w1 w2 poll,
    let cmd := ["/usr/bin/node"; "publish"; "--dry-run"; "--access"; "public";
                "--tag"; "next"] in
    Main.publish_package demo_clock demo_which demo_path_exists "pub-1"
      demo_publish_request main_empty =
      (Returned (resp, [Main.RunPublishTask "pub-1" cmd "/srv/pkg"]), w1) /\
    Main.publish_command demo_publish_elsewhere (Main.get_npm_executable demo_which) = cmd /\
    Main.run_publish_task demo_clock failing_child "pub-1" cmd "/srv/pkg" w1 =
      (Returned tt, w2) /\
    Main.get_publish_status "pub-1" w2 = (Returned poll, w2) /\
    Main.ps_status poll = "failed" /\
    Main.ps_registry poll = "https://registry.npmjs.org".
Proof.
  eexists _, _.
  assert (Hp : Main.publish_package demo_clock demo_which demo_path_exists "pub-1"
                 demo_publish_request main_empty =
               (Returned (_, [Main.RunPublishTask "pub-1"
                                ["/usr/bin/node"; "publish"; "--dry-run"; "--access";
                                 "public"; "--tag"; "next"] "/srv/pkg"]), _))
    by (vm_compute; reflexivity).
  destruct (publish_job_runs_in_package_directory demo_clock failing_child demo_which
              demo_path_exists "pub-1" demo_publish_request main_empty _ _ _ Hp)
    as (cmd & w2 & poll & Hjobs & Hsame & Hrun & Hpoll & _ & Hs & Hreg & _).
  injection Hjobs as <-.
  exists w2, poll. cbv zeta.
  split; [exact Hp |].
  split; [exact (Hsame demo_publish_elsewhere eq_refl eq_refl eq_refl) |].
  split; [exact Hrun |]. split; [exact Hpoll |].
  split; [exact Hs | exact Hreg].
Defined.

(** X13 at work: an optimisation whose command fails: the response says
    so and holds nothing else. *)
Lemma optimize_package_without_document_witness :
  demo_path_exists (Main.opt_packagePath demo_optimization_request) = true /\
  exists resp,
    Main.optimize_package failing_child demo_which demo_path_exists demo_cli_path
      demo_json_loads demo_OptimizationResponse_init "opt-1" demo_optimization_request
      main_empty = (Returned resp, main_empty) /\
    Main.opt_success resp = false /\ Main.opt_metrics resp = [].
Proof.
  split; [reflexivity |].
  eexists. split.
  - apply (optimize_package_without_document failing_child demo_which demo_path_exists
             demo_cli_path demo_json_loads demo_OptimizationResponse_init "opt-1"
             demo_optimization_request main_empty eq_refl).
    + left. reflexivity.
    + reflexivity.
  - split; reflexivity.
Defined.

(** X16 at work: the flags on a machine where [which] finds the
    programs. *)
Lemma metrics_availability_is_constant_witness :
  demo_which "node" <> Some "" /\
  exists m w',
    Main.get_metrics demo_clock demo_which "/tmp" main_empty = (Returned m, w') /\
    Main.node_available m = true /\ Main.npm_available m = true.
Proof.
  assert (H : demo_which "node" <> Some "") by discriminate.
  split; [exact H |].
  exact (metrics_availability_is_constant demo_clock demo_which "/tmp" main_empty H).
Defined.

Lemma router_done_reachable : router_reachable demo_clock router_done.
Proof.
  exact (router_reachable_step demo_clock _
           (CallGeneratePackageAsync demo_analyze_idea demo_generate_source_code
              demo_generate_tests demo_create_package "task-1" demo_request
              (VStr "user-1"))
           (router_reachable_step demo_clock _
              (CallRouterGeneratePackage "task-1" demo_request demo_user)
              (router_reachable_start demo_clock))).
Qed.

Lemma router_done_task :
  exists r, Router.generation_tasks router_done !! "task-1" = Some r /\
            Router.status r = "completed".
Proof. vm_compute. eexists. split; reflexivity. Qed.

(** X19 at work: the record of a run that went through. *)
Lemma router_records_well_formed_witness :
  router_reachable demo_clock router_done /\
  exists r,
    Router.generation_tasks router_done !! "task-1" = Some r /\
    Router.progress r = 100 /\ Router.stage r = "done" /\
    is_Some (Router.result r) /\ Router.error r = None.
Proof.
  split; [exact router_done_reachable |].
  destruct router_done_task as (r & Hr & Hs). exists r. split; [exact Hr |].
  destruct (router_records_well_formed demo_clock router_done "task-1" r
              router_done_reachable Hr) as (_ & _ & _ & _ & _ & _ & Hdone & _).
  exact (Hdone Hs).
Defined.

(** X20 at work: accepting [task-2] leaves [task-1] as it was. *)
Lemma router_never_forgets_witness :
  Router.generation_tasks router_accepted !! "task-1" =
    Some (pending "task-1" (demo_clock 0) (demo_clock 1)) /\
  Router.generation_tasks
    (router_perform demo_clock (CallRouterGeneratePackage "task-2" demo_request demo_user)
       router_accepted) !! "task-1" =
    Some (pending "task-1" (demo_clock 0) (demo_clock 1)).
Proof.
  split; [exact router_accepted_task |].
  destruct (router_never_forgets demo_clock
              (CallRouterGeneratePackage "task-2" demo_request demo_user)
              router_accepted "task-1" _ router_accepted_task)
    as (r' & Hr' & Hsame & _).
  rewrite Hr'. f_equal. apply Hsame. discriminate.
Defined.

(** X22 at work: there is no template [vue-app]. *)
Lemma unknown_template_creates_nothing_witness :
  "vue-app" <> "typescript-library" /\ "vue-app" <> "react-component" /\
  Router.generate_from_template demo_clock demo_PackageGenerationRequest_init
    (VDict [("model", VStr "gpt-4o-mini")]) "task-1" "vue-app" [] demo_user router_empty =
  (Raised (HTTPException 404 "Template not found"), router_empty).
Proof.
  assert (H1 : "vue-app" <> "typescript-library") by discriminate.
  assert (H2 : "vue-app" <> "react-component") by discriminate.
  split; [exact H1 |]. split; [exact H2 |].
  exact (unknown_template_creates_nothing demo_clock demo_PackageGenerationRequest_init
           (VDict [("model", VStr "gpt-4o-mini")]) "task-1" "vue-app" [] demo_user
           router_empty H1 H2).
Defined.

(** X23 at work: a customization that also asks for another type. *)
Lemma template_customization_reads_two_keys_witness :
  let plain := [("name", VStr "dates")] in
  let eager := [("name", VStr "dates"); ("type", VStr "cli-tool")] in
  dict_get eager "name" = dict_get plain "name" /\
  dict_get eager "description" = dict_get plain "description" /\
  Router.generate_from_template demo_clock demo_PackageGenerationRequest_init
    (VDict [("model", VStr "gpt-4o-mini")]) "task-1" "typescript-library" eager
    demo_user router_empty =
  Router.generate_from_template demo_clock demo_PackageGenerationRequest_init
    (VDict [("model", VStr "gpt-4o-mini")]) "task-1" "typescript-library" plain
    demo_user router_empty.
Proof.
  cbv zeta. split; [reflexivity |]. split; [reflexivity |].
  exact (template_customization_reads_two_keys demo_clock
           demo_PackageGenerationRequest_init (VDict [("model", VStr "gpt-4o-mini")])
           "task-1" "typescript-library"
           [("name", VStr "dates"); ("type", VStr "cli-tool")] [("name", VStr "dates")]
           demo_user router_empty eq_refl eq_refl).
Defined.

(** X24 at work: a generation and an analysis carried to their end by a
    child that exits with code 1. *)
Lemma scheduled_job_finishes_task_witness :
  exists gresp gw aresp aw,
    Main.generate_package demo_clock demo_which demo_path_exists demo_mkdtemp
      demo_cli_path "gen-1" demo_generation_request main_empty = (Returned gresp, gw) /\
    Main.analyze_package demo_clock demo_which demo_path_exists demo_cli_path
      "ana-1" demo_analysis_request main_empty = (Returned aresp, aw) /\
    (exists command output_dir w' poll,
        last (Main.background gw) =
          Some (Main.RunGenerationTask (Main.generationId gresp) command output_dir) /\
        Main.run_generation_task demo_clock failing_child demo_path_exists demo_os_walk
          (Main.generationId gresp) command output_dir gw = (Returned tt, w') /\
        Main.get_generation_status (Main.generationId gresp) w' = (Returned poll, w') /\
        (Main.gs_status poll = "completed" \/ Main.gs_status poll = "failed")) /\
    (exists command w' poll,
        last (Main.background aw) =
          Some (Main.RunAnalysisTask (Main.analysisId aresp) command) /\
        Main.run_analysis_task demo_clock failing_child demo_json_loads
          (Main.analysisId aresp) command aw = (Returned tt, w') /\
        Main.get_analysis_status (Main.analysisId aresp) w' = (Returned poll, w') /\
        (Main.as_status poll = "completed" \/ Main.as_status poll = "failed")).
Proof.
  eexists _, _, _, _.
  split; [vm_compute; reflexivity |]. split; [vm_compute; reflexivity |].
  match goal with
  | |- (exists ca oa wa pa, last (Main.background ?gw) = _ /\ _) /\
       (exists cb wb pb, last (Main.background ?aw) = _ /\ _) =>
      destruct (scheduled_job_finishes_task demo_clock failing_child demo_which
                  demo_path_exists demo_os_walk demo_mkdtemp demo_cli_path
                  demo_json_loads "gen-1" "ana-1" demo_generation_request
                  demo_analysis_request main_empty gw aw _ _
                  ltac:(vm_compute; reflexivity) ltac:(vm_compute; reflexivity))
        as ((c1 & o1 & w1 & p1 & Hj1 & Hr1 & Hp1 & Hs1 & _)
            & (c2 & w2 & p2 & Hj2 & Hr2 & Hp2 & Hs2 & _))
  end.
  split.
  - exists c1, o1, w1, p1. split; [exact Hj1 |]. split; [exact Hr1 |].
    split; [exact Hp1 | exact Hs1].
  - exists c2, w2, p2. split; [exact Hj2 |]. split; [exact Hr2 |].
    split; [exact Hp2 | exact Hs2].
Defined.
